(** * Bharat regional-language fact/news detection: batching pipeline and
      Devanagari language disambiguation

    A shallow embedding of [src/final.py] (chunking, batching and analysis
    pipeline) and [src/main/lang_indicators.py] (the hybrid language
    detector), with the properties of the specification stated and proved
    over it.

    Conventions.
    - A Python [str] is a sequence of Unicode code points: [pystr]. String
      literals of the sources are written as UTF-8 literals and decoded by
      [u], so the keyword tables can be compared with the source verbatim.
    - A value read by [json.load] is a [json] tree; Python's dynamically
      typed operations on it ([.get], [len], iteration, [str.join]) are
      partial and raise the exception CPython raises.
    - Code that can raise returns a [result]; code that touches the file
      system threads a [fs] explicitly.  Paths are the plain names of
      entries of the working directory ([plain_name]); a directory of the
      pipeline holds regular files only; writing to standard output does
      not fail.
    - Third-party collaborators (langdetect's [detect], the text splitter
      class, [json.dump], the local model) are parameters of the sections
      that use them. *)

From Stdlib Require Import ZArith NArith List String Ascii Lia DecimalN.
From stdpp Require Import base option list strings gmap sorting.

Set Warnings "-register-all".

Open Scope string_scope.
Open Scope list_scope.

(* ===================================================================== *)
(** * Python built-ins used by the two sources                            *)
(* ===================================================================== *)

Module Py.

(** A Python [str]: the list of its code points. *)
Abbreviation pystr := (list N).

Definition bytes_of (s : string) : list N :=
  List.map N_of_ascii (list_ascii_of_string s).

(** UTF-8 decoding of a source literal (well-formed input only: the
    literals of the two source files). *)
Fixpoint utf8_decode (bs : list N) : list N :=
  match bs with
  | [] => []
  | b :: r =>
    if (b <? 0x80)%N then b :: utf8_decode r
    else if (b <? 0xE0)%N then
      match r with
      | c1 :: r1 => ((b - 0xC0) * 64 + (c1 - 0x80))%N :: utf8_decode r1
      | _ => []
      end
    else if (b <? 0xF0)%N then
      match r with
      | c1 :: c2 :: r2 =>
        ((b - 0xE0) * 4096 + (c1 - 0x80) * 64 + (c2 - 0x80))%N :: utf8_decode r2
      | _ => []
      end
    else
      match r with
      | c1 :: c2 :: c3 :: r3 =>
        ((b - 0xF0) * 262144 + (c1 - 0x80) * 4096 + (c2 - 0x80) * 64
         + (c3 - 0x80))%N :: utf8_decode r3
      | _ => []
      end
  end.

(** [u "..."] is the Python string written by that literal. *)
Definition u (s : string) : pystr := utf8_decode (bytes_of s).

(** [s.startswith(p)] *)
Fixpoint startswith (p s : pystr) : bool :=
  match p, s with
  | [], _ => true
  | _ :: _, [] => false
  | a :: p', b :: s' => (a =? b)%N && startswith p' s'
  end.

(** [w in text] on strings: [w] occurs as a contiguous substring. *)
Fixpoint contains (w text : pystr) : bool :=
  startswith w text ||
  match text with
  | [] => false
  | _ :: t => contains w t
  end.

(** [str.isspace] on one character (the set [str.strip()] removes). *)
Definition isspace (c : N) : bool :=
  (((0x09 <=? c) && (c <=? 0x0D)) || ((0x1C <=? c) && (c <=? 0x20))
   || (c =? 0x85) || (c =? 0xA0) || (c =? 0x1680)
   || ((0x2000 <=? c) && (c <=? 0x200A))
   || (c =? 0x2028) || (c =? 0x2029) || (c =? 0x202F) || (c =? 0x205F)
   || (c =? 0x3000))%N.

Fixpoint lstrip (s : pystr) : pystr :=
  match s with
  | [] => []
  | c :: t => if isspace c then lstrip t else s
  end.

Definition rstrip (s : pystr) : pystr := rev (lstrip (rev s)).

(** [s.strip()] *)
Definition strip (s : pystr) : pystr := rstrip (lstrip s).

(** [len(s)] *)
Definition len (s : pystr) : Z := Z.of_nat (length s).

(** [max(items, key=lambda x: x[1])] on a non-empty list: the first item
    whose key is maximal (CPython replaces the running maximum only on a
    strictly greater key). *)
Fixpoint max_by_snd {A} (cur : A * Z) (rest : list (A * Z)) : A * Z :=
  match rest with
  | [] => cur
  | x :: r => if (x.2 >? cur.2)%Z then max_by_snd x r else max_by_snd cur r
  end.

(** [s.endswith(suffix)] *)
Definition endswith (s suffix : pystr) : bool :=
  startswith (rev suffix) (rev s).

(** The loop of [s.split(sep, maxsplit)] for a non-empty [sep]: [limit]
    splits are still allowed, [skip] characters of a separator just matched
    are still to be passed over, [acc] is the current piece, reversed. *)
Fixpoint split_aux (sep : pystr) (limit skip : nat) (acc s : pystr)
  : list pystr :=
  match s with
  | [] => [rev acc]
  | c :: t =>
    match skip with
    | S k => split_aux sep limit k acc t
    | O =>
      match limit with
      | S lim =>
        if startswith sep s
        then rev acc :: split_aux sep lim (length sep - 1) [] t
        else split_aux sep limit O (c :: acc) t
      | O => split_aux sep limit O (c :: acc) t
      end
    end
  end.

(** [s.split(sep)] and [s.split(sep, maxsplit)]; [None] is no limit. *)
Definition split (sep : pystr) (maxsplit : option nat) (s : pystr)
  : list pystr :=
  split_aux sep (default (length s) maxsplit) O [] s.

(** The decimal digits of a natural number, most significant first. *)
Fixpoint uint_codes (d : Decimal.uint) : pystr :=
  match d with
  | Decimal.Nil => []
  | Decimal.D0 r => 48%N :: uint_codes r
  | Decimal.D1 r => 49%N :: uint_codes r
  | Decimal.D2 r => 50%N :: uint_codes r
  | Decimal.D3 r => 51%N :: uint_codes r
  | Decimal.D4 r => 52%N :: uint_codes r
  | Decimal.D5 r => 53%N :: uint_codes r
  | Decimal.D6 r => 54%N :: uint_codes r
  | Decimal.D7 r => 55%N :: uint_codes r
  | Decimal.D8 r => 56%N :: uint_codes r
  | Decimal.D9 r => 57%N :: uint_codes r
  end.

(** The number a string of decimal digits writes, as digits again: the
    inverse of [uint_codes]. *)
Fixpoint codes_uint (s : pystr) : Decimal.uint :=
  match s with
  | [] => Decimal.Nil
  | c :: r =>
    if (c =? 48)%N then Decimal.D0 (codes_uint r)
    else if (c =? 49)%N then Decimal.D1 (codes_uint r)
    else if (c =? 50)%N then Decimal.D2 (codes_uint r)
    else if (c =? 51)%N then Decimal.D3 (codes_uint r)
    else if (c =? 52)%N then Decimal.D4 (codes_uint r)
    else if (c =? 53)%N then Decimal.D5 (codes_uint r)
    else if (c =? 54)%N then Decimal.D6 (codes_uint r)
    else if (c =? 55)%N then Decimal.D7 (codes_uint r)
    else if (c =? 56)%N then Decimal.D8 (codes_uint r)
    else if (c =? 57)%N then Decimal.D9 (codes_uint r)
    else Decimal.Nil
  end.

(** [format(z, "0{width}d")], the f-string conversions [:02d], [:04d]. *)
Definition format_d (width : nat) (z : Z) : pystr :=
  let body := uint_codes (N.to_uint (Z.abs_N z)) in
  if (z <? 0)%Z
  then 45%N :: replicate (width - 1 - length body) 48%N ++ body
  else replicate (width - length body) 48%N ++ body.

(** [a <= b] on strings: lexicographic on code points, the order of
    [list.sort()]. *)
Fixpoint str_leb (a b : pystr) : bool :=
  match a, b with
  | [], _ => true
  | _ :: _, [] => false
  | x :: a', y :: b' => (x <? y)%N || ((x =? y)%N && str_leb a' b')
  end.

(** [names.sort()]: the names in ascending order. *)
Definition sorted (names : list pystr) : list pystr :=
  merge_sort (fun a b => Is_true (str_leb a b)) names.

End Py.

(* ===================================================================== *)
(** * src/main/lang_indicators.py                                        *)
(* ===================================================================== *)

Module LangIndicators.
Import Py.

(** [self.devanagari_langs] *)
Definition devanagari_langs : list string := ["hi"; "mr"; "gu"; "sa"; "ne"].

(** [self.devanagari_indicators], in the dictionary's insertion order. *)
Definition devanagari_indicators : list (string * list (pystr * Z)) :=
  [ ("hi",
     [ (u "है", 3); (u "हैं", 3); (u "हो", 2); (u "क्या", 2); (u "यह", 2);
       (u "वह", 2); (u "मैं", 2); (u "तुम", 2); (u "को", 1); (u "से", 1);
       (u "ने", 1); (u "पर", 1); (u "में", 1); (u "का", 1); (u "की", 1);
       (u "के", 1) ]%Z);
    ("mr",
     [ (u "आहे", 3); (u "आहोत", 3); (u "काय", 2); (u "हा", 2); (u "ती", 2);
       (u "मी", 2); (u "तू", 2); (u "आम्ही", 2); (u "तुम्ही", 2); (u "ला", 1);
       (u "ने", 1); (u "च", 1); (u "पण", 1); (u "आणि", 1) ]%Z);
    ("gu",
     [ (u "છે", 3); (u "થાય", 3); (u "શું", 2); (u "આ", 2); (u "તે", 2);
       (u "હું", 2); (u "તમે", 2); (u "ને", 1); (u "થી", 1); (u "અને", 1);
       (u "પણ", 1) ]%Z);
    ("sa",
     [ (u "अस्ति", 3); (u "भवति", 3); (u "किम्", 2); (u "अहम्", 2);
       (u "त्वम्", 2); (u "सः", 2); (u "तत्", 2); (u "च", 1); (u "वा", 1) ]%Z);
    ("ne",
     [ (u "छ", 3); (u "हो", 2); (u "के", 2); (u "यो", 2); (u "त्यो", 2);
       (u "म", 2); (u "तिमी", 2); (u "हामी", 2); (u "लाई", 1); (u "बाट", 1);
       (u "र", 1) ]%Z) ].

(** [self.lang_code_map]: detector code to IndicTrans2 code. *)
Definition lang_code_map : gmap string string :=
  list_to_map
    [ ("hi", "hin_Deva"); ("mr", "mar_Deva"); ("bn", "ben_Beng");
      ("ta", "tam_Taml"); ("te", "tel_Telu"); ("gu", "guj_Gujr");
      ("kn", "kan_Knda"); ("ml", "mal_Mlym"); ("pa", "pan_Guru");
      ("or", "ory_Orya"); ("as", "asm_Beng"); ("ur", "urd_Arab");
      ("en", "eng_Latn"); ("ne", "nep_Deva"); ("si", "sin_Sinh");
      ("sa", "san_Deva") ].

(** [is_devanagari_script]: some character lies in U+0900..U+097F. *)
Definition is_devanagari_script (text : pystr) : bool :=
  existsb (fun char => (0x0900 <=? char)%N && (char <=? 0x097F)%N) text.

(** The inner loop of [detect_devanagari_language]: the score of one
    language, [score += weight] for every [word in text]. *)
Definition keyword_score (indicators : list (pystr * Z)) (text : pystr) : Z :=
  fold_left
    (fun score '(word, weight) =>
       if contains word text then (score + weight)%Z else score)
    indicators 0%Z.

(** The body of the outer loop: [lang_scores[lang] = score] when the
    score is positive. *)
Definition record_score (text : pystr) (scores : list (string * Z))
  (entry : string * list (pystr * Z)) : list (string * Z) :=
  let '(lang, indicators) := entry in
  let score := keyword_score indicators text in
  if (score >? 0)%Z then scores ++ [(lang, score)] else scores.

(** The dictionary [lang_scores] after the outer loop: the languages whose
    score is positive, in table order. *)
Definition lang_scores (text : pystr) : list (string * Z) :=
  fold_left (record_score text) devanagari_indicators [].

(** [detect_devanagari_language]: the pair (language, confidence). *)
Definition detect_devanagari_language (text : pystr) : string * Z :=
  match lang_scores text with
  | first :: rest => max_by_snd first rest
  | [] => ("hi", 0%Z)
  end.

(** The score the outer loop computes for [lang]; 0 for a language that
    has no table. *)
Definition language_score (lang : string) (text : pystr) : Z :=
  match List.find (fun e => String.eqb e.1 lang) devanagari_indicators with
  | Some (_, indicators) => keyword_score indicators text
  | None => 0%Z
  end.

(** The keywords of each language that occur in the text. *)
Definition matching_keywords (text : pystr) : list (string * list pystr) :=
  List.map
    (fun '(lang, indicators) =>
       (lang, List.map fst (List.filter (fun wk => contains wk.1 text) indicators)))
    devanagari_indicators.

(** Which detector [detect_language] called, in order. *)
Inductive call :=
  | CallDevanagariScorer (text : pystr)
  | CallLangdetect (text : pystr).

(** What a run of [detect_language] does: it returns a code, or the
    lookup [self.lang_code_map[devanagari_lang]] raises [KeyError]. *)
Inductive outcome :=
  | Returns (code : string)
  | RaisesKeyError (key : string).

Section Detector.

(** langdetect's [detect]: [None] when it raises [LangDetectException]. *)
Variable detect : pystr -> option string.

(** [detect_language]: the outcome and the detector calls made. *)
Definition detect_language (text : pystr) : outcome * list call :=
  if bool_decide (text = []) || (len (strip text) <? 2)%Z then
    (Returns "hin_Deva", [])
  else if is_devanagari_script text then
    let '(devanagari_lang, confidence) := detect_devanagari_language text in
    match lang_code_map !! devanagari_lang with
    | Some code => (Returns code, [CallDevanagariScorer text])
    | None => (RaisesKeyError devanagari_lang, [CallDevanagariScorer text])
    end
  else
    match detect text with
    | Some detected_lang =>
      match lang_code_map !! detected_lang with
      | Some code => (Returns code, [CallLangdetect text])
      | None => (Returns "hin_Deva", [CallLangdetect text])
      end
    | None => (Returns "hin_Deva", [CallLangdetect text])
    end.

End Detector.

(** [self.devanagari_indicators[lang]]; [None] where the lookup raises
    [KeyError]. *)
Definition indicators_of (lang : string) : option (list (pystr * Z)) :=
  snd <$> List.find (fun e => String.eqb e.1 lang) devanagari_indicators.

(** The value under ['confidence'] in the dictionary
    [get_detection_method] returns: a score, ['high'] or ['low']. *)
Inductive confidence_value :=
  | Score (score : Z)
  | High
  | Low.

(** The dictionary [get_detection_method] returns; ['indicators_used'] is
    present for the custom detection only. *)
Record detection := Detection {
  method : string;
  detected_lang : string;
  confidence : confidence_value;
  indicators_used : option Z
}.

(** What a run of [get_detection_method] does: it returns a dictionary,
    or the lookup [self.devanagari_indicators[lang]] raises [KeyError]. *)
Inductive method_outcome :=
  | Describes (d : detection)
  | MethodKeyError (key : string).

Section Method.

(** langdetect's [detect]: [None] when it raises. *)
Variable detect : pystr -> option string.

(** [get_detection_method] *)
Definition get_detection_method (text : pystr) : method_outcome :=
  if is_devanagari_script text then
    let '(lang, conf) := detect_devanagari_language text in
    match indicators_of lang with
    | Some indicators =>
      Describes
        (Detection "custom_devanagari_detection" lang (Score conf)
           (Some (Z.of_nat
                    (length (List.filter (fun kv => contains kv.1 text)
                                         indicators)))))
    | None => MethodKeyError lang
    end
  else
    match detect text with
    | Some lang => Describes (Detection "langdetect" lang High None)
    | None => Describes (Detection "fallback" "hi" Low None)
    end.

End Method.

(** Some character of the text lies in the Gujarati block
    U+0A80..U+0AFF. *)
Definition has_gujarati_char (text : pystr) : bool :=
  existsb (fun char => (0x0A80 <=? char)%N && (char <=? 0x0AFF)%N) text.

End LangIndicators.

(* ===================================================================== *)
(** * src/final.py                                                        *)
(* ===================================================================== *)

Module Final.
Import Py.

(** ** Values, exceptions and the file system *)

(** A value as [json.load] builds it: [None], [bool], [int], [float] (kept
    as its bit pattern; nothing here computes with one), [str], [list] and
    [dict] (its items in insertion order, one per key). *)
Inductive json :=
  | JNull
  | JBool (b : bool)
  | JInt (z : Z)
  | JFloat (bits : N)
  | JStr (s : pystr)
  | JArr (items : list json)
  | JObj (items : list (pystr * json)).

(** The Python exceptions the modelled code can meet.  The last one is not
    a Python exception: it marks a path that is not the plain name of an
    entry of the working directory (see [plain_name]), for which this
    model does not say what the code does. *)
Inductive exn :=
  | AttributeError
  | TypeError
  | IndexError
  | JSONDecodeError
  | FileNotFoundError
  | FileExistsError
  | NotADirectoryError
  | IsADirectoryError
  | UnicodeEncodeError
  | RecursionError
  | UnmodelledPath.

(** A computation that returns a value or raises. *)
Inductive result (A : Type) :=
  | Ok (a : A)
  | Raise (e : exn).
Arguments Ok {A} a.
Arguments Raise {A} e.

Definition bind {A B} (m : result A) (k : A -> result B) : result B :=
  match m with
  | Ok a => k a
  | Raise e => Raise e
  end.

Notation "x <- m ;; k" := (bind m (fun x => k))
  (at level 100, m at next level, right associativity).

(** A [for] loop whose body can raise: the state after the last item. *)
Fixpoint for_each {S A} (body : S -> A -> result S) (s : S) (items : list A)
  : result S :=
  match items with
  | [] => Ok s
  | x :: rest => s' <- body s x ;; for_each body s' rest
  end.

(** [[f(x) for x in items]] when [f] can raise. *)
Fixpoint map_result {A B} (f : A -> result B) (items : list A)
  : result (list B) :=
  match items with
  | [] => Ok []
  | x :: rest => y <- f x ;; ys <- map_result f rest ;; Ok (y :: ys)
  end.

(** A regular file, as [json.load] sees it: reading it raises, or it
    parses to a value. *)
Inductive file :=
  | Corrupt
  | Parsed (j : json).

(** An entry of the working directory: a regular file, or a directory
    that holds regular files only. *)
Inductive entry :=
  | File (f : file)
  | Dir (d : gmap pystr file).

(** The working directory of the process, on a POSIX file system: a key
    is the name of an entry, names are compared character by character,
    no entry is a link to another, and every entry can be read and
    written. *)
Abbreviation fs := (gmap pystr entry).

(** The number of bytes of a character in UTF-8. *)
Definition utf8_width (c : N) : Z :=
  if (c <? 0x80)%N then 1
  else if (c <? 0x800)%N then 2
  else if (c <? 0x10000)%N then 3
  else 4.

(** A path that is the plain name of an entry of the working directory:
    not empty, not "." or "..", without "/", without the null character,
    made of characters a file name can be encoded from, and of at most
    255 bytes.  Other paths ("./batches", "batches/", "/tmp/x", a name
    too long for the file system) can denote an entry under another name,
    an entry outside the working directory or make the system calls fail
    in their own ways; the model leaves them out. *)
Definition plain_name (path : pystr) : bool :=
  negb (bool_decide (path = []))
  && negb (bool_decide (path = u "."))
  && negb (bool_decide (path = u ".."))
  && forallb (fun c => negb (c =? 0)%N && negb (c =? 47)%N
                       && ((c <? 0xD800)%N || (0xDFFF <? c)%N)
                       && (c <=? 0x10FFFF)%N) path
  && (fold_right (fun c n => utf8_width c + n)%Z 0%Z path <=? 255)%Z.

(** What the system finds at [path]. *)
Definition entry_at (st : fs) (path : pystr) : result (option entry) :=
  if plain_name path then Ok (st !! path) else Raise UnmodelledPath.

(** [os.path.exists(path)] *)
Definition path_exists (st : fs) (path : pystr) : result bool :=
  found <- entry_at st path ;;
  Ok (bool_decide (is_Some found)).

(** [json.load(open(path))] for a file of the working directory. *)
Definition load_json (st : fs) (path : pystr) : result json :=
  found <- entry_at st path ;;
  match found with
  | Some (File (Parsed j)) => Ok j
  | Some (File Corrupt) => Raise JSONDecodeError
  | Some (Dir _) => Raise IsADirectoryError
  | None => Raise FileNotFoundError
  end.

(** [json.load(open(os.path.join(dir, name)))], for a [name] that
    [os.listdir(dir)] gave. *)
Definition load_json_in (st : fs) (dir name : pystr) : result json :=
  found <- entry_at st dir ;;
  match found with
  | Some (Dir d) =>
    match d !! name with
    | Some (Parsed j) => Ok j
    | Some Corrupt => Raise JSONDecodeError
    | None => Raise FileNotFoundError
    end
  | Some (File _) => Raise NotADirectoryError
  | None => Raise FileNotFoundError
  end.

(** [os.listdir(dir)], in the order the system yields the names. *)
Definition listdir (st : fs) (dir : pystr) : result (list pystr) :=
  found <- entry_at st dir ;;
  match found with
  | Some (Dir d) => Ok (List.map fst (map_to_list d))
  | Some (File _) => Raise NotADirectoryError
  | None => Raise FileNotFoundError
  end.

(** [os.makedirs(dir, exist_ok=True)] *)
Definition makedirs (st : fs) (dir : pystr) : result fs :=
  found <- entry_at st dir ;;
  match found with
  | Some (Dir _) => Ok st
  | Some (File _) => Raise FileExistsError
  | None => Ok (<[dir := Dir ∅]> st)
  end.

(** [[f for f in names if f.endswith('.json')]] *)
Definition json_names (names : list pystr) : list pystr :=
  List.filter (fun f => endswith f (u ".json")) names.

(** The loop [for f in os.listdir(dir): if f.endswith('.json'):
    os.remove(os.path.join(dir, f))] on the files of [dir]. *)
Definition remove_json_files (d : gmap pystr file) : gmap pystr file :=
  fold_left (fun acc f => if endswith f (u ".json") then delete f acc else acc)
            (List.map fst (map_to_list d)) d.

(** The cleaning loop on directory [dir] of the working directory. *)
Definition clean_dir (st : fs) (dir : pystr) : result fs :=
  found <- entry_at st dir ;;
  match found with
  | Some (Dir d) => Ok (<[dir := Dir (remove_json_files d)]> st)
  | Some (File _) => Raise NotADirectoryError
  | None => Raise FileNotFoundError
  end.

(** The lines
<<
    with open(os.path.join(dir, name), 'w', encoding='utf-8') as f:
        json.dump(j, f, indent=2, ensure_ascii=False)
>>
    The file is opened first.  [json_dump j] is the exception
    [json.dump] then raises on [j], if any (a string with a lone
    surrogate cannot be encoded, a value can be nested too deeply);
    when there is none the file parses back to [j]. *)
Definition write_json (json_dump : json -> option exn) (st : fs)
  (dir name : pystr) (j : json) : result fs :=
  found <- entry_at st dir ;;
  match found with
  | Some (Dir d) =>
    match json_dump j with
    | Some e => Raise e
    | None => Ok (<[dir := Dir (<[name := Parsed j]> d)]> st)
    end
  | Some (File _) => Raise NotADirectoryError
  | None => Raise FileNotFoundError
  end.

(** ** Dynamically typed operations *)

(** The value stored under [key] in a dictionary's items. *)
Fixpoint assoc (key : pystr) (items : list (pystr * json)) : option json :=
  match items with
  | [] => None
  | (k, v) :: rest => if bool_decide (k = key) then Some v else assoc key rest
  end.

(** [d.get(key, dflt)]; only a [dict] has the method. *)
Definition dict_get (d : json) (key : pystr) (dflt : json) : result json :=
  match d with
  | JObj items => Ok (default dflt (assoc key items))
  | _ => Raise AttributeError
  end.

(** [len(v)] *)
Definition py_len (v : json) : result Z :=
  match v with
  | JStr s => Ok (len s)
  | JArr items => Ok (Z.of_nat (length items))
  | JObj items => Ok (Z.of_nat (length items))
  | _ => Raise TypeError
  end.

(** [for x in v]: the items the loop visits. *)
Definition py_iter (v : json) : result (list json) :=
  match v with
  | JArr items => Ok items
  | JObj items => Ok (List.map (fun kv => JStr kv.1) items)
  | JStr s => Ok (List.map (fun c => JStr [c]) s)
  | _ => Raise TypeError
  end.

(** [needle in v] for a string [needle]. *)
Definition py_in (needle : pystr) (v : json) : result bool :=
  match v with
  | JStr s => Ok (contains needle s)
  | JArr items =>
    Ok (existsb (fun x => match x with
                          | JStr s => bool_decide (s = needle)
                          | _ => false
                          end) items)
  | JObj items => Ok (existsb (fun kv => bool_decide (kv.1 = needle)) items)
  | _ => Raise TypeError
  end.

(** [v.split(sep, maxsplit)]; only a [str] has the method. *)
Definition py_split (v : json) (sep : pystr) (maxsplit : option nat)
  : result (list pystr) :=
  match v with
  | JStr s => Ok (split sep maxsplit s)
  | _ => Raise AttributeError
  end.

(** [items[i]] on a list. *)
Definition index {A} (items : list A) (i : nat) : result A :=
  match nth_error items i with
  | Some x => Ok x
  | None => Raise IndexError
  end.

(** [sep.join(parts)]: every part must be a [str]. *)
Fixpoint str_join (sep : pystr) (parts : list json) : result pystr :=
  match parts with
  | [] => Ok []
  | [JStr s] => Ok s
  | JStr s :: rest => t <- str_join sep rest ;; Ok (s ++ sep ++ t)
  | _ :: _ => Raise TypeError
  end.

(** [d[key] = v]: a [dict] updates the key in place or appends it; the
    other values of [json.loads] refuse the assignment. *)
Fixpoint set_assoc (key : pystr) (v : json) (items : list (pystr * json))
  : list (pystr * json) :=
  match items with
  | [] => [(key, v)]
  | (k, w) :: rest =>
    if bool_decide (k = key) then (k, v) :: rest
    else (k, w) :: set_assoc key v rest
  end.

Definition set_item (d : json) (key : pystr) (v : json) : result json :=
  match d with
  | JObj items => Ok (JObj (set_assoc key v items))
  | _ => Raise TypeError
  end.

(** ** Configuration *)

Definition MAX_BATCH_CHARS : Z := 8000 * 4.

(** ** estimate_char_length *)

Definition estimate_char_length (chunk_data : json) : result Z :=
  v <- dict_get chunk_data (u "page_content") (JStr []) ;;
  py_len v.

(** ** Documents *)

(** A langchain [Document]: its text and its metadata dictionary. *)
Record document := Document {
  page_content : pystr;
  metadata : json
}.

(** The subreddit of a post from the value of its [url] field:
<<
    subreddit = 'N/A'
    if '/r/' in url:
        try:
            if '/r/' in url:
                subreddit_segment = url.split('/r/', 1)[1]
                subreddit = subreddit_segment.split('/')[0]
        except IndexError:
            subreddit = 'N/A'
>> *)
Definition parse_subreddit (url : json) : result pystr :=
  outer <- py_in (u "/r/") url ;;
  if outer : bool then
    let attempt :=
      inner <- py_in (u "/r/") url ;;
      if inner : bool then
        parts <- py_split url (u "/r/") (Some 1%nat) ;;
        subreddit_segment <- index parts 1 ;;
        index (split (u "/") None subreddit_segment) 0
      else Ok (u "N/A") in
    match attempt with
    | Raise IndexError => Ok (u "N/A")
    | r => r
    end
  else Ok (u "N/A").

(** [separators=["\n\n", "\n", " ", ""]] *)
Definition separators : list pystr := [[10; 10]; [10]; [32]; []]%N.

(** ** The pipeline, over its collaborators *)

Section Pipeline.

(** [str(v)] as an f-string applies it to a loaded value that is not a
    string (a string is inserted as it is). *)
Variable py_str : json -> pystr.

(** The class the name [RecursiveCharacterTextSplitter] is bound to,
    called with [chunk_size], [chunk_overlap] and [separators]: the call
    raises, or it returns a splitter, given by its [split_documents]. *)
Variable RecursiveCharacterTextSplitter :
  Z -> Z -> list pystr -> result (list document -> list document).

(** [chunk.model_dump()], or [chunk.dict()] where the former is missing. *)
Variable model_dump : document -> json.

(** [call_local_analysis(batch_content)]: the parsed model output, or
    [None] when the model is unavailable, fails to load, inference raises
    or the output is not JSON. *)
Variable call_local_analysis : pystr -> option json.

(** [json.dump(j, f, indent=2, ensure_ascii=False)] on a file opened for
    writing in UTF-8: the exception it raises, if any. *)
Variable json_dump : json -> option exn.

(** [f"{v}"] *)
Definition format_value (v : json) : pystr :=
  match v with
  | JStr s => s
  | _ => py_str v
  end.

(** The body of the loop over the posts: the document of one post. *)
Definition post_document (post : json) : result document :=
  title <- dict_get post (u "title") (JStr (u "N/A")) ;;
  url_shown <- dict_get post (u "url") (JStr (u "N/A")) ;;
  selftext <- dict_get post (u "selftext") (JStr (u "N/A")) ;;
  let content :=
    u "Title: " ++ format_value title ++ [10%N]
    ++ u "URL: " ++ format_value url_shown ++ [10%N]
    ++ u "Post Body:" ++ [10%N] ++ format_value selftext in
  url <- dict_get post (u "url") (JStr []) ;;
  subreddit <- parse_subreddit url ;;
  source_url <- dict_get post (u "url") (JStr (u "N/A")) ;;
  post_title <- dict_get post (u "title") (JStr (u "N/A")) ;;
  score <- dict_get post (u "score") JNull ;;
  Ok (Document content
        (JObj [ (u "source_url", source_url); (u "post_title", post_title);
                (u "subreddit", JStr subreddit); (u "score", score) ])).

(** [f"chunk_{i+1:04d}.json"] *)
Definition chunk_filename (i : Z) : pystr :=
  u "chunk_" ++ format_d 4 (i + 1) ++ u ".json".

(** The loop [for i, chunk in enumerate(chunked_documents)], from index
    [i] on. *)
Fixpoint write_chunks (st : fs) (chunk_dir : pystr) (i : Z)
  (chunked_documents : list document) : result fs :=
  match chunked_documents with
  | [] => Ok st
  | chunk :: rest =>
    st' <- write_json json_dump st chunk_dir (chunk_filename i)
                      (model_dump chunk) ;;
    write_chunks st' chunk_dir (i + 1) rest
  end.

(** The part of [process_and_chunk_reddit_data] from [json.load] to
    [split_documents]: the chunks to be written. *)
Definition split_posts (st : fs) (input_file_path : pystr)
  (chunk_size chunk_overlap : Z) : result (list document) :=
  all_posts_data <- load_json st input_file_path ;;
  posts <- py_iter all_posts_data ;;
  documents <- map_result post_document posts ;;
  text_splitter <-
    RecursiveCharacterTextSplitter chunk_size chunk_overlap separators ;;
  Ok (text_splitter documents).

(** [process_and_chunk_reddit_data]: the number of chunks written and the
    file system it leaves. *)
Definition process_and_chunk_reddit_data (st : fs) (input_file_path : pystr)
  (chunk_size chunk_overlap : Z) : result (Z * fs) :=
  found <- path_exists st input_file_path ;;
  if negb found then Ok (0%Z, st)
  else
    chunked_documents <-
      split_posts st input_file_path chunk_size chunk_overlap ;;
    let chunk_dir := u "chunks" in
    st1 <- makedirs st chunk_dir ;;
    st2 <- clean_dir st1 chunk_dir ;;
    st3 <- write_chunks st2 chunk_dir 0 chunked_documents ;;
    Ok (Z.of_nat (length chunked_documents), st3).

(** ** create_batches *)

(** The variables the batching loop and [save_batch] share. *)
Record batcher := Batcher {
  current_batch_content : list json;
  current_batch_size_chars : Z;
  batch_count : Z
}.

(** [f"batch_{batch_count:02d}.json"] *)
Definition batch_filename (batch_count : Z) : pystr :=
  u "batch_" ++ format_d 2 batch_count ++ u ".json".

(** [save_batch()]: write the current batch, count it, start afresh. *)
Definition save_batch (batch_dir : pystr) (b : batcher) (st : fs)
  : result (batcher * fs) :=
  st' <- write_json json_dump st batch_dir (batch_filename (batch_count b))
                    (JArr (current_batch_content b)) ;;
  Ok (Batcher [] 0 (batch_count b + 1), st').

(** The body of [for filename in chunk_files]. *)
Definition batch_step (chunks_dir_path batch_dir : pystr)
  (max_batch_chars : Z) (acc : batcher * fs) (filename : pystr)
  : result (batcher * fs) :=
  let '(b, st) := acc in
  match load_json_in st chunks_dir_path filename with
  | Raise _ => Ok acc
  | Ok chunk_data =>
    chunk_size_chars <- estimate_char_length chunk_data ;;
    if (current_batch_size_chars b + chunk_size_chars >? max_batch_chars)%Z
       && negb (bool_decide (current_batch_content b = []))
    then
      saved <- save_batch batch_dir b st ;;
      let '(b', st') := saved in
      Ok (Batcher [chunk_data] chunk_size_chars (batch_count b'), st')
    else
      Ok (Batcher (current_batch_content b ++ [chunk_data])
                  (current_batch_size_chars b + chunk_size_chars)
                  (batch_count b), st)
  end.

(** [create_batches(chunks_dir_path, max_batch_chars)]: the number of
    batches created and the file system it leaves. *)
Definition create_batches (st : fs) (chunks_dir_path : pystr)
  (max_batch_chars : Z) : result (Z * fs) :=
  match listdir st chunks_dir_path with
  | Raise FileNotFoundError => Ok (0%Z, st)
  | Raise e => Raise e
  | Ok names =>
    let chunk_files := sorted (json_names names) in
    let batch_dir := u "batches" in
    st1 <- makedirs st batch_dir ;;
    st2 <- clean_dir st1 batch_dir ;;
    looped <- for_each (batch_step chunks_dir_path batch_dir max_batch_chars)
                       (Batcher [] 0 1, st2) chunk_files ;;
    let '(b, st3) := looped in
    final <- (if bool_decide (current_batch_content b = []) then Ok (b, st3)
              else save_batch batch_dir b st3) ;;
    let '(b', st4) := final in
    Ok ((batch_count b' - 1)%Z, st4)
  end.

(** ** analyze_batches *)

(** The body of [for filename in batch_files]: the claims gathered so
    far, extended by those of one batch. *)
Definition analyze_step (st : fs) (batches_dir_path : pystr)
  (all_analysis_results : list json) (filename : pystr)
  : result (list json) :=
  batch_id <- index (split (u ".") None filename) 0 ;;
  match load_json_in st batches_dir_path filename with
  | Raise _ => Ok all_analysis_results
  | Ok batch_data =>
    items <- py_iter batch_data ;;
    texts <- map_result
               (fun item => dict_get item (u "page_content") (JStr [])) items ;;
    full_batch_content <-
      str_join ([10; 10]%N ++ u "--- NEXT CHUNK ---" ++ [10; 10]%N) texts ;;
    match call_local_analysis full_batch_content with
    | Some (JArr (first :: more)) =>
      stamped <- map_result
                   (fun claim_data =>
                      c <- set_item claim_data (u "batch_id") (JStr batch_id) ;;
                      chunk_count <- py_len batch_data ;;
                      set_item c (u "chunk_count") (JInt chunk_count))
                   (first :: more) ;;
      Ok (all_analysis_results ++ stamped)
    | _ => Ok all_analysis_results
    end
  end.

(** [analyze_batches()]: the flat list of claims and the file system it
    leaves. *)
Definition analyze_batches (st : fs) : result (list json * fs) :=
  let batches_dir_path := u "batches" in
  match listdir st batches_dir_path with
  | Raise FileNotFoundError => Ok ([], st)
  | Raise e => Raise e
  | Ok names =>
    let batch_files := sorted (json_names names) in
    let analysis_dir := u "analysis_results" in
    st1 <- makedirs st analysis_dir ;;
    all_analysis_results <-
      for_each (analyze_step st1 batches_dir_path) [] batch_files ;;
    if bool_decide (all_analysis_results = []) then
      Ok (all_analysis_results, st1)
    else
      st2 <- write_json json_dump st1 analysis_dir
                        (u "combined_analysis_report.json")
                        (JArr all_analysis_results) ;;
      Ok (all_analysis_results, st2)
  end.

(** ** run_full_analysis_pipeline *)

Definition run_full_analysis_pipeline (st : fs) (input_file : pystr)
  : result (list json * fs) :=
  chunked <- process_and_chunk_reddit_data st input_file 2000 200 ;;
  let '(chunk_count, st1) := chunked in
  if (chunk_count =? 0)%Z then Ok ([], st1)
  else
    batched <- create_batches st1 (u "chunks") MAX_BATCH_CHARS ;;
    let '(batch_count, st2) := batched in
    if (batch_count =? 0)%Z then Ok ([], st2)
    else analyze_batches st2.

End Pipeline.

(** ** The class defined when langchain cannot be imported *)

(** The fallback [RecursiveCharacterTextSplitter]: its [__init__] takes
    [chunk_size] and [chunk_overlap] only, so the call of the chunker,
    which passes [separators] as well, raises [TypeError]. *)
Definition FallbackTextSplitter (chunk_size chunk_overlap : Z)
  (separators : list pystr) : result (list document -> list document) :=
  Raise TypeError.

(** ** Vocabulary of the properties *)

(** A chunk as the chunker writes it: a dictionary whose [page_content],
    when present, is a string. *)
Definition is_chunk (j : json) : bool :=
  match j with
  | JObj items =>
    match assoc (u "page_content") items with
    | Some (JStr _) | None => true
    | Some _ => false
    end
  | _ => false
  end.

(** The estimated character length of a chunk (0 where
    [estimate_char_length] raises). *)
Definition chunk_chars (chunk_data : json) : Z :=
  match estimate_char_length chunk_data with
  | Ok n => n
  | Raise _ => 0%Z
  end.

(** The summed estimated character length of a batch. *)
Definition batch_chars (batch : list json) : Z :=
  fold_right (fun c n => (chunk_chars c + n)%Z) 0%Z batch.

(** A batch file's value: a list of chunks. *)
Definition is_batch (j : json) : bool :=
  match j with
  | JArr items => forallb is_chunk items
  | _ => false
  end.

(** A post record: a dictionary whose [url], when present, is a string. *)
Definition is_post (j : json) : bool :=
  match j with
  | JObj items =>
    match assoc (u "url") items with
    | Some (JStr _) | None => true
    | Some _ => false
    end
  | _ => false
  end.

(** Every [.json] file of a directory that parses holds a value that
    satisfies [good]. *)
Definition json_files_hold (good : json -> bool) (d : gmap pystr file) : bool :=
  forallb
    (fun nf => match nf.2 with
               | Parsed j => negb (endswith nf.1 (u ".json")) || good j
               | Corrupt => true
               end)
    (map_to_list d).

(** [name] is absent or a directory whose parsable [.json] files hold
    [good] values. *)
Definition dir_holds (good : json -> bool) (st : fs) (name : pystr) : bool :=
  match st !! name with
  | None => true
  | Some (Dir d) => json_files_hold good d
  | Some (File _) => false
  end.

(** [name] is not taken by a regular file, so that [os.makedirs] works. *)
Definition dir_slot_free (st : fs) (name : pystr) : bool :=
  match st !! name with
  | Some (File _) => false
  | _ => true
  end.

(** The input file is absent, or parses to a list of post records. *)
Definition posts_file_ok (st : fs) (input_file : pystr) : bool :=
  match st !! input_file with
  | None => true
  | Some (File (Parsed (JArr posts))) => forallb is_post posts
  | _ => false
  end.

(** The chunks of the readable [.json] files of directory [dir], in
    file-name order. *)
Definition readable_chunks (st : fs) (dir : pystr) : list json :=
  match st !! dir with
  | Some (Dir d) =>
    omap (fun name => match d !! name with
                      | Some (Parsed j) => Some j
                      | _ => None
                      end)
         (sorted (json_names (List.map fst (map_to_list d))))
  | _ => []
  end.

(** [c] is the value of a [.json] file of the directory that parses. *)
Definition chunk_in_dir (d : gmap pystr file) (c : json) : Prop :=
  exists name, d !! name = Some (Parsed c)
               /\ endswith name (u ".json") = true.

(** [json.dump] succeeds on every list made of readable chunks of the
    directory [dir]: the batches can be written. *)
Definition batches_dump (json_dump : json -> option exn) (st : fs)
  (dir : pystr) : Prop :=
  forall b, (forall c, In c b -> In c (readable_chunks st dir)) ->
            json_dump (JArr b) = None.

(** [json.dump] succeeds on every chunk of [chunked] and on every list
    made of such chunks: the chunk files and the batch files of a run on
    these chunks can be written. *)
Definition run_dumps (json_dump : json -> option exn)
  (model_dump : document -> json) (chunked : list document) : Prop :=
  Forall (fun doc => json_dump (model_dump doc) = None) chunked
  /\ forall b, (forall c, In c b -> In c (List.map model_dump chunked)) ->
               json_dump (JArr b) = None.

(** The file [batches/batch_NN.json] for [NN] = k. *)
Definition batch_file (st : fs) (k : nat) : option file :=
  match st !! u "batches" with
  | Some (Dir d) => d !! batch_filename (Z.of_nat k)
  | _ => None
  end.

(** The batch files numbered 1 to [n]. *)
Definition batch_files (st : fs) (n : nat) : list (option file) :=
  List.map (batch_file st) (seq 1 n).

(** The file [analysis_results/combined_analysis_report.json]. *)
Definition report_file (st : fs) : option file :=
  match st !! u "analysis_results" with
  | Some (Dir d) => d !! u "combined_analysis_report.json"
  | _ => None
  end.

(** A batch respects the budget: its summed estimate is at most
    [max_batch_chars], or it is one chunk that alone exceeds it. *)
Definition within_budget (max_batch_chars : Z) (batch : list json) : Prop :=
  (batch_chars batch <= max_batch_chars)%Z
  \/ exists c, batch = [c] /\ (chunk_chars c > max_batch_chars)%Z.

(** A chunk that alone exceeds the budget shares its batch with no other
    chunk. *)
Definition oversized_alone (max_batch_chars : Z) (batch : list json) : Prop :=
  forall c, In c batch -> (chunk_chars c > max_batch_chars)%Z -> batch = [c].

(** ** The invariant of the batching loop *)

(** A finished batch: non-empty, made of chunks, within the budget. *)
Definition good_batch (max_batch_chars : Z) (b : list json) : Prop :=
  b <> [] /\ Forall (fun c => is_chunk c = true) b
  /\ within_budget max_batch_chars b.

(** The chunk the file [name] of the chunk directory [dc] contributes. *)
Definition chunk_of (dc : gmap pystr file) (name : pystr) : list json :=
  match dc !! name with
  | Some (Parsed j) => [j]
  | _ => []
  end.

(** The state of [create_batches] between two iterations, started on the
    file system [st0] with chunk directory [chunks_dir_path] of content
    [dc]: [saved] are the batches written so far, in order, and
    [processed] the chunks read so far. *)
Record batching_inv (st0 : fs) (chunks_dir_path : pystr) (max_batch_chars : Z)
  (dc : gmap pystr file) (processed : list json) (saved : list (list json))
  (b : batcher) (st : fs) : Prop := BatchingInv {
  inv_count : batch_count b = (Z.of_nat (length saved) + 1)%Z;
  inv_size : current_batch_size_chars b = batch_chars (current_batch_content b);
  inv_chunks : st !! chunks_dir_path = Some (Dir dc);
  inv_frame : forall name, name <> u "batches" -> st !! name = st0 !! name;
  inv_dir : exists d,
    st !! u "batches" = Some (Dir d)
    /\ (forall i bt, saved !! i = Some bt ->
          d !! batch_filename (Z.of_nat (S i)) = Some (Parsed (JArr bt)))
    /\ (forall name, endswith name (u ".json") = true -> is_Some (d !! name) ->
          exists i, (i < length saved)%nat
                    /\ name = batch_filename (Z.of_nat (S i)));
  inv_saved : Forall (good_batch max_batch_chars) saved;
  inv_current : current_batch_content b = []
                \/ good_batch max_batch_chars (current_batch_content b);
  inv_processed : concat saved ++ current_batch_content b = processed
}.

(** ** The cleaning of the model's answer in [call_local_analysis] *)

(** [json] at the start of a text, as [re.IGNORECASE] matches it: either
    case of each letter, and U+017F for the s. *)
Definition starts_with_json (s : pystr) : bool :=
  match s with
  | j :: s' :: o :: n :: _ =>
    (((j =? 106) || (j =? 74))
     && ((s' =? 115) || (s' =? 83) || (s' =? 0x17F))
     && ((o =? 111) || (o =? 79))
     && ((n =? 110) || (n =? 78)))%N
  | _ => false
  end.

(** The lines
<<
    if generated_text.startswith("```"):
        generated_text = re.sub(r'^(```json|```)\s*', '', generated_text,
                                flags=re.IGNORECASE)
        if generated_text.endswith("```"):
            generated_text = generated_text[:-3]
>>
    the pattern can match at the start of the text only, and does there. *)
Definition strip_code_fences (generated_text : pystr) : pystr :=
  if startswith (u "```") generated_text then
    let after_fence := drop 3 generated_text in
    let generated_text :=
      lstrip (if starts_with_json after_fence then drop 4 after_fence
              else after_fence) in
    if endswith generated_text (u "```")
    then take (length generated_text - 3) generated_text
    else generated_text
  else generated_text.

(** ** The batching loop as a function of the chunks *)

(** The batches the loop of [create_batches] closes while it goes through
    [chunks] with the batch [cur] of size [size] open, then the batch
    left open and its size. *)
Fixpoint pack_loop (max_batch_chars : Z) (cur : list json) (size : Z)
  (chunks : list json) : list (list json) * list json * Z :=
  match chunks with
  | [] => ([], cur, size)
  | c :: rest =>
    if (size + chunk_chars c >? max_batch_chars)%Z
       && negb (bool_decide (cur = []))
    then
      let '(closed, cur', size') :=
        pack_loop max_batch_chars [c] (chunk_chars c) rest in
      (cur :: closed, cur', size')
    else
      pack_loop max_batch_chars (cur ++ [c]) (size + chunk_chars c)%Z rest
  end.

(** The batches [create_batches] makes of [chunks]: those the loop
    closes, then the one left open unless it is empty. *)
Definition pack (max_batch_chars : Z) (chunks : list json)
  : list (list json) :=
  let '(closed, cur, _) := pack_loop max_batch_chars [] 0 chunks in
  if bool_decide (cur = []) then closed else closed ++ [cur].

(** The directory [d] after the batches were written as batch files
    numbered from [k]. *)
Fixpoint store_batches (k : Z) (batches : list (list json))
  (d : gmap pystr file) : gmap pystr file :=
  match batches with
  | [] => d
  | b :: rest =>
    store_batches (k + 1) rest (<[batch_filename k := Parsed (JArr b)]> d)
  end.

(** The files of the directory [batches]; none when there is no such
    directory. *)
Definition batches_dir (st : fs) : gmap pystr file :=
  match st !! u "batches" with
  | Some (Dir d) => d
  | _ => ∅
  end.

(** The files of the directory [chunks]; none when there is no such
    directory. *)
Definition chunks_dir (st : fs) : gmap pystr file :=
  match st !! u "chunks" with
  | Some (Dir d) => d
  | _ => ∅
  end.

(** ** Vocabulary of the analysis stage *)

(** A [dict]. *)
Definition is_object (j : json) : bool :=
  match j with
  | JObj _ => true
  | _ => false
  end.

(** An answer of [call_local_analysis] that [analyze_batches] can take:
    no answer, or a value that is not a non-empty list, or a list of
    dictionaries. *)
Definition answer_ok (answer : option json) : bool :=
  match answer with
  | Some (JArr items) => forallb is_object items
  | _ => true
  end.

(** A claim as [analyze_batches] returns it for the file system [st]: a
    dictionary whose [batch_id] is the name, up to its first dot, of a
    readable [.json] file of [batches], and whose [chunk_count] is the
    length of that file's value. *)
Definition stamped (st : fs) (claim : json) : Prop :=
  exists items filename batch_data batch_id chunk_count,
    claim = JObj items
    /\ endswith filename (u ".json") = true
    /\ load_json_in st (u "batches") filename = Ok batch_data
    /\ index (split (u ".") None filename) 0 = Ok batch_id
    /\ py_len batch_data = Ok chunk_count
    /\ assoc (u "batch_id") items = Some (JStr batch_id)
    /\ assoc (u "chunk_count") items = Some (JInt chunk_count).

End Final.

(* ===================================================================== *)
(** * Concrete scenarios                                                  *)
(* ===================================================================== *)

Module Examples.
Import Py Final.

(** A chunk as the fallback [Document.dict()] dumps it. *)
Definition example_chunk (text : string) : json :=
  JObj [(u "page_content", JStr (u text)); (u "metadata", JObj [])].

(** A chunk directory: three readable chunks of 4, 8 and 2 characters, a
    file that does not parse, and a file that is not a [.json] file. *)
Definition example_chunks : gmap pystr file :=
  list_to_map
    [ (u "chunk_0002.json", Parsed (example_chunk "bbbbbbbb"));
      (u "chunk_0001.json", Parsed (example_chunk "aaaa"));
      (u "chunk_0003.json", Corrupt);
      (u "chunk_0004.json", Parsed (example_chunk "cc"));
      (u "notes.txt", Parsed (JInt 5)) ].

(** A working directory that holds only that chunk directory. *)
Definition example_fs : fs := {[ u "chunks" := Dir example_chunks ]}.

(** A working directory whose input file exists and is not valid JSON. *)
Definition malformed_input_fs : fs :=
  {[ u "reddit_search_output.json" := File Corrupt ]}.

(** A post whose url ends at "/r/". *)
Definition trailing_r_post : json :=
  JObj [ (u "title", JStr (u "A post"));
         (u "url", JStr (u "https://www.reddit.com/r/"));
         (u "selftext", JStr (u "Body"));
         (u "score", JInt 7) ].

(** The fallback [Document.dict()]. *)
Definition dict_dump (d : document) : json :=
  JObj [(u "page_content", JStr (page_content d)); (u "metadata", metadata d)].

(** A splitter class that takes the three arguments and whose
    [split_documents] returns the documents as they are. *)
Definition WholeDocumentSplitter (chunk_size chunk_overlap : Z)
  (separators : list pystr) : result (list document -> list document) :=
  Ok (fun documents => documents).

(** No character of the string is a surrogate. *)
Definition no_surrogate (s : pystr) : bool :=
  forallb (fun c => (c <? 0xD800)%N || (0xDFFF <? c)%N) s.

(** No string of the value, key or not, holds a surrogate. *)
Fixpoint encodable (j : json) : bool :=
  match j with
  | JStr s => no_surrogate s
  | JArr items => forallb encodable items
  | JObj items =>
    forallb (fun kv => let '(k, v) := kv in no_surrogate k && encodable v)
            items
  | _ => true
  end.

(** A [json.dump] that fails only where a string cannot be encoded in
    UTF-8. *)
Definition utf8_dump (j : json) : option exn :=
  if encodable j then None else Some UnicodeEncodeError.

(** A working directory with an input file of two posts, a batch left by
    an earlier run and a report left by an earlier run. *)
Definition pipeline_fs : fs :=
  list_to_map
    [ (u "reddit_search_output.json",
       File (Parsed (JArr
         [ trailing_r_post;
           JObj [ (u "title", JStr (u "Other"));
                  (u "url", JStr (u "https://www.reddit.com/r/india/comments/1"));
                  (u "selftext", JStr (u "Text")) ] ])));
      (u "batches",
       Dir {[ u "batch_07.json" := Parsed (JArr [example_chunk "old"]) ]});
      (u "analysis_results",
       Dir {[ u "combined_analysis_report.json" := Parsed (JArr [JInt 1]) ]}) ].

(** The working directory of [example_fs] with a batch directory left by
    an earlier run: two batch files and a file that is not a [.json]
    file. *)
Definition pipeline_fs_chunked : fs :=
  list_to_map
    [ (u "chunks", Dir example_chunks);
      (u "batches",
       Dir (list_to_map
              [ (u "batch_01.json", Parsed (JArr [example_chunk "old"]));
                (u "batch_09.json", Parsed (JArr [example_chunk "older"]));
                (u "README", Corrupt) ])) ].

(** A model that returns one claim, which carries a [batch_id] of its
    own. *)
Definition example_model (batch_content : pystr) : option json :=
  Some (JArr [ JObj [ (u "claim", JStr (u "A claim"));
                      (u "batch_id", JInt 0) ] ]).

(** A model that returns a list of numbers. *)
Definition numbers_model (batch_content : pystr) : option json :=
  Some (JArr [JInt 1; JInt 2; JInt 3]).

(** A working directory whose input file wraps the list of posts in a
    dictionary. *)
Definition wrapped_input_fs : fs :=
  {[ u "reddit_search_output.json" :=
       File (Parsed (JObj [ (u "data", JArr [trailing_r_post]) ])) ]}.

(** A working directory whose second chunk file holds a list. *)
Definition list_chunk_fs : fs :=
  {[ u "chunks" :=
       Dir (list_to_map
              [ (u "chunk_0001.json", Parsed (example_chunk "aaaa"));
                (u "chunk_0002.json", Parsed (JArr [example_chunk "bb"])) ]) ]}.

(** A working directory whose input file holds one post, the title of
    which is a lone surrogate (the JSON text "\ud83d"). *)
Definition surrogate_title_fs : fs :=
  {[ u "reddit_search_output.json" :=
       File (Parsed (JArr
         [ JObj [ (u "title", JStr [0xD83D%N]);
                  (u "url", JStr (u "https://www.reddit.com/r/india/"));
                  (u "selftext", JStr (u "Text")) ] ])) ]}.

End Examples.

(* ===================================================================== *)
(** * Properties of the language detector                                 *)
(* ===================================================================== *)

Module LangIndicatorsProps.
Import Py LangIndicators.

Example u_hai : u "है" = [0x939; 0x948]%N.
Proof. reflexivity. Qed.

Example u_ascii : u "/r/" = [47; 114; 47]%N.
Proof. reflexivity. Qed.

(** *** Stripping never lengthens a string *)

Lemma lstrip_length (s : pystr) : (length (lstrip s) <= length s)%nat.
Proof.
  induction s as [|c t IH]; simpl; [lia|].
  destruct (isspace c); simpl; lia.
Qed.

Lemma strip_length (s : pystr) : (length (strip s) <= length s)%nat.
Proof.
  unfold strip, rstrip.
  rewrite length_rev.
  etransitivity; [apply lstrip_length|].
  rewrite length_rev. apply lstrip_length.
Qed.

(** *** The score only looks at which keywords occur *)

Lemma keyword_score_ext (indicators : list (pystr * Z)) (t1 t2 : pystr) :
  (forall w k, In (w, k) indicators -> contains w t1 = contains w t2) ->
  keyword_score indicators t1 = keyword_score indicators t2.
Proof.
  unfold keyword_score. generalize 0%Z.
  induction indicators as [|[w k] rest IH]; intros z Hsame; simpl; [done|].
  rewrite (Hsame w k) by (left; done).
  destruct (contains w t2); apply IH; intros w' k' H';
    apply (Hsame w' k'); right; done.
Qed.

Lemma matching_words_agree (indicators : list (pystr * Z)) (t1 t2 : pystr) :
  List.map fst (List.filter (fun wk => contains wk.1 t1) indicators)
  = List.map fst (List.filter (fun wk => contains wk.1 t2) indicators) ->
  forall w k, In (w, k) indicators -> contains w t1 = contains w t2.
Proof.
  intros E w k Hin.
  assert (Hocc : forall t, contains w t = true <->
            In w (List.map fst
                    (List.filter (fun wk => contains wk.1 t) indicators))).
  { intros t. rewrite in_map_iff. split.
    - intros Hc. exists (w, k). split; [done|].
      apply filter_In. split; done.
    - intros [[w' k'] [Hw Hf]]. simpl in Hw. subst w'.
      apply filter_In in Hf as [_ Hc]. done. }
  destruct (contains w t1) eqn:E1, (contains w t2) eqn:E2; try done.
  - apply Hocc in E1. rewrite E in E1. apply Hocc in E1. congruence.
  - apply Hocc in E2. rewrite <- E in E2. apply Hocc in E2. congruence.
Qed.

Lemma matching_keywords_agree (t1 t2 : pystr) :
  matching_keywords t1 = matching_keywords t2 ->
  forall lang indicators, In (lang, indicators) devanagari_indicators ->
  keyword_score indicators t1 = keyword_score indicators t2.
Proof.
  unfold matching_keywords. intros E lang indicators Hin.
  apply keyword_score_ext, matching_words_agree.
  assert (Hpt := proj1 map_ext_in_iff E (lang, indicators) Hin).
  simpl in Hpt. congruence.
Qed.

Lemma record_scores_ext (t1 t2 : pystr)
  (table : list (string * list (pystr * Z))) (acc : list (string * Z)) :
  (forall lang indicators, In (lang, indicators) table ->
     keyword_score indicators t1 = keyword_score indicators t2) ->
  fold_left (record_score t1) table acc = fold_left (record_score t2) table acc.
Proof.
  revert acc.
  induction table as [|[lang ind] rest IH]; intros acc Hsame; simpl; [done|].
  rewrite (Hsame lang ind) by (left; done).
  apply IH. intros lang' ind' H'. apply (Hsame lang' ind'). right; done.
Qed.

(** *** The language returned is one of the table's *)

Lemma max_by_snd_In {A} (cur : A * Z) (rest : list (A * Z)) :
  In (max_by_snd cur rest) (cur :: rest).
Proof.
  revert cur. induction rest as [|x r IH]; intros cur; simpl; [auto|].
  destruct (x.2 >? cur.2)%Z.
  - right. apply IH.
  - destruct (IH cur) as [<- | Hr]; auto.
Qed.

Lemma record_scores_langs (text : pystr) (entry : string * Z)
  (table : list (string * list (pystr * Z))) (acc : list (string * Z)) :
  In entry (fold_left (record_score text) table acc) ->
  In entry acc \/ In entry.1 (List.map fst table).
Proof.
  revert acc.
  induction table as [|[lang ind] rest IH]; intros acc H; simpl in *; [auto|].
  apply IH in H as [H | H]; [|auto].
  destruct (keyword_score ind text >? 0)%Z; [|auto].
  apply in_app_or in H as [H | [<- | []]]; auto.
Qed.

Lemma lang_scores_langs (text : pystr) (entry : string * Z) :
  In entry (lang_scores text) -> In entry.1 devanagari_langs.
Proof.
  intros H. apply record_scores_langs in H as [[] | H]. exact H.
Qed.

Lemma detected_lang_in_table (text : pystr) :
  In (detect_devanagari_language text).1 devanagari_langs.
Proof.
  unfold detect_devanagari_language.
  destruct (lang_scores text) as [|first rest] eqn:E.
  - simpl. auto.
  - apply (lang_scores_langs text). rewrite E. apply max_by_snd_In.
Qed.

Lemma devanagari_langs_mapped (lang : string) :
  In lang devanagari_langs -> is_Some (lang_code_map !! lang).
Proof.
  unfold devanagari_langs. simpl.
  intros [<- | [<- | [<- | [<- | [<- | []]]]]]; vm_compute; eauto.
Qed.

(** *** Ties go to the language that comes first in the table *)

Lemma max_by_snd_ge_cur {A} (cur : A * Z) (rest : list (A * Z)) :
  (cur.2 <= (max_by_snd cur rest).2)%Z.
Proof.
  revert cur. induction rest as [|x r IH]; intros cur; simpl; [lia|].
  destruct (Z.gtb_spec x.2 cur.2).
  - specialize (IH x). lia.
  - apply IH.
Qed.

Lemma max_by_snd_first_max {A} (cur : A * Z) (rest : list (A * Z)) :
  exists l1 l2,
    cur :: rest = l1 ++ max_by_snd cur rest :: l2
    /\ Forall (fun x => (x.2 < (max_by_snd cur rest).2)%Z) l1
    /\ Forall (fun x => (x.2 <= (max_by_snd cur rest).2)%Z) l2.
Proof.
  revert cur. induction rest as [|x r IH]; intros cur; simpl.
  - exists [], []. auto.
  - destruct (Z.gtb_spec x.2 cur.2) as [Hgt|Hle].
    + destruct (IH x) as (l1 & l2 & E & H1 & H2).
      exists (cur :: l1), l2. split; [simpl; congruence|]. split; [|done].
      constructor; [|done].
      pose proof (max_by_snd_ge_cur x r). lia.
    + destruct (IH cur) as (l1 & l2 & E & H1 & H2).
      destruct l1 as [|c l1].
      * simpl in E. injection E as Ecur El2.
        exists [], (x :: l2). split; [simpl; congruence|]. split; [done|].
        constructor; [|done]. rewrite <- Ecur. exact Hle.
      * simpl in E. injection E as <- Er.
        exists (cur :: x :: l1), l2. split; [simpl; congruence|].
        apply Forall_cons in H1 as [Hcur H1].
        split; [|done]. repeat constructor; try done. lia.
Qed.

(** The language returned has the highest score; among the languages that
    share it, it is the first in the order of the table
    (hi, mr, gu, sa, ne). *)
Theorem ties_go_to_the_first_language (text : pystr) (lang : string)
  (score : Z) :
  lang_scores text <> [] ->
  detect_devanagari_language text = (lang, score) ->
  exists earlier later,
    lang_scores text = earlier ++ (lang, score) :: later
    /\ Forall (fun e => (e.2 < score)%Z) earlier
    /\ Forall (fun e => (e.2 <= score)%Z) later.
Proof.
  unfold detect_devanagari_language.
  destruct (lang_scores text) as [|first rest]; [done|]. intros _ Hmax.
  destruct (max_by_snd_first_max first rest) as (l1 & l2 & E & H1 & H2).
  rewrite Hmax in E, H1, H2. eauto.
Qed.

(** Hindi and Nepali both score 2 on this text; Hindi, first in the table,
    is returned. *)
Lemma ties_go_to_the_first_language_witness :
  lang_scores (u "हो") = [("hi", 2%Z); ("ne", 2%Z)]
  /\ exists earlier later,
       lang_scores (u "हो") = earlier ++ ("hi", 2%Z) :: later
       /\ Forall (fun e => (e.2 < 2)%Z) earlier
       /\ Forall (fun e => (e.2 <= 2)%Z) later.
Proof.
  split; [vm_compute; reflexivity|].
  apply (ties_go_to_the_first_language (u "हो") "hi" 2%Z).
  - vm_compute. discriminate.
  - vm_compute. reflexivity.
Defined.

(** *** The claims about the detector *)

(** C1, as stated, fails: on the text made of the keyword "है" twice
    (written together or separated by a space) Hindi does not score 6;
    a keyword that occurs adds its weight once. *)
Lemma hai_twice_hindi_score_is_not_6 :
  ~ (language_score "hi" (u "हैहै") = 6%Z)
  /\ ~ (language_score "hi" (u "है है") = 6%Z).
Proof. split; vm_compute; discriminate. Qed.

(** C1, amended: on the text made of the keyword "है" twice, Hindi scores
    3 (the weight of "है", counted once), every other candidate language
    scores 0 and gets no entry in [lang_scores], the disambiguator returns
    Hindi with confidence 3, and [detect_language] returns hin_Deva. *)
Theorem hai_twice_detects_hindi (detect : pystr -> option string) :
  Forall
    (fun text =>
       language_score "hi" text = 3%Z
       /\ Forall (fun lang => language_score lang text = 0%Z)
                 ["mr"; "gu"; "sa"; "ne"]
       /\ lang_scores text = [("hi", 3%Z)]
       /\ detect_devanagari_language text = ("hi", 3%Z)
       /\ detect_language detect text
          = (Returns "hin_Deva", [CallDevanagariScorer text]))
    [u "हैहै"; u "है है"].
Proof.
  repeat constructor; vm_compute; reflexivity.
Qed.

(** C8: a text that is empty or shorter than 2 characters gets the fixed
    default hin_Deva, and neither the Devanagari keyword scorer nor the
    statistical detector is called. *)
Theorem short_text_returns_default (detect : pystr -> option string)
  (text : pystr) :
  (len text < 2)%Z ->
  detect_language detect text = (Returns "hin_Deva", []).
Proof.
  intros Hshort. unfold detect_language.
  assert (Hstrip : (len (strip text) <? 2)%Z = true).
  { apply Z.ltb_lt. unfold len in *.
    pose proof (strip_length text). lia. }
  rewrite Hstrip, orb_true_r. reflexivity.
Qed.

(** C8 on a one-character Devanagari text and on the empty text. *)
Lemma short_text_returns_default_witness :
  detect_language (fun _ => Some "en") (u "छ") = (Returns "hin_Deva", [])
  /\ detect_language (fun _ => Some "en") [] = (Returns "hin_Deva", []).
Proof.
  split.
  - apply (short_text_returns_default (fun _ => Some "en") (u "छ")).
    vm_compute. reflexivity.
  - apply (short_text_returns_default (fun _ => Some "en") []).
    vm_compute. reflexivity.
Defined.

(** C9: on a text with a Devanagari character, the disambiguator returns
    one of hi, mr, gu, sa, ne; each of the five is a key of
    [lang_code_map]; and [detect_language] returns a code: the lookup
    [lang_code_map[devanagari_lang]] does not raise. *)
Theorem devanagari_lookup_never_fails (detect : pystr -> option string)
  (text : pystr) :
  is_devanagari_script text = true ->
  In (detect_devanagari_language text).1 ["hi"; "mr"; "gu"; "sa"; "ne"]
  /\ Forall (fun lang => is_Some (lang_code_map !! lang))
            ["hi"; "mr"; "gu"; "sa"; "ne"]
  /\ is_Some (lang_code_map !! (detect_devanagari_language text).1)
  /\ exists code, (detect_language detect text).1 = Returns code.
Proof.
  intros Hdeva.
  pose proof (detected_lang_in_table text) as Hin.
  pose proof (devanagari_langs_mapped _ Hin) as Hkey.
  split; [exact Hin|]. split.
  { repeat constructor; vm_compute; eauto. }
  split; [exact Hkey|].
  unfold detect_language.
  destruct (bool_decide (text = []) || (len (strip text) <? 2)%Z);
    [simpl; eauto|].
  rewrite Hdeva.
  destruct (detect_devanagari_language text) as [lang conf].
  simpl in Hkey. destruct Hkey as [code ->]. simpl. eauto.
Qed.

(** C9 on a Marathi text, with a statistical detector that always fails. *)
Lemma devanagari_lookup_never_fails_witness :
  In (detect_devanagari_language (u "मी आहे")).1 ["hi"; "mr"; "gu"; "sa"; "ne"]
  /\ Forall (fun lang => is_Some (lang_code_map !! lang))
            ["hi"; "mr"; "gu"; "sa"; "ne"]
  /\ is_Some (lang_code_map !! (detect_devanagari_language (u "मी आहे")).1)
  /\ exists code,
       (detect_language (fun _ => None) (u "मी आहे")).1 = Returns code.
Proof.
  apply (devanagari_lookup_never_fails (fun _ => None) (u "मी आहे")).
  vm_compute. reflexivity.
Defined.

(** C10: the keyword score of every candidate language depends only on
    which table keywords occur in the text, not on how often: two texts
    with the same matching keywords for every language get the same
    scores and the same detection result. *)
Theorem score_depends_on_matching_keywords_only (t1 t2 : pystr) :
  matching_keywords t1 = matching_keywords t2 ->
  (forall lang, language_score lang t1 = language_score lang t2)
  /\ lang_scores t1 = lang_scores t2
  /\ detect_devanagari_language t1 = detect_devanagari_language t2.
Proof.
  intros Hsame.
  pose proof (matching_keywords_agree t1 t2 Hsame) as Hscore.
  assert (Hls : lang_scores t1 = lang_scores t2)
    by (apply record_scores_ext, Hscore).
  split; [|split; [exact Hls|]].
  - intros lang. unfold language_score.
    destruct (List.find _ devanagari_indicators) as [[l ind]|] eqn:Hfind;
      [|reflexivity].
    apply find_some in Hfind as [Hin _]. apply (Hscore l ind Hin).
  - unfold detect_devanagari_language. rewrite Hls. reflexivity.
Qed.

(** C10 on the keyword once and three times. *)
Lemma score_depends_on_matching_keywords_only_witness :
  (forall lang,
     language_score lang (u "है") = language_score lang (u "है है है"))
  /\ lang_scores (u "है") = lang_scores (u "है है है")
  /\ detect_devanagari_language (u "है")
     = detect_devanagari_language (u "है है है").
Proof.
  apply (score_depends_on_matching_keywords_only (u "है") (u "है है है")).
  vm_compute. reflexivity.
Defined.

(** ** Further properties of the detector *)

(** *** Scores, language by language *)

Lemma record_scores_filter (text : pystr)
  (table : list (string * list (pystr * Z))) (acc : list (string * Z)) :
  fold_left (record_score text) table acc
  = acc ++ List.filter (fun e => (e.2 >? 0)%Z)
             (List.map (fun e => (e.1, keyword_score e.2 text)) table).
Proof.
  revert acc. induction table as [|[lang ind] rest IH]; intros acc; simpl.
  - rewrite app_nil_r. reflexivity.
  - rewrite IH. destruct (keyword_score ind text >? 0)%Z; [|reflexivity].
    rewrite <- app_assoc. reflexivity.
Qed.

Lemma language_score_entry (lang : string) (indicators : list (pystr * Z))
  (text : pystr) :
  In (lang, indicators) devanagari_indicators ->
  language_score lang text = keyword_score indicators text.
Proof.
  unfold devanagari_indicators. simpl.
  intros [E | [E | [E | [E | [E | []]]]]]; injection E as <- <-; reflexivity.
Qed.

Lemma indicators_of_entry (lang : string) (indicators : list (pystr * Z)) :
  indicators_of lang = Some indicators <->
  In (lang, indicators) devanagari_indicators.
Proof.
  split.
  - unfold indicators_of.
    destruct (List.find _ devanagari_indicators) as [[l ind]|] eqn:E;
      [|discriminate].
    intros [= <-]. apply find_some in E as [Hin Heq].
    apply String.eqb_eq in Heq. simpl in Heq. subst l. exact Hin.
  - unfold devanagari_indicators. simpl.
    intros [E | [E | [E | [E | [E | []]]]]]; injection E as <- <-; reflexivity.
Qed.

Lemma language_score_indicators (lang : string) (text : pystr) :
  language_score lang text
  = match indicators_of lang with
    | Some indicators => keyword_score indicators text
    | None => 0%Z
    end.
Proof.
  unfold language_score, indicators_of.
  destruct (List.find _ devanagari_indicators) as [[l ind]|]; reflexivity.
Qed.

Lemma lang_scores_entries (text : pystr) (lang : string) (score : Z) :
  In (lang, score) (lang_scores text) <->
  In lang devanagari_langs /\ score = language_score lang text
  /\ (0 < score)%Z.
Proof.
  unfold lang_scores. rewrite record_scores_filter. cbn [app].
  rewrite filter_In, in_map_iff. split.
  - intros [[[l ind] [E Hin]] Hpos]. simpl in E. injection E as <- <-.
    split.
    { change devanagari_langs with (List.map fst devanagari_indicators).
      apply in_map_iff. exists (l, ind). done. }
    split; [symmetry; apply language_score_entry, Hin|].
    simpl in Hpos. apply Z.gtb_lt in Hpos. lia.
  - intros (Hlang & -> & Hpos).
    change devanagari_langs with (List.map fst devanagari_indicators) in Hlang.
    apply in_map_iff in Hlang as [[l ind] [<- Hin]]. cbn [fst snd] in *.
    rewrite (language_score_entry _ _ text Hin) in *.
    split; [exists (l, ind); done|]. apply Z.gtb_lt. lia.
Qed.

(** Every weight of the table is 1, 2 or 3. *)
Lemma indicator_weights (lang : string) (indicators : list (pystr * Z)) :
  In (lang, indicators) devanagari_indicators ->
  Forall (fun kv => (1 <= kv.2 <= 3)%Z) indicators.
Proof.
  unfold devanagari_indicators. simpl.
  intros [E | [E | [E | [E | [E | []]]]]]; injection E as <- <-;
    repeat constructor; simpl; lia.
Qed.

(** The score lies between the number of matching keywords and three
    times that number. *)
Lemma keyword_score_bounds (indicators : list (pystr * Z)) (text : pystr) :
  Forall (fun kv => (1 <= kv.2 <= 3)%Z) indicators ->
  let k := Z.of_nat (length (List.filter (fun kv => contains kv.1 text)
                                         indicators)) in
  (k <= keyword_score indicators text <= 3 * k)%Z.
Proof.
  unfold keyword_score. intros Hw.
  assert (Hgen : forall z,
    let k := Z.of_nat (length (List.filter (fun kv => contains kv.1 text)
                                           indicators)) in
    (z + k <= fold_left
                (fun score '(word, weight) =>
                   if contains word text then (score + weight)%Z else score)
                indicators z <= z + 3 * k)%Z).
  { induction Hw as [|[w wt] rest Hwt _ IH]; intros z; simpl; [lia|].
    simpl in Hwt. destruct (contains w text); simpl.
    - specialize (IH (z + wt)%Z). simpl in IH. lia.
    - apply IH. }
  specialize (Hgen 0%Z). simpl in *. lia.
Qed.

Lemma language_score_nonneg (lang : string) (text : pystr) :
  (0 <= language_score lang text)%Z.
Proof.
  rewrite language_score_indicators.
  destruct (indicators_of lang) as [ind|] eqn:E; [|lia].
  apply indicators_of_entry, indicator_weights in E.
  pose proof (keyword_score_bounds ind text E) as H. simpl in H. lia.
Qed.

Lemma language_score_outside_table (lang : string) (text : pystr) :
  ~ In lang devanagari_langs -> language_score lang text = 0%Z.
Proof.
  intros Hout. rewrite language_score_indicators.
  destruct (indicators_of lang) as [ind|] eqn:E; [|reflexivity].
  exfalso. apply Hout. apply indicators_of_entry in E.
  change devanagari_langs with (List.map fst devanagari_indicators).
  apply in_map_iff. exists (lang, ind). done.
Qed.

Lemma confidence_score_max (text : pystr) :
  (detect_devanagari_language text).2
  = language_score (detect_devanagari_language text).1 text
  /\ (forall lang,
        (language_score lang text <= (detect_devanagari_language text).2)%Z)
  /\ ((detect_devanagari_language text).2 = 0%Z <->
      forall lang, language_score lang text = 0%Z)
  /\ ((detect_devanagari_language text).2 = 0%Z ->
      (detect_devanagari_language text).1 = "hi").
Proof.
  assert (Hsmall : forall lang bound,
    (0 <= bound)%Z ->
    (forall s, In (lang, s) (lang_scores text) -> (s <= bound)%Z) ->
    (language_score lang text <= bound)%Z).
  { intros lang bound Hb Hin.
    destruct (Z_le_gt_dec (language_score lang text) 0) as [|Hpos]; [lia|].
    apply Hin, lang_scores_entries. split; [|split; [done|lia]].
    destruct (in_dec string_dec lang devanagari_langs) as [|Hout]; [done|].
    rewrite (language_score_outside_table _ _ Hout) in Hpos. lia. }
  unfold detect_devanagari_language.
  destruct (lang_scores text) as [|first rest] eqn:E.
  - assert (Hzero : forall lang, language_score lang text = 0%Z).
    { intros lang. pose proof (language_score_nonneg lang text).
      pose proof (Hsmall lang 0%Z ltac:(lia) ltac:(intros s [])). lia. }
    cbn [fst snd]. rewrite Hzero. repeat split; auto.
    intros lang. rewrite Hzero. lia.
  - destruct (max_by_snd_first_max first rest) as (l1 & l2 & Hsplit & H1 & H2).
    pose proof (max_by_snd_In first rest) as Hin.
    destruct (max_by_snd first rest) as [best score] eqn:Ebest.
    rewrite <- E in Hin. apply lang_scores_entries in Hin as (_ & -> & Hpos).
    cbn [fst snd] in *.
    split; [reflexivity|]. split.
    + intros lang. apply Hsmall; [lia|]. intros s Hs.
      rewrite ?E, Hsplit in Hs. apply in_app_or in Hs as [Hs | [Hs | Hs]].
      * apply (proj1 (List.Forall_forall _ _) H1 (lang, s)) in Hs.
        cbn [snd] in Hs. lia.
      * injection Hs as _ <-. lia.
      * apply (proj1 (List.Forall_forall _ _) H2 (lang, s)) in Hs. exact Hs.
    + split; [|lia]. split; [lia|]. intros Hzero. rewrite Hzero in Hpos. lia.
Qed.

(** The confidence returned is the score of the language returned, no
    language scores higher, and a confidence of 0 means that no keyword
    of any language occurs and Hindi is the default. *)
Theorem confidence_is_the_highest_score (text : pystr) :
  (detect_devanagari_language text).2
  = language_score (detect_devanagari_language text).1 text
  /\ (forall lang,
        (language_score lang text <= (detect_devanagari_language text).2)%Z)
  /\ ((detect_devanagari_language text).2 = 0%Z <->
      forall lang, language_score lang text = 0%Z)
  /\ ((detect_devanagari_language text).2 = 0%Z ->
      (detect_devanagari_language text).1 = "hi").
Proof. exact (confidence_score_max text). Qed.

(** *** More text never lowers a score *)

Lemma startswith_app (w t post : pystr) :
  startswith w t = true -> startswith w (t ++ post) = true.
Proof.
  revert t. induction w as [|a w IH]; intros [|b t]; simpl; try done.
  rewrite !andb_true_iff. intros [? ?]. auto.
Qed.

Lemma contains_app_r (w t post : pystr) :
  contains w t = true -> contains w (t ++ post) = true.
Proof.
  induction t as [|c t IH]; simpl.
  - rewrite orb_false_r. destruct w; [|done]. intros _. destruct post; done.
  - rewrite !orb_true_iff. intros [H | H]; [left|right; auto].
    apply (startswith_app w (c :: t) post H).
Qed.

Lemma contains_app_l (w pre t : pystr) :
  contains w t = true -> contains w (pre ++ t) = true.
Proof.
  intros H. induction pre as [|c pre IH]; simpl; [done|].
  rewrite IH. apply orb_true_r.
Qed.

Lemma keyword_score_mono (indicators : list (pystr * Z)) (t1 t2 : pystr) :
  Forall (fun kv => (1 <= kv.2 <= 3)%Z) indicators ->
  (forall w, contains w t1 = true -> contains w t2 = true) ->
  (keyword_score indicators t1 <= keyword_score indicators t2)%Z.
Proof.
  unfold keyword_score. intros Hw Hsub.
  assert (Hgen : forall z1 z2, (z1 <= z2)%Z ->
    (fold_left
       (fun score '(word, weight) =>
          if contains word t1 then (score + weight)%Z else score)
       indicators z1
     <= fold_left
          (fun score '(word, weight) =>
             if contains word t2 then (score + weight)%Z else score)
          indicators z2)%Z).
  { induction Hw as [|[w wt] rest Hwt _ IH]; intros z1 z2 Hz; simpl; [done|].
    simpl in Hwt. specialize (Hsub w).
    destruct (contains w t1) eqn:E1, (contains w t2) eqn:E2.
    - apply IH. lia.
    - specialize (Hsub eq_refl). discriminate.
    - apply IH. lia.
    - apply IH. lia. }
  apply Hgen. lia.
Qed.

(** The score of every language, and with it the confidence returned,
    can only grow when text is added before or after. *)
Theorem scores_grow_with_the_text (pre text post : pystr) :
  (forall lang,
     (language_score lang text <= language_score lang (pre ++ text ++ post))%Z)
  /\ ((detect_devanagari_language text).2
      <= (detect_devanagari_language (pre ++ text ++ post)).2)%Z.
Proof.
  assert (Hlang : forall lang,
    (language_score lang text <= language_score lang (pre ++ text ++ post))%Z).
  { intros lang. rewrite !language_score_indicators.
    destruct (indicators_of lang) as [ind|] eqn:E; [|lia].
    apply keyword_score_mono.
    - apply indicators_of_entry, indicator_weights in E. exact E.
    - intros w H. apply contains_app_l, contains_app_r, H. }
  split; [exact Hlang|].
  destruct (confidence_score_max text) as (-> & _).
  etransitivity; [apply Hlang|].
  apply (confidence_score_max (pre ++ text ++ post)).
Qed.

(** *** The Gujarati table *)

Lemma startswith_incl (w t : pystr) (c : N) :
  startswith w t = true -> In c w -> In c t.
Proof.
  revert t. induction w as [|a w IH]; intros [|b t]; simpl; try done.
  rewrite andb_true_iff, N.eqb_eq. intros [-> H] [-> | Hin]; eauto.
Qed.

Lemma contains_incl (w t : pystr) (c : N) :
  contains w t = true -> In c w -> In c t.
Proof.
  induction t as [|b t IH]; simpl.
  - rewrite orb_false_r. intros H Hin. destruct w; [done|discriminate].
  - rewrite orb_true_iff. intros [H | H] Hin.
    + exact (startswith_incl w (b :: t) c H Hin).
    + right. auto.
Qed.

Lemma gujarati_keywords (indicators : list (pystr * Z)) :
  In ("gu", indicators) devanagari_indicators ->
  Forall (fun kv => has_gujarati_char kv.1 = true) indicators.
Proof.
  unfold devanagari_indicators. simpl.
  intros [E | [E | [E | [E | [E | []]]]]]; try discriminate E.
  injection E as <-. repeat constructor.
Qed.

Lemma keyword_score_none (indicators : list (pystr * Z)) (text : pystr) :
  Forall (fun kv => contains kv.1 text = false) indicators ->
  keyword_score indicators text = 0%Z.
Proof.
  unfold keyword_score. intros Hnone.
  assert (Hgen : forall z,
    fold_left
      (fun score '(word, weight) =>
         if contains word text then (score + weight)%Z else score)
      indicators z = z).
  { induction Hnone as [|[w wt] rest Hw _ IH]; intros z; simpl; [done|].
    simpl in Hw. rewrite Hw. apply IH. }
  apply Hgen.
Qed.

Lemma gujarati_chars_needed (text : pystr) :
  has_gujarati_char text = false ->
  language_score "gu" text = 0%Z
  /\ (detect_devanagari_language text).1 <> "gu".
Proof.
  intros Hno.
  assert (Hzero : language_score "gu" text = 0%Z).
  { rewrite language_score_indicators.
    destruct (indicators_of "gu") as [ind|] eqn:E; [|done].
    apply indicators_of_entry, gujarati_keywords in E.
    apply keyword_score_none.
    eapply Forall_impl; [exact E|]. intros [w wt] Hw. simpl in *.
    destruct (contains w text) eqn:Hc; [|done].
    unfold has_gujarati_char in *.
    apply existsb_exists in Hw as (c & Hin & Hc').
    assert (Hex : existsb
              (fun char => (0x0A80 <=? char)%N && (char <=? 0x0AFF)%N) text
            = true).
    { apply existsb_exists. exists c. split; [|done].
      exact (contains_incl w text c Hc Hin). }
    congruence. }
  split; [exact Hzero|].
  unfold detect_devanagari_language.
  destruct (lang_scores text) as [|first rest] eqn:E; [discriminate|].
  pose proof (max_by_snd_In first rest) as Hin. rewrite <- E in Hin.
  destruct (max_by_snd first rest) as [lang score].
  apply lang_scores_entries in Hin as (_ & -> & Hpos).
  cbn [fst]. intros ->. lia.
Qed.

(** On a text without a character of the Gujarati block, Gujarati scores
    0 and is not the language the keyword scorer returns. *)
Theorem gujarati_needs_gujarati_characters (text : pystr) :
  has_gujarati_char text = false ->
  language_score "gu" text = 0%Z
  /\ (detect_devanagari_language text).1 <> "gu".
Proof. exact (gujarati_chars_needed text). Qed.

Lemma gujarati_needs_gujarati_characters_witness :
  language_score "gu" (u "आ ने थी है") = 0%Z
  /\ (detect_devanagari_language (u "आ ने थी है")).1 <> "gu".
Proof.
  apply (gujarati_needs_gujarati_characters (u "आ ने थी है")).
  vm_compute. reflexivity.
Defined.

(** *** What [detect_language] returns *)

Lemma lang_code_map_entries (lang code : string) :
  lang_code_map !! lang = Some code ->
  In (lang, code)
     [ ("hi", "hin_Deva"); ("mr", "mar_Deva"); ("bn", "ben_Beng");
       ("ta", "tam_Taml"); ("te", "tel_Telu"); ("gu", "guj_Gujr");
       ("kn", "kan_Knda"); ("ml", "mal_Mlym"); ("pa", "pan_Guru");
       ("or", "ory_Orya"); ("as", "asm_Beng"); ("ur", "urd_Arab");
       ("en", "eng_Latn"); ("ne", "nep_Deva"); ("si", "sin_Sinh");
       ("sa", "san_Deva") ].
Proof.
  unfold lang_code_map. intros H.
  apply elem_of_list_to_map_2 in H. apply list_elem_of_In. exact H.
Qed.

(** For every text and whatever langdetect does, [detect_language]
    returns the code of one of the sixteen languages of [lang_code_map]:
    no lookup raises. *)
Theorem detect_language_returns_a_supported_code
  (detect : pystr -> option string) (text : pystr) :
  exists lang code,
    lang_code_map !! lang = Some code
    /\ (detect_language detect text).1 = Returns code.
Proof.
  assert (Hhi : lang_code_map !! "hi" = Some "hin_Deva") by reflexivity.
  unfold detect_language.
  destruct (bool_decide (text = []) || (len (strip text) <? 2)%Z);
    [exists "hi", "hin_Deva"; done|].
  destruct (is_devanagari_script text).
  - pose proof (devanagari_langs_mapped _ (detected_lang_in_table text))
      as [code Hcode].
    destruct (detect_devanagari_language text) as [lang conf].
    cbn [fst] in Hcode. rewrite Hcode. exists lang, code. done.
  - destruct (detect text) as [detected|]; [|exists "hi", "hin_Deva"; done].
    destruct (lang_code_map !! detected) as [code|] eqn:E;
      [exists detected, code; done|exists "hi", "hin_Deva"; done].
Qed.

(** On a text with a Devanagari character the statistical detector is
    not consulted: the outcome is the same whatever it would answer, and
    the only detector called is the keyword scorer. *)
Theorem devanagari_text_ignores_langdetect
  (detect1 detect2 : pystr -> option string) (text : pystr) :
  is_devanagari_script text = true ->
  detect_language detect1 text = detect_language detect2 text
  /\ Forall (fun c => c = CallDevanagariScorer text)
            (detect_language detect1 text).2.
Proof.
  intros Hdeva. unfold detect_language.
  destruct (bool_decide (text = []) || (len (strip text) <? 2)%Z);
    [split; [done|constructor]|].
  rewrite Hdeva. destruct (detect_devanagari_language text) as [lang conf].
  destruct (lang_code_map !! lang); split; try done; repeat constructor.
Qed.

Lemma devanagari_text_ignores_langdetect_witness :
  detect_language (fun _ => Some "en") (u "मी आहे")
  = detect_language (fun _ => None) (u "मी आहे")
  /\ Forall (fun c => c = CallDevanagariScorer (u "मी आहे"))
            (detect_language (fun _ => Some "en") (u "मी आहे")).2.
Proof.
  apply (devanagari_text_ignores_langdetect
           (fun _ => Some "en") (fun _ => None) (u "मी आहे")).
  vm_compute. reflexivity.
Defined.

(** On a text that does not mix Devanagari and Gujarati characters,
    [detect_language] answers guj_Gujr only on langdetect's word: the
    keyword scorer's Gujarati table plays no part. *)
Theorem gujarati_code_comes_from_langdetect
  (detect : pystr -> option string) (text : pystr) :
  has_gujarati_char text && is_devanagari_script text = false ->
  (detect_language detect text).1 = Returns "guj_Gujr" ->
  detect text = Some "gu"
  /\ (detect_language detect text).2 = [CallLangdetect text].
Proof.
  intros Hsingle. unfold detect_language.
  destruct (bool_decide (text = []) || (len (strip text) <? 2)%Z);
    [discriminate|].
  destruct (is_devanagari_script text) eqn:Hdeva.
  - rewrite andb_true_r in Hsingle.
    destruct (gujarati_chars_needed text Hsingle) as [_ Hnot].
    pose proof (detected_lang_in_table text) as Hin.
    destruct (detect_devanagari_language text) as [lang conf].
    cbn [fst] in *. unfold devanagari_langs in Hin. simpl in Hin.
    destruct Hin as [<- | [<- | [<- | [<- | [<- | []]]]]];
      try discriminate; contradiction.
  - destruct (detect text) as [detected|]; [|discriminate].
    destruct (lang_code_map !! detected) as [code|] eqn:E; [|discriminate].
    cbn [fst snd]. intros [= ->]. split; [|reflexivity].
    apply lang_code_map_entries in E. simpl in E.
    repeat (destruct E as [E | E]; [injection E as <-; try discriminate; try reflexivity|]).
    all: try (exfalso; congruence).
Qed.

Lemma gujarati_code_comes_from_langdetect_witness :
  (fun _ : pystr => Some "gu") (u "આ શું છે") = Some "gu"
  /\ (detect_language (fun _ => Some "gu") (u "આ શું છે")).2
     = [CallLangdetect (u "આ શું છે")].
Proof.
  apply (gujarati_code_comes_from_langdetect (fun _ => Some "gu") (u "આ શું છે")).
  - vm_compute. reflexivity.
  - vm_compute. reflexivity.
Defined.

(** *** [get_detection_method] *)

Lemma custom_detection_described (detect : pystr -> option string)
  (text : pystr) :
  is_devanagari_script text = true ->
  exists k,
    get_detection_method detect text
    = Describes (Detection "custom_devanagari_detection"
                   (detect_devanagari_language text).1
                   (Score (detect_devanagari_language text).2) (Some k))
    /\ (k <= (detect_devanagari_language text).2 <= 3 * k)%Z.
Proof.
  intros Hdeva. unfold get_detection_method. rewrite Hdeva.
  destruct (confidence_score_max text) as (Hconf & _).
  pose proof (detected_lang_in_table text) as Hin.
  destruct (detect_devanagari_language text) as [lang conf]. cbn [fst snd] in *.
  rewrite language_score_indicators in Hconf.
  change devanagari_langs with (List.map fst devanagari_indicators) in Hin.
  apply in_map_iff in Hin as [[l ind] [Hl Hin]]. simpl in Hl. subst l.
  pose proof (proj2 (indicators_of_entry lang ind) Hin) as Hind.
  rewrite Hind in Hconf |- *. subst conf.
  eexists. split; [reflexivity|].
  apply keyword_score_bounds. exact (indicator_weights _ _ Hin).
Qed.

(** On a text with a Devanagari character, [get_detection_method]
    describes the custom detection: the language and confidence of
    [detect_devanagari_language], and a number of indicators used [k]
    with k <= confidence <= 3 k; the lookup of the language's table does
    not raise. *)
Theorem detection_method_for_devanagari (detect : pystr -> option string)
  (text : pystr) :
  is_devanagari_script text = true ->
  exists k,
    get_detection_method detect text
    = Describes (Detection "custom_devanagari_detection"
                   (detect_devanagari_language text).1
                   (Score (detect_devanagari_language text).2) (Some k))
    /\ (k <= (detect_devanagari_language text).2 <= 3 * k)%Z.
Proof. exact (custom_detection_described detect text). Qed.

Lemma detection_method_for_devanagari_witness :
  exists k,
    get_detection_method (fun _ => None) (u "मी आहे")
    = Describes (Detection "custom_devanagari_detection"
                   (detect_devanagari_language (u "मी आहे")).1
                   (Score (detect_devanagari_language (u "मी आहे")).2)
                   (Some k))
    /\ (k <= (detect_devanagari_language (u "मी आहे")).2 <= 3 * k)%Z.
Proof.
  apply (detection_method_for_devanagari (fun _ => None) (u "मी आहे")).
  vm_compute. reflexivity.
Defined.

(** On a text of at least two characters once stripped, the code
    [detect_language] returns is [lang_code_map] applied to the language
    [get_detection_method] reports, and hin_Deva when that language is
    not in the map. *)
Theorem detection_method_agrees_with_detect_language
  (detect : pystr -> option string) (text : pystr) :
  (2 <= len (strip text))%Z ->
  exists d,
    get_detection_method detect text = Describes d
    /\ (detect_language detect text).1
       = Returns (default "hin_Deva" (lang_code_map !! detected_lang d)).
Proof.
  intros Hlen. unfold detect_language, get_detection_method.
  assert (Hne : bool_decide (text = []) = false).
  { apply bool_decide_eq_false. intros ->.
    change (len (strip [])) with 0%Z in Hlen. lia. }
  assert (Hlong : (len (strip text) <? 2)%Z = false) by (apply Z.ltb_ge; lia).
  rewrite Hne, Hlong. cbn [orb].
  destruct (is_devanagari_script text) eqn:Hdeva.
  - destruct (custom_detection_described detect text Hdeva) as (k & Hk & _).
    unfold get_detection_method in Hk. rewrite Hdeva in Hk.
    pose proof (devanagari_langs_mapped _ (detected_lang_in_table text))
      as [code Hcode].
    destruct (detect_devanagari_language text) as [lang conf].
    cbn [fst snd] in *. rewrite Hk, Hcode. eexists. split; [reflexivity|].
    cbn [detected_lang]. rewrite Hcode. reflexivity.
  - destruct (detect text) as [detected|].
    + eexists. split; [reflexivity|]. cbn [detected_lang].
      destruct (lang_code_map !! detected); reflexivity.
    + eexists. split; [reflexivity|]. reflexivity.
Qed.

Lemma detection_method_agrees_with_detect_language_witness :
  exists d,
    get_detection_method (fun _ => Some "en") (u "Hello world") = Describes d
    /\ (detect_language (fun _ => Some "en") (u "Hello world")).1
       = Returns (default "hin_Deva" (lang_code_map !! detected_lang d)).
Proof.
  apply (detection_method_agrees_with_detect_language
           (fun _ => Some "en") (u "Hello world")).
  vm_compute. discriminate.
Defined.

(** On a shorter text the two can disagree: [detect_language] returns the
    default without looking, [get_detection_method] scores the text. *)
Example short_text_methods_disagree :
  (detect_language (fun _ => None) (u "छ")).1 = Returns "hin_Deva"
  /\ exists k,
       get_detection_method (fun _ => None) (u "छ")
       = Describes (Detection "custom_devanagari_detection" "ne"
                      (Score 3) (Some k)).
Proof. split; [reflexivity|]. eexists. vm_compute. reflexivity. Qed.

(** English text: no Devanagari character, langdetect answers "en". *)
Example english_text_returns_eng_Latn :
  detect_language (fun _ => Some "en") (u "Hello world")
  = (Returns "eng_Latn", [CallLangdetect (u "Hello world")]).
Proof. vm_compute. reflexivity. Qed.

End LangIndicatorsProps.

(* ===================================================================== *)
(** * Properties of the pipeline                                          *)
(* ===================================================================== *)

Module FinalProps.
Import Py Final Examples.

(** ** File names *)

Lemma codes_uint_codes (d : Decimal.uint) : codes_uint (uint_codes d) = d.
Proof. induction d; simpl; congruence. Qed.

Lemma of_uint_zero_padded (k : nat) (d : Decimal.uint) :
  N.of_uint (codes_uint (replicate k 48%N ++ uint_codes d)) = N.of_uint d.
Proof.
  induction k as [|k IH]; simpl.
  - rewrite codes_uint_codes. reflexivity.
  - exact IH.
Qed.

Lemma format_d_value (width : nat) (z : Z) :
  (0 <= z)%Z -> N.of_uint (codes_uint (format_d width z)) = Z.to_N z.
Proof.
  intros Hz. unfold format_d.
  destruct (z <? 0)%Z eqn:E; [apply Z.ltb_lt in E; lia|].
  rewrite of_uint_zero_padded, DecimalN.Unsigned.of_to.
  destruct z; simpl; try reflexivity. lia.
Qed.

Lemma format_d_inj (width : nat) (a b : Z) :
  (0 <= a)%Z -> (0 <= b)%Z -> format_d width a = format_d width b -> a = b.
Proof.
  intros Ha Hb E.
  apply (f_equal (fun s => N.of_uint (codes_uint s))) in E.
  rewrite !format_d_value in E by done. lia.
Qed.

Lemma batch_filename_inj (a b : Z) :
  (0 <= a)%Z -> (0 <= b)%Z -> batch_filename a = batch_filename b -> a = b.
Proof.
  unfold batch_filename. intros Ha Hb E.
  apply app_inv_head, app_inv_tail in E.
  eapply format_d_inj; eauto.
Qed.

Lemma endswith_app (s suffix : pystr) : endswith (s ++ suffix) suffix = true.
Proof.
  unfold endswith. rewrite rev_app_distr.
  induction (rev suffix) as [|c r IH]; simpl; [done|].
  rewrite N.eqb_refl. exact IH.
Qed.

Lemma batch_filename_json (k : Z) : endswith (batch_filename k) (u ".json") = true.
Proof. unfold batch_filename. rewrite app_assoc. apply endswith_app. Qed.

(** ** Sorting file names *)

Lemma str_leb_total (a b : pystr) : str_leb a b = true \/ str_leb b a = true.
Proof.
  revert b. induction a as [|x a IH]; intros [|y b]; simpl; auto.
  destruct (N.lt_trichotomy x y) as [Hlt | [-> | Hgt]].
  - left. apply orb_true_iff. left. apply N.ltb_lt. exact Hlt.
  - rewrite N.ltb_irrefl, N.eqb_refl. simpl. apply IH.
  - right. apply orb_true_iff. left. apply N.ltb_lt. exact Hgt.
Qed.

(** [sorted] returns its argument rearranged in ascending order. *)
Lemma sorted_ascending (names : list pystr) :
  Sorted (fun a b => Is_true (str_leb a b)) (sorted names)
  /\ sorted names ≡ₚ names.
Proof.
  split; [|apply merge_sort_Permutation].
  apply Sorted_merge_sort. intros a b.
  destruct (str_leb_total a b) as [H | H]; rewrite H; simpl; auto.
Qed.

(** ** The file system operations *)

Lemma remove_json_fold (names : list pystr) (acc : gmap pystr file) (name : pystr) :
  fold_left (fun acc f => if endswith f (u ".json") then delete f acc else acc)
            names acc !! name
  = if endswith name (u ".json") && bool_decide (name ∈ names)
    then None else acc !! name.
Proof.
  revert acc. induction names as [|f rest IH]; intros acc; simpl.
  - rewrite andb_false_r. reflexivity.
  - rewrite IH. destruct (endswith name (u ".json")) eqn:Ename; simpl.
    + destruct (decide (name = f)) as [->|Hne].
      * rewrite Ename, lookup_delete_eq.
        rewrite (bool_decide_eq_true_2 (f ∈ f :: rest)) by left.
        destruct (bool_decide (f ∈ rest)); reflexivity.
      * assert (Hmem : bool_decide (name ∈ f :: rest) = bool_decide (name ∈ rest)).
        { apply bool_decide_ext. rewrite elem_of_cons. tauto. }
        rewrite Hmem.
        destruct (bool_decide (name ∈ rest)); [reflexivity|].
        destruct (endswith f (u ".json")); [|reflexivity].
        rewrite lookup_delete_ne by done. reflexivity.
    + destruct (endswith f (u ".json")) eqn:Ef; [|reflexivity].
      rewrite lookup_delete_ne; [reflexivity|]. congruence.
Qed.

Lemma remove_json_files_lookup (d : gmap pystr file) (name : pystr) :
  remove_json_files d !! name
  = if endswith name (u ".json") then None else d !! name.
Proof.
  unfold remove_json_files. rewrite remove_json_fold.
  destruct (endswith name (u ".json")); simpl; [|reflexivity].
  case_bool_decide as Hin; [reflexivity|].
  destruct (d !! name) as [f|] eqn:E; [|reflexivity].
  exfalso. apply Hin. apply list_elem_of_In, in_map_iff.
  exists (name, f). split; [reflexivity|].
  apply list_elem_of_In, elem_of_map_to_list. exact E.
Qed.

Lemma entry_at_plain (st : fs) (path : pystr) :
  plain_name path = true -> entry_at st path = Ok (st !! path).
Proof. unfold entry_at. intros ->. reflexivity. Qed.

Lemma plain_chunks : plain_name (u "chunks") = true.
Proof. vm_compute. reflexivity. Qed.

Lemma plain_batches : plain_name (u "batches") = true.
Proof. vm_compute. reflexivity. Qed.

Lemma plain_analysis_results : plain_name (u "analysis_results") = true.
Proof. vm_compute. reflexivity. Qed.

(** The system calls on plain names: the entry is looked up. *)
Ltac plain_paths :=
  rewrite ?entry_at_plain
    by first [ assumption | exact plain_chunks | exact plain_batches
             | exact plain_analysis_results ];
  cbn [bind].

Lemma makedirs_free (st : fs) (name : pystr) :
  plain_name name = true ->
  dir_slot_free st name = true ->
  exists st1 d,
    makedirs st name = Ok st1
    /\ st1 !! name = Some (Dir d)
    /\ (forall other, other <> name -> st1 !! other = st !! other)
    /\ (st !! name = Some (Dir d) \/ (st !! name = None /\ d = ∅)).
Proof.
  intros Hplain. unfold dir_slot_free, makedirs. plain_paths.
  destruct (st !! name) as [[f|d]|] eqn:E; [discriminate| |]; intros _.
  - exists st, d. auto.
  - exists (<[name := Dir ∅]> st), ∅.
    split; [done|]. split; [apply lookup_insert_eq|]. split; [|auto].
    intros other Hne. apply lookup_insert_ne. congruence.
Qed.

Lemma json_files_hold_spec (good : json -> bool) (d : gmap pystr file) :
  json_files_hold good d = true <->
  forall name j, d !! name = Some (Parsed j) ->
                 endswith name (u ".json") = true -> good j = true.
Proof.
  unfold json_files_hold. rewrite forallb_forall. split.
  - intros H name j Hlook Hjson.
    specialize (H (name, Parsed j)). simpl in H.
    rewrite Hjson in H. simpl in H. apply H.
    apply list_elem_of_In, elem_of_map_to_list. exact Hlook.
  - intros H [name [|j]] Hin; simpl; [reflexivity|].
    apply list_elem_of_In, elem_of_map_to_list in Hin.
    destruct (endswith name (u ".json")) eqn:E; simpl; [|reflexivity].
    eapply H; eauto.
Qed.

Lemma sorted_elem (names : list pystr) (name : pystr) :
  In name (sorted names) <-> In name names.
Proof.
  unfold sorted. rewrite <- !list_elem_of_In.
  rewrite merge_sort_Permutation. reflexivity.
Qed.

Lemma json_names_elem (names : list pystr) (name : pystr) :
  In name (json_names names) <->
  In name names /\ endswith name (u ".json") = true.
Proof.
  unfold json_names.
  exact (filter_In (fun f => endswith f (u ".json")) name names).
Qed.

(** ** Sizes *)

Lemma chunk_chars_nonneg (c : json) : (0 <= chunk_chars c)%Z.
Proof.
  unfold chunk_chars, estimate_char_length, dict_get, bind.
  destruct c; simpl; try lia.
  destruct (default (JStr []) (assoc (u "page_content") items)); simpl;
    unfold len; lia.
Qed.

Lemma estimate_chunk (c : json) :
  is_chunk c = true -> estimate_char_length c = Ok (chunk_chars c).
Proof.
  unfold chunk_chars, estimate_char_length, is_chunk, dict_get, bind.
  destruct c; try discriminate.
  destruct (assoc (u "page_content") items) as [[]|]; simpl;
    try discriminate; reflexivity.
Qed.

Lemma batch_chars_app (b1 b2 : list json) :
  batch_chars (b1 ++ b2) = (batch_chars b1 + batch_chars b2)%Z.
Proof.
  unfold batch_chars. induction b1 as [|c r IH]; simpl; [lia|].
  rewrite IH. lia.
Qed.

Lemma batch_chars_single (c : json) : batch_chars [c] = chunk_chars c.
Proof. unfold batch_chars. simpl. lia. Qed.

Lemma batch_chars_nonneg (b : list json) : (0 <= batch_chars b)%Z.
Proof.
  induction b as [|c r IH]; simpl; [lia|].
  pose proof (chunk_chars_nonneg c). lia.
Qed.

Lemma batch_chars_member (b : list json) (c : json) :
  In c b -> (chunk_chars c <= batch_chars b)%Z.
Proof.
  induction b as [|c' r IH]; simpl; [tauto|].
  pose proof (chunk_chars_nonneg c'). pose proof (batch_chars_nonneg r).
  intros [-> | Hin]; [|specialize (IH Hin)]; fold (batch_chars r) in *; lia.
Qed.

Lemma within_budget_oversized_alone (max_batch_chars : Z) (b : list json) :
  within_budget max_batch_chars b -> oversized_alone max_batch_chars b.
Proof.
  intros [Hle | [c0 [-> _]]] c Hin Hbig.
  - pose proof (batch_chars_member b c Hin). lia.
  - destruct Hin as [-> | []]. reflexivity.
Qed.

(** ** The batching loop *)

Section Batching.

Variable st0 : fs.
Variable chunks_dir_path : pystr.
Variable max_batch_chars : Z.
Variable dc : gmap pystr file.
Variable json_dump : json -> option exn.

Hypothesis chunks_dir_not_batches : chunks_dir_path <> u "batches".
Hypothesis chunks_dir_plain : plain_name chunks_dir_path = true.
Hypothesis chunk_files_hold_chunks :
  forall name j, dc !! name = Some (Parsed j) ->
                 endswith name (u ".json") = true -> is_chunk j = true.
Hypothesis chunk_lists_dump :
  forall b, Forall (chunk_in_dir dc) b -> json_dump (JArr b) = None.

Lemma chunk_of_in_dir (filename : pystr) :
  endswith filename (u ".json") = true ->
  Forall (chunk_in_dir dc) (chunk_of dc filename).
Proof.
  intros Hjson. unfold chunk_of.
  destruct (dc !! filename) as [[|c]|] eqn:Hfile; repeat constructor.
  exists filename. done.
Qed.

Lemma save_batch_inv (processed : list json) (saved : list (list json))
  (b : batcher) (st : fs) :
  batching_inv st0 chunks_dir_path max_batch_chars dc processed saved b st ->
  Forall (chunk_in_dir dc) processed ->
  good_batch max_batch_chars (current_batch_content b) ->
  exists st',
    save_batch json_dump (u "batches") b st
    = Ok (Batcher [] 0 (batch_count b + 1), st')
    /\ batching_inv st0 chunks_dir_path max_batch_chars dc processed (saved ++ [current_batch_content b])
                    (Batcher [] 0 (batch_count b + 1)) st'.
Proof.
  intros [Hcount Hsize Hchunks Hframe (d & Hd & Hfiles & Honly) Hsaved _ Hproc]
         Hfrom Hgood.
  unfold save_batch, write_json. plain_paths. rewrite Hd.
  rewrite chunk_lists_dump
    by (rewrite <- Hproc in Hfrom; apply Forall_app in Hfrom; tauto).
  simpl.
  eexists. split; [reflexivity|].
  assert (Hname : batch_filename (batch_count b)
                  = batch_filename (Z.of_nat (S (length saved)))).
  { f_equal. lia. }
  constructor; simpl.
  - rewrite length_app. simpl. lia.
  - reflexivity.
  - rewrite lookup_insert_ne by done. exact Hchunks.
  - intros name Hname'. rewrite lookup_insert_ne by done. auto.
  - eexists. split; [apply lookup_insert_eq|]. split.
    + intros i bt Hi.
      destruct (decide (i = length saved)) as [->|Hne].
      * rewrite lookup_app_r, Nat.sub_diag in Hi by lia.
        simpl in Hi. injection Hi as <-.
        rewrite Hname. apply lookup_insert_eq.
      * assert (Hlt : (i < length saved)%nat).
        { apply lookup_lt_Some in Hi. rewrite length_app in Hi.
          simpl in Hi. lia. }
        rewrite lookup_app_l in Hi by done.
        rewrite lookup_insert_ne; [auto|].
        rewrite Hname. intros E. apply batch_filename_inj in E; lia.
    + intros name Hjson Hsome. rewrite length_app. simpl.
      destruct (decide (name = batch_filename (batch_count b))) as [->|Hne].
      * exists (length saved). split; [lia|]. exact Hname.
      * rewrite lookup_insert_ne in Hsome by done.
        destruct (Honly name Hjson Hsome) as (i & Hi & ->).
        exists i. split; [lia|reflexivity].
  - apply Forall_app. split; [done|]. constructor; [done|constructor].
  - left. reflexivity.
  - rewrite concat_app. simpl. rewrite !app_nil_r. exact Hproc.
Qed.

Lemma batch_step_inv (processed : list json) (saved : list (list json))
  (b : batcher) (st : fs) (filename : pystr) :
  batching_inv st0 chunks_dir_path max_batch_chars dc processed saved b st ->
  Forall (chunk_in_dir dc) processed ->
  endswith filename (u ".json") = true ->
  exists saved' b' st',
    batch_step json_dump chunks_dir_path (u "batches") max_batch_chars
               (b, st) filename
    = Ok (b', st')
    /\ batching_inv st0 chunks_dir_path max_batch_chars dc (processed ++ chunk_of dc filename) saved' b' st'.
Proof.
  intros Hinv Hfrom Hjson.
  unfold batch_step, load_json_in, chunk_of. plain_paths.
  rewrite (inv_chunks _ _ _ _ _ _ _ _ Hinv).
  destruct (dc !! filename) as [[|chunk_data]|] eqn:Hfile.
  - exists saved, b, st. split; [reflexivity|]. rewrite app_nil_r. exact Hinv.
  - pose proof (chunk_files_hold_chunks _ _ Hfile Hjson) as Hchunk.
    rewrite (estimate_chunk _ Hchunk). simpl.
    pose proof (chunk_chars_nonneg chunk_data) as Hnn.
    destruct ((current_batch_size_chars b + chunk_chars chunk_data
               >? max_batch_chars)%Z
              && negb (bool_decide (current_batch_content b = []))) eqn:Hcond.
    + apply andb_true_iff in Hcond as [Hover Hne].
      apply negb_true_iff, bool_decide_eq_false in Hne.
      assert (Hgood : good_batch max_batch_chars (current_batch_content b)).
      { destruct (inv_current _ _ _ _ _ _ _ _ Hinv); [contradiction|done]. }
      destruct (save_batch_inv _ _ _ _ Hinv Hfrom Hgood) as (st' & -> & Hinv').
      simpl. eexists _, _, st'. split; [reflexivity|].
      destruct Hinv' as [Hc Hs Hch Hfr Hdir Hsv _ Hpr].
      cbn [current_batch_content current_batch_size_chars batch_count] in *.
      constructor;
        cbn [current_batch_content current_batch_size_chars batch_count];
        try done.
      * rewrite batch_chars_single. reflexivity.
      * right. split; [done|]. split; [repeat constructor; done|].
        destruct (Z.gtb_spec (chunk_chars chunk_data) max_batch_chars).
        -- right. exists chunk_data. split; [done|lia].
        -- left. rewrite batch_chars_single. lia.
      * rewrite app_nil_r in Hpr. rewrite Hpr. reflexivity.
    + eexists saved, _, st. split; [reflexivity|].
      destruct Hinv as [Hc Hs Hch Hfr Hdir Hsv Hcur Hpr].
      constructor;
        cbn [current_batch_content current_batch_size_chars batch_count];
        try done.
      * rewrite batch_chars_app, batch_chars_single, Hs. reflexivity.
      * right. split; [by destruct (current_batch_content b)|].
        split.
        { apply Forall_app. split; [|repeat constructor; done].
          destruct Hcur as [-> | (_ & H & _)]; [constructor|done]. }
        apply andb_false_iff in Hcond as [Hle | Hempty].
        -- left. rewrite batch_chars_app, batch_chars_single, <- Hs.
           rewrite Z.gtb_ltb in Hle. apply Z.ltb_ge in Hle. lia.
        -- apply negb_false_iff, bool_decide_eq_true in Hempty.
           rewrite Hempty. simpl.
           destruct (Z.gtb_spec (chunk_chars chunk_data) max_batch_chars).
           ++ right. exists chunk_data. split; [done|lia].
           ++ left. rewrite batch_chars_single. lia.
      * rewrite <- Hpr, app_assoc. reflexivity.
  - exists saved, b, st. split; [reflexivity|]. rewrite app_nil_r. exact Hinv.
Qed.

Lemma batching_loop_inv (files : list pystr) :
  Forall (fun f => endswith f (u ".json") = true) files ->
  forall processed saved b st,
    batching_inv st0 chunks_dir_path max_batch_chars dc processed saved b st ->
    Forall (chunk_in_dir dc) processed ->
    exists saved' b' st',
      for_each (batch_step json_dump chunks_dir_path (u "batches")
                           max_batch_chars)
               (b, st) files = Ok (b', st')
      /\ batching_inv st0 chunks_dir_path max_batch_chars dc (processed ++ flat_map (chunk_of dc) files) saved' b' st'
      /\ Forall (chunk_in_dir dc) (processed ++ flat_map (chunk_of dc) files).
Proof.
  induction 1 as [|f rest Hf _ IH]; intros processed saved b st Hinv Hfrom;
    cbn [for_each flat_map].
  - exists saved, b, st. rewrite app_nil_r. done.
  - destruct (batch_step_inv _ _ _ _ f Hinv Hfrom Hf)
      as (s1 & b1 & st1 & -> & Hinv1).
    cbn [bind]. rewrite app_assoc. apply (IH _ s1); [exact Hinv1|].
    apply Forall_app. split; [exact Hfrom|]. apply chunk_of_in_dir, Hf.
Qed.

End Batching.

Lemma chunk_of_omap (dc : gmap pystr file) (files : list pystr) :
  flat_map (chunk_of dc) files
  = omap (fun name => match dc !! name with
                      | Some (Parsed j) => Some j
                      | _ => None
                      end) files.
Proof.
  induction files as [|f rest IH]; simpl; [done|].
  unfold chunk_of at 1. rewrite IH.
  destruct (dc !! f) as [[|j]|]; reflexivity.
Qed.

Lemma batch_files_from (st : fs) (d : gmap pystr file)
  (saved : list (list json)) :
  st !! u "batches" = Some (Dir d) ->
  forall start,
    (forall i bt, saved !! i = Some bt ->
       d !! batch_filename (Z.of_nat (start + i)) = Some (Parsed (JArr bt))) ->
    List.map (batch_file st) (seq start (length saved))
    = List.map (fun b => Some (Parsed (JArr b))) saved.
Proof.
  intros Hd. induction saved as [|bt rest IH]; intros start Hfiles; simpl;
    [done|].
  f_equal.
  - unfold batch_file. rewrite Hd.
    rewrite <- (Nat.add_0_r start). apply (Hfiles 0%nat). reflexivity.
  - apply IH. intros i bt' Hi.
    replace (S start + i)%nat with (start + S i)%nat by lia.
    apply Hfiles. exact Hi.
Qed.

Lemma saved_files_hold_batches (max_batch_chars : Z) (d : gmap pystr file)
  (saved : list (list json)) :
  Forall (good_batch max_batch_chars) saved ->
  (forall i bt, saved !! i = Some bt ->
     d !! batch_filename (Z.of_nat (S i)) = Some (Parsed (JArr bt))) ->
  (forall name, endswith name (u ".json") = true -> is_Some (d !! name) ->
     exists i, (i < length saved)%nat
               /\ name = batch_filename (Z.of_nat (S i))) ->
  json_files_hold is_batch d = true.
Proof.
  intros Hsv Hfs Honly.
  apply json_files_hold_spec. intros name j Hlook Hjson.
  destruct (Honly name Hjson) as (i & Hi & ->); [eauto|].
  destruct (lookup_lt_is_Some_2 saved i Hi) as [bt Hbt].
  rewrite (Hfs i bt Hbt) in Hlook. injection Hlook as <-.
  destruct (Forall_lookup_1 _ _ _ _ Hsv Hbt) as (_ & Hall & _).
  simpl. apply forallb_forall. intros c Hc.
  apply list_elem_of_In in Hc.
  exact (proj1 (Forall_forall _ _) Hall c Hc).
Qed.

Lemma chunk_in_dir_readable (st : fs) (dir : pystr) (d : gmap pystr file)
  (c : json) :
  st !! dir = Some (Dir d) ->
  chunk_in_dir d c -> In c (readable_chunks st dir).
Proof.
  intros Hd (name & Hname & Hjson). unfold readable_chunks. rewrite Hd.
  apply list_elem_of_In, list_elem_of_omap. exists name. split.
  - apply list_elem_of_In, sorted_elem, json_names_elem.
    split; [|exact Hjson]. apply in_map_iff.
    exists (name, Parsed c). split; [reflexivity|].
    apply list_elem_of_In, elem_of_map_to_list. exact Hname.
  - rewrite Hname. reflexivity.
Qed.

(** What a run of [create_batches] achieves, in one statement. *)
Lemma create_batches_run (json_dump : json -> option exn) (st : fs)
  (chunks_dir_path : pystr) (max_batch_chars : Z) :
  plain_name chunks_dir_path = true ->
  chunks_dir_path <> u "batches" ->
  dir_slot_free st (u "batches") = true ->
  dir_holds is_chunk st chunks_dir_path = true ->
  batches_dump json_dump st chunks_dir_path ->
  exists batches st',
    create_batches json_dump st chunks_dir_path max_batch_chars
    = Ok (Z.of_nat (length batches), st')
    /\ concat batches = readable_chunks st chunks_dir_path
    /\ Forall (good_batch max_batch_chars) batches
    /\ batch_files st' (length batches)
       = List.map (fun b => Some (Parsed (JArr b))) batches
    /\ (forall name, name <> u "batches" -> st' !! name = st !! name)
    /\ (is_Some (st !! chunks_dir_path) ->
        exists d, st' !! u "batches" = Some (Dir d)
                  /\ json_files_hold is_batch d = true).
Proof.
  intros Hplain Hne Hslot Hchunks Hdump.
  unfold create_batches, listdir. plain_paths.
  unfold dir_holds in Hchunks.
  destruct (st !! chunks_dir_path) as [[f|dc]|] eqn:Hdir; [discriminate| |].
  2:{ exists [], st. unfold readable_chunks. rewrite Hdir. simpl.
      repeat split; try done. }
  assert (Hlists : forall b, Forall (chunk_in_dir dc) b ->
                             json_dump (JArr b) = None).
  { intros b Hb. apply Hdump. intros c Hc.
    apply (chunk_in_dir_readable st chunks_dir_path dc c Hdir).
    exact (proj1 (List.Forall_forall _ _) Hb c Hc). }
  unfold readable_chunks. rewrite Hdir.
  set (files := sorted (json_names (List.map fst (map_to_list dc)))).
  assert (Hfiles : Forall (fun f => endswith f (u ".json") = true) files).
  { apply Forall_forall. intros f Hf. apply list_elem_of_In in Hf.
    apply sorted_elem, json_names_elem in Hf. tauto. }
  pose proof (proj1 (json_files_hold_spec _ _) Hchunks) as Hhold.
  (* the batch directory after makedirs and the cleaning loop *)
  assert (Hprep : exists d0 st1,
    makedirs st (u "batches") = Ok st1
    /\ clean_dir st1 (u "batches")
       = Ok (<[u "batches" := Dir (remove_json_files d0)]> st)).
  { unfold makedirs, clean_dir, dir_slot_free in *. plain_paths.
    destruct (st !! u "batches") as [[f|d0]|] eqn:Hb; [discriminate| |].
    - exists d0, st. plain_paths. rewrite Hb. done.
    - exists ∅, (<[u "batches" := Dir ∅]> st). plain_paths.
      rewrite lookup_insert_eq, insert_insert_eq. done. }
  destruct Hprep as (d0 & st1 & Hmk & Hclean).
  set (st2 := <[u "batches" := Dir (remove_json_files d0)]> st) in *.
  assert (Hinv0 : batching_inv st chunks_dir_path max_batch_chars dc
                    [] [] (Batcher [] 0 1) st2).
  { constructor; simpl; try done.
    - subst st2. rewrite lookup_insert_ne by done. exact Hdir.
    - intros name Hname. subst st2. rewrite lookup_insert_ne by done. done.
    - eexists. split; [subst st2; apply lookup_insert_eq|]. split.
      + intros i bt Hi. discriminate.
      + intros name Hjson [x Hx].
        rewrite remove_json_files_lookup, Hjson in Hx. discriminate.
    - left. reflexivity. }
  destruct (batching_loop_inv st chunks_dir_path max_batch_chars dc json_dump
              Hne Hplain Hhold Hlists files Hfiles _ _ _ _ Hinv0
              ltac:(constructor))
    as (saved & b & st3 & Hloop & Hinv & Hfrom).
  simpl in Hinv, Hfrom.
  rewrite Hmk. cbn [bind]. rewrite Hclean. cbn [bind].
  rewrite Hloop. cbn [bind].
  case_bool_decide as Hempty.
  - (* nothing pending: the saved batches are all *)
    exists saved, st3. cbn [bind].
    destruct Hinv as [Hc Hs Hch Hfr (d & Hd & Hfs & Honly) Hsv Hcur Hpr].
    rewrite Hempty, app_nil_r in Hpr.
    split; [f_equal; f_equal; lia|].
    split; [rewrite Hpr; apply chunk_of_omap|].
    split; [exact Hsv|].
    split; [apply (batch_files_from _ d); [done|]; intros i bt Hi;
            apply (Hfs i bt Hi)|].
    split; [exact Hfr|].
    intros _. exists d. split; [done|].
    eapply saved_files_hold_batches; eauto.
  - (* the pending batch is saved last *)
    assert (Hgood : good_batch max_batch_chars (current_batch_content b)).
    { destruct (inv_current _ _ _ _ _ _ _ _ Hinv); [contradiction|done]. }
    destruct (save_batch_inv _ _ _ _ _ Hne Hlists _ _ _ _ Hinv Hfrom Hgood)
      as (st4 & Hsave & Hinv4).
    exists (saved ++ [current_batch_content b]), st4.
    rewrite Hsave. cbn [bind batch_count].
    destruct Hinv4 as [Hc Hs Hch Hfr (d & Hd & Hfs & Honly) Hsv Hcur Hpr].
    simpl in Hc, Hpr. rewrite app_nil_r in Hpr.
    split; [simpl; f_equal; f_equal; lia|].
    split; [rewrite Hpr; apply chunk_of_omap|].
    split; [exact Hsv|].
    split; [apply (batch_files_from _ d); [done|]; intros i bt Hi;
            apply (Hfs i bt Hi)|].
    split; [exact Hfr|].
    intros _. exists d. split; [done|].
    eapply saved_files_hold_batches; eauto.
Qed.

(** ** The claims about [create_batches] *)

Lemma utf8_dump_batches (st : fs) (dir : pystr) :
  forallb encodable (readable_chunks st dir) = true ->
  batches_dump utf8_dump st dir.
Proof.
  intros Hall b Hb. unfold utf8_dump.
  assert (Hlist : encodable (JArr b) = true).
  { cbn [encodable]. apply forallb_forall. intros c Hc.
    exact (proj1 (forallb_forall _ _) Hall c (Hb c Hc)). }
  rewrite Hlist. reflexivity.
Qed.

Example max_batch_chars_default : MAX_BATCH_CHARS = 32000%Z.
Proof. reflexivity. Qed.

Example example_batches :
  match create_batches utf8_dump example_fs (u "chunks") 6 with
  | Ok (n, st) => Some (n, batch_files st 4)
  | Raise _ => None
  end
  = Some (3%Z,
          [ Some (Parsed (JArr [example_chunk "aaaa"]));
            Some (Parsed (JArr [example_chunk "bbbbbbbb"]));
            Some (Parsed (JArr [example_chunk "cc"]));
            None ]).
Proof. vm_compute. reflexivity. Qed.

(** C2: on a directory of chunk files, named plainly and other than
    [batches], whose chunks can be dumped in batches, [create_batches]
    returns the number of batch files it wrote, and the batches of the
    files batch_01 ... batch_n, concatenated in order, are exactly the
    chunks of the readable chunk files in file-name order: each readable
    chunk is in one batch, once, none is dropped, and the files that fail
    to read contribute nothing. *)
Theorem create_batches_partitions_chunks (json_dump : json -> option exn)
  (st : fs) (chunks_dir_path : pystr) (max_batch_chars : Z) :
  plain_name chunks_dir_path = true ->
  chunks_dir_path <> u "batches" ->
  dir_slot_free st (u "batches") = true ->
  dir_holds is_chunk st chunks_dir_path = true ->
  batches_dump json_dump st chunks_dir_path ->
  exists batches st',
    create_batches json_dump st chunks_dir_path max_batch_chars
    = Ok (Z.of_nat (length batches), st')
    /\ batch_files st' (length batches)
       = List.map (fun b => Some (Parsed (JArr b))) batches
    /\ concat batches = readable_chunks st chunks_dir_path.
Proof.
  intros Hplain Hne Hslot Hchunks Hdump.
  destruct (create_batches_run json_dump st chunks_dir_path max_batch_chars
              Hplain Hne Hslot Hchunks Hdump)
    as (batches & st' & Hrun & Hparts & _ & Hfiles & _).
  exists batches, st'. auto.
Qed.

(** C2 on [example_fs] with a budget of 6 characters. *)
Lemma create_batches_partitions_chunks_witness :
  exists batches st',
    create_batches utf8_dump example_fs (u "chunks") 6
    = Ok (Z.of_nat (length batches), st')
    /\ batch_files st' (length batches)
       = List.map (fun b => Some (Parsed (JArr b))) batches
    /\ concat batches = readable_chunks example_fs (u "chunks").
Proof.
  apply (create_batches_partitions_chunks utf8_dump example_fs (u "chunks") 6).
  - vm_compute. reflexivity.
  - vm_compute. discriminate.
  - vm_compute. reflexivity.
  - vm_compute. reflexivity.
  - apply utf8_dump_batches. vm_compute. reflexivity.
Defined.

(** C3: under the same conditions, every batch [create_batches] writes
    has a summed estimated character length of at most the budget (32,000
    by default), unless it is a single chunk whose own estimate exceeds
    the budget. *)
Theorem create_batches_within_budget (json_dump : json -> option exn)
  (st : fs) (chunks_dir_path : pystr) (max_batch_chars : Z) :
  plain_name chunks_dir_path = true ->
  chunks_dir_path <> u "batches" ->
  dir_slot_free st (u "batches") = true ->
  dir_holds is_chunk st chunks_dir_path = true ->
  batches_dump json_dump st chunks_dir_path ->
  MAX_BATCH_CHARS = 32000%Z
  /\ exists batches st',
       create_batches json_dump st chunks_dir_path max_batch_chars
       = Ok (Z.of_nat (length batches), st')
       /\ batch_files st' (length batches)
          = List.map (fun b => Some (Parsed (JArr b))) batches
       /\ Forall (within_budget max_batch_chars) batches.
Proof.
  intros Hplain Hne Hslot Hchunks Hdump. split; [reflexivity|].
  destruct (create_batches_run json_dump st chunks_dir_path max_batch_chars
              Hplain Hne Hslot Hchunks Hdump)
    as (batches & st' & Hrun & _ & Hgood & Hfiles & _).
  exists batches, st'. split; [done|]. split; [done|].
  eapply Forall_impl; [exact Hgood|]. intros b (_ & _ & H). exact H.
Qed.

(** C3 on [example_fs] with a budget of 6 characters: the 8-character
    chunk is a batch on its own. *)
Lemma create_batches_within_budget_witness :
  MAX_BATCH_CHARS = 32000%Z
  /\ exists batches st',
       create_batches utf8_dump example_fs (u "chunks") 6
       = Ok (Z.of_nat (length batches), st')
       /\ batch_files st' (length batches)
          = List.map (fun b => Some (Parsed (JArr b))) batches
       /\ Forall (within_budget 6) batches.
Proof.
  apply (create_batches_within_budget utf8_dump example_fs (u "chunks") 6).
  - vm_compute. reflexivity.
  - vm_compute. discriminate.
  - vm_compute. reflexivity.
  - vm_compute. reflexivity.
  - apply utf8_dump_batches. vm_compute. reflexivity.
Defined.

(** C4: under the same conditions, a chunk whose own estimated length
    exceeds the budget is alone in its batch: the batch that holds it is
    that one chunk, whole. *)
Theorem oversized_chunk_is_alone (json_dump : json -> option exn)
  (st : fs) (chunks_dir_path : pystr) (max_batch_chars : Z) :
  plain_name chunks_dir_path = true ->
  chunks_dir_path <> u "batches" ->
  dir_slot_free st (u "batches") = true ->
  dir_holds is_chunk st chunks_dir_path = true ->
  batches_dump json_dump st chunks_dir_path ->
  exists batches st',
    create_batches json_dump st chunks_dir_path max_batch_chars
    = Ok (Z.of_nat (length batches), st')
    /\ batch_files st' (length batches)
       = List.map (fun b => Some (Parsed (JArr b))) batches
    /\ concat batches = readable_chunks st chunks_dir_path
    /\ Forall (oversized_alone max_batch_chars) batches.
Proof.
  intros Hplain Hne Hslot Hchunks Hdump.
  destruct (create_batches_run json_dump st chunks_dir_path max_batch_chars
              Hplain Hne Hslot Hchunks Hdump)
    as (batches & st' & Hrun & Hparts & Hgood & Hfiles & _).
  exists batches, st'. repeat (split; [done|]).
  eapply Forall_impl; [exact Hgood|]. intros b (_ & _ & H).
  apply within_budget_oversized_alone. exact H.
Qed.

(** C4 on [example_fs] with a budget of 6 characters. *)
Lemma oversized_chunk_is_alone_witness :
  exists batches st',
    create_batches utf8_dump example_fs (u "chunks") 6
    = Ok (Z.of_nat (length batches), st')
    /\ batch_files st' (length batches)
       = List.map (fun b => Some (Parsed (JArr b))) batches
    /\ concat batches = readable_chunks example_fs (u "chunks")
    /\ Forall (oversized_alone 6) batches.
Proof.
  apply (oversized_chunk_is_alone utf8_dump example_fs (u "chunks") 6).
  - vm_compute. reflexivity.
  - vm_compute. discriminate.
  - vm_compute. reflexivity.
  - vm_compute. reflexivity.
  - apply utf8_dump_batches. vm_compute. reflexivity.
Defined.

(** ** The analysis stage when the model gives nothing *)

Lemma split_aux_nonempty (sep : pystr) (limit skip : nat) (acc s : pystr) :
  split_aux sep limit skip acc s <> [].
Proof.
  revert limit skip acc. induction s as [|c t IH]; intros limit skip acc;
    simpl; [discriminate|].
  destruct skip; [|apply IH].
  destruct limit; [apply IH|].
  destruct (startswith sep (c :: t)); [discriminate|apply IH].
Qed.

Lemma split_first (sep : pystr) (maxsplit : option nat) (s : pystr) :
  exists first, index (split sep maxsplit s) 0 = Ok first.
Proof.
  unfold split, index.
  destruct (split_aux sep (default (length s) maxsplit) 0 [] s) as [|x r] eqn:E.
  - exfalso. exact (split_aux_nonempty _ _ _ _ _ E).
  - exists x. reflexivity.
Qed.

Lemma chunk_texts (items : list json) :
  forallb is_chunk items = true ->
  exists texts,
    map_result (fun item => dict_get item (u "page_content") (JStr [])) items
    = Ok (List.map JStr texts).
Proof.
  induction items as [|c rest IH]; simpl; intros Hall.
  - exists []. reflexivity.
  - apply andb_true_iff in Hall as [Hc Hrest].
    destruct (IH Hrest) as (texts & ->).
    unfold is_chunk in Hc. destruct c; try discriminate. simpl.
    destruct (assoc (u "page_content") items) as [[]|]; try discriminate; simpl.
    + exists (s :: texts). reflexivity.
    + exists ([] :: texts). reflexivity.
Qed.

Lemma str_join_strings (sep : pystr) (texts : list pystr) :
  exists joined, str_join sep (List.map JStr texts) = Ok joined.
Proof.
  induction texts as [|s rest IH]; simpl; [eauto|].
  destruct IH as (joined & IH).
  destruct (List.map JStr rest) eqn:E; [eauto|].
  rewrite IH. simpl. eauto.
Qed.

Section Quiet.

Variable call_local_analysis : pystr -> option json.
Variable json_dump : json -> option exn.
Hypothesis every_call_fails : forall content, call_local_analysis content = None.

Lemma analyze_step_quiet (st : fs) (d : gmap pystr file) (filename : pystr) :
  st !! u "batches" = Some (Dir d) ->
  json_files_hold is_batch d = true ->
  endswith filename (u ".json") = true ->
  analyze_step call_local_analysis st (u "batches") [] filename = Ok [].
Proof.
  intros Hd Hhold Hjson. unfold analyze_step.
  destruct (split_first (u ".") None filename) as (batch_id & ->).
  cbn [bind]. unfold load_json_in. plain_paths. rewrite Hd.
  destruct (d !! filename) as [[|batch_data]|] eqn:Hfile; try reflexivity.
  pose proof (proj1 (json_files_hold_spec _ _) Hhold _ _ Hfile Hjson) as Hb.
  unfold is_batch in Hb. destruct batch_data; try discriminate.
  cbn [py_iter bind].
  destruct (chunk_texts _ Hb) as (texts & ->). cbn [bind].
  destruct (str_join_strings
              ([10; 10]%N ++ u "--- NEXT CHUNK ---" ++ [10; 10]%N) texts)
    as (joined & ->).
  cbn [bind]. rewrite every_call_fails. reflexivity.
Qed.

Lemma analyze_loop_quiet (st : fs) (d : gmap pystr file) (files : list pystr) :
  st !! u "batches" = Some (Dir d) ->
  json_files_hold is_batch d = true ->
  Forall (fun f => endswith f (u ".json") = true) files ->
  for_each (analyze_step call_local_analysis st (u "batches")) [] files = Ok [].
Proof.
  intros Hd Hhold. induction 1 as [|f rest Hf _ IH]; cbn [for_each]; [done|].
  rewrite (analyze_step_quiet st d f Hd Hhold Hf). cbn [bind]. exact IH.
Qed.

Lemma analyze_batches_quiet (st : fs) :
  dir_holds is_batch st (u "batches") = true ->
  dir_slot_free st (u "analysis_results") = true ->
  exists st',
    analyze_batches call_local_analysis json_dump st = Ok ([], st')
    /\ report_file st' = report_file st.
Proof.
  intros Hbatches Hslot.
  unfold analyze_batches, listdir. plain_paths.
  unfold dir_holds in Hbatches.
  destruct (st !! u "batches") as [[f|d]|] eqn:Hd; [discriminate| |].
  2:{ exists st. done. }
  assert (Hmk : exists st1,
    makedirs st (u "analysis_results") = Ok st1
    /\ st1 !! u "batches" = Some (Dir d)
    /\ report_file st1 = report_file st).
  { destruct (makedirs_free st _ plain_analysis_results Hslot) as (st1 & a & Hmk & Ha & Hfr & Hwas).
    exists st1. split; [done|]. split.
    - rewrite Hfr by (vm_compute; discriminate). exact Hd.
    - unfold report_file. rewrite Ha.
      destruct Hwas as [-> | [-> ->]]; [done|]. apply lookup_empty. }
  destruct Hmk as (st1 & -> & Hd1 & Hreport). cbn [bind].
  rewrite (analyze_loop_quiet st1 d _ Hd1 Hbatches).
  2:{ apply Forall_forall. intros f Hf. apply list_elem_of_In in Hf.
      apply sorted_elem, json_names_elem in Hf. tauto. }
  cbn [bind]. rewrite bool_decide_eq_true_2 by done.
  exists st1. done.
Qed.

End Quiet.

(** ** The chunking stage on post records *)

Lemma index_cases {A} (items : list A) (i : nat) :
  (exists x, index items i = Ok x) \/ index items i = Raise IndexError.
Proof. unfold index. destruct (nth_error items i); eauto. Qed.

Lemma parse_subreddit_str (s : pystr) :
  exists subreddit, parse_subreddit (JStr s) = Ok subreddit.
Proof.
  unfold parse_subreddit. cbn [py_in bind].
  destruct (contains (u "/r/") s); [|eauto].
  cbn [py_split bind].
  destruct (index_cases (split (u "/r/") (Some 1%nat) s) 1)
    as [[segment ->] | ->]; cbn [bind]; [|eauto].
  destruct (split_first (u "/") None segment) as (first & ->). eauto.
Qed.

Lemma map_result_ok {A B} (f : A -> result B) (items : list A) :
  Forall (fun x => exists y, f x = Ok y) items ->
  exists ys, map_result f items = Ok ys /\ length ys = length items.
Proof.
  induction 1 as [|x rest [y Hy] _ (ys & IH & Hlen)]; simpl; [eauto|].
  rewrite Hy. cbn [bind]. rewrite IH. cbn [bind].
  exists (y :: ys). simpl. auto.
Qed.

Section Chunking.

Variable py_str : json -> pystr.
Variable RecursiveCharacterTextSplitter :
  Z -> Z -> list pystr -> result (list document -> list document).
Variable model_dump : document -> json.
Variable json_dump : json -> option exn.
Hypothesis model_dump_chunk : forall d, is_chunk (model_dump d) = true.

Lemma post_document_ok (post : json) :
  is_post post = true -> exists doc, post_document py_str post = Ok doc.
Proof.
  unfold is_post, post_document. destruct post; try discriminate.
  intros Hurl. cbn [dict_get bind].
  destruct (assoc (u "url") items) as [url|]; cbn [default from_option id].
  - destruct url; try discriminate.
    destruct (parse_subreddit_str s) as (subreddit & ->). cbn [bind]. eauto.
  - destruct (parse_subreddit_str []) as (subreddit & ->). cbn [bind]. eauto.
Qed.

Lemma split_posts_ok (st : fs) (input_file_path : pystr)
  (chunk_size chunk_overlap : Z) (posts : list json)
  (text_splitter : list document -> list document) :
  plain_name input_file_path = true ->
  st !! input_file_path = Some (File (Parsed (JArr posts))) ->
  forallb is_post posts = true ->
  RecursiveCharacterTextSplitter chunk_size chunk_overlap separators
  = Ok text_splitter ->
  exists documents,
    map_result (post_document py_str) posts = Ok documents
    /\ length documents = length posts
    /\ split_posts py_str RecursiveCharacterTextSplitter st input_file_path
         chunk_size chunk_overlap = Ok (text_splitter documents).
Proof.
  intros Hplain Hin Hposts Hsplitter. unfold split_posts, load_json.
  plain_paths. rewrite Hin. cbn [bind py_iter].
  destruct (map_result_ok (post_document py_str) posts)
    as (documents & Hdocs & Hlen).
  { apply Forall_forall. intros post Hpost. apply post_document_ok.
    apply list_elem_of_In in Hpost.
    exact (proj1 (forallb_forall _ _) Hposts post Hpost). }
  exists documents. rewrite Hdocs, Hsplitter. done.
Qed.

Lemma write_chunks_run (docs : list document) :
  Forall (fun doc => json_dump (model_dump doc) = None) docs ->
  forall (i : Z) (st : fs) (d : gmap pystr file),
    st !! u "chunks" = Some (Dir d) ->
    json_files_hold is_chunk d = true ->
    exists st' d',
      write_chunks model_dump json_dump st (u "chunks") i docs = Ok st'
      /\ st' !! u "chunks" = Some (Dir d')
      /\ json_files_hold is_chunk d' = true
      /\ (forall c, chunk_in_dir d' c ->
                    chunk_in_dir d c \/ In c (List.map model_dump docs))
      /\ (forall name, name <> u "chunks" -> st' !! name = st !! name).
Proof.
  induction 1 as [|doc rest Hdoc _ IH]; intros i st d Hd Hhold;
    cbn [write_chunks].
  - exists st, d. split; [reflexivity|]. split; [done|]. split; [done|].
    split; [|done]. intros c Hc. left. exact Hc.
  - unfold write_json. plain_paths. rewrite Hd, Hdoc. cbn [bind].
    set (d1 := <[chunk_filename i := Parsed (model_dump doc)]> d).
    destruct (IH (i + 1)%Z (<[u "chunks" := Dir d1]> st) d1)
      as (st' & d' & Hrun & Hd' & Hhold' & Hfrom & Hframe).
    { apply lookup_insert_eq. }
    { apply json_files_hold_spec. intros name j Hlook Hjson.
      subst d1. destruct (decide (name = chunk_filename i)) as [->|Hne].
      - rewrite lookup_insert_eq in Hlook. injection Hlook as <-.
        apply model_dump_chunk.
      - rewrite lookup_insert_ne in Hlook by done.
        exact (proj1 (json_files_hold_spec _ _) Hhold _ _ Hlook Hjson). }
    exists st', d'. split; [exact Hrun|]. split; [done|]. split; [done|].
    split.
    + intros c Hc. destruct (Hfrom c Hc) as [(name & Hname & Hjson) | Hin].
      * subst d1. destruct (decide (name = chunk_filename i)) as [->|Hne].
        -- rewrite lookup_insert_eq in Hname. injection Hname as <-.
           right. left. reflexivity.
        -- rewrite lookup_insert_ne in Hname by done.
           left. exists name. done.
      * right. right. exact Hin.
    + intros name Hne. rewrite Hframe by done.
      apply lookup_insert_ne. congruence.
Qed.

Lemma process_and_chunk_run (st : fs) (input_file_path : pystr)
  (chunk_size chunk_overlap : Z) :
  plain_name input_file_path = true ->
  posts_file_ok st input_file_path = true ->
  dir_slot_free st (u "chunks") = true ->
  (exists text_splitter,
      RecursiveCharacterTextSplitter chunk_size chunk_overlap separators
      = Ok text_splitter) ->
  (forall chunked,
      split_posts py_str RecursiveCharacterTextSplitter st input_file_path
        chunk_size chunk_overlap = Ok chunked ->
      Forall (fun doc => json_dump (model_dump doc) = None) chunked) ->
  exists n st1,
    process_and_chunk_reddit_data py_str RecursiveCharacterTextSplitter
      model_dump json_dump st input_file_path chunk_size chunk_overlap
    = Ok (n, st1)
    /\ (forall name, name <> u "chunks" -> st1 !! name = st !! name)
    /\ (n = 0%Z
        \/ exists d chunked,
             split_posts py_str RecursiveCharacterTextSplitter st
               input_file_path chunk_size chunk_overlap = Ok chunked
             /\ st1 !! u "chunks" = Some (Dir d)
             /\ json_files_hold is_chunk d = true
             /\ (forall c, chunk_in_dir d c ->
                           In c (List.map model_dump chunked))).
Proof.
  intros Hplain Hinput Hslot [text_splitter Hsplitter] Hdumps.
  unfold process_and_chunk_reddit_data, path_exists. plain_paths.
  unfold posts_file_ok in Hinput.
  destruct (st !! input_file_path) as [[[|[]]|]|] eqn:Hin; try discriminate.
  2:{ rewrite bool_decide_eq_false_2 by (intros [? ?]; discriminate).
      exists 0%Z, st. auto. }
  rewrite bool_decide_eq_true_2 by eauto. cbn [negb].
  destruct (split_posts_ok st input_file_path chunk_size chunk_overlap items
              text_splitter Hplain Hin Hinput Hsplitter)
    as (documents & _ & _ & Hsplit).
  rewrite Hsplit. cbn [bind].
  destruct (makedirs_free st _ plain_chunks Hslot)
    as (st1 & d0 & -> & Hd0 & Hfr1 & _).
  cbn [bind]. unfold clean_dir. plain_paths. rewrite Hd0. cbn [bind].
  destruct (write_chunks_run (text_splitter documents)
              (Hdumps _ Hsplit) 0
              (<[u "chunks" := Dir (remove_json_files d0)]> st1)
              (remove_json_files d0))
    as (st3 & d3 & -> & Hd3 & Hhold3 & Hfrom3 & Hfr3).
  { apply lookup_insert_eq. }
  { apply json_files_hold_spec. intros name j Hlook Hjson.
    rewrite remove_json_files_lookup, Hjson in Hlook. discriminate. }
  cbn [bind]. eexists _, st3. split; [reflexivity|]. split.
  - intros name Hne. rewrite Hfr3 by done.
    rewrite lookup_insert_ne by congruence. apply Hfr1. done.
  - right. exists d3, (text_splitter documents).
    split; [reflexivity|]. split; [done|]. split; [done|].
    intros c Hc. destruct (Hfrom3 c Hc) as [(name & Hname & Hjson) | Hc'];
      [|exact Hc'].
    rewrite remove_json_files_lookup, Hjson in Hname. discriminate.
Qed.

End Chunking.

(** ** What [str.split] returns *)

Lemma startswith_spec (p s : pystr) :
  startswith p s = true <-> exists r, s = p ++ r.
Proof.
  revert s. induction p as [|a p IH]; intros s; simpl.
  - split; [eauto|done].
  - destruct s as [|b s]; [split; [done|intros [r Hr]; discriminate]|].
    rewrite andb_true_iff, N.eqb_eq, IH. split.
    + intros [-> [r ->]]. eauto.
    + intros [r Hr]. injection Hr as -> ->. eauto.
Qed.

Lemma split_aux_exhausted (sep : pystr) (s : pystr) :
  forall (skip : nat) (acc : pystr),
    (skip <= length s)%nat ->
    split_aux sep 0 skip acc s = [rev acc ++ drop skip s].
Proof.
  induction s as [|c t IH]; intros skip acc Hskip; simpl in *.
  - replace skip with 0%nat by lia. simpl. rewrite app_nil_r. reflexivity.
  - destruct skip as [|k].
    + rewrite (IH 0%nat) by lia. simpl. rewrite <- app_assoc. reflexivity.
    + rewrite IH by lia. reflexivity.
Qed.

(** With one split allowed and the separator present, [split] cuts at the
    first occurrence. *)
Lemma split_once_first_occurrence (sep : pystr) (s : pystr) :
  sep <> [] ->
  forall acc,
    contains sep s = true ->
    exists before after,
      s = before ++ sep ++ after
      /\ (forall k, (k < length before)%nat ->
            startswith sep (drop k s) = false)
      /\ split_aux sep 1 0 acc s = [rev acc ++ before; after].
Proof.
  intros Hsep. induction s as [|c t IH]; intros acc Hin.
  - destruct sep; [done|discriminate].
  - cbn [contains] in Hin. cbn [split_aux].
    destruct (startswith sep (c :: t)) eqn:Hstart.
    + apply startswith_spec in Hstart as [after Hafter].
      exists [], after. split; [exact Hafter|]. split; [simpl; lia|].
      rewrite app_nil_r. f_equal.
      destruct sep as [|c' sep']; [done|].
      simpl in Hafter. injection Hafter as -> ->.
      rewrite split_aux_exhausted by (simpl; rewrite length_app; lia).
      simpl. rewrite Nat.sub_0_r, drop_app_length. reflexivity.
    + simpl in Hin.
      destruct (IH (c :: acc) Hin) as (before & after & -> & Hfirst & ->).
      exists (c :: before), after. split; [reflexivity|]. split.
      * intros [|k] Hk; [exact Hstart|]. simpl. apply Hfirst. simpl in Hk. lia.
      * simpl. rewrite <- app_assoc. reflexivity.
Qed.

(** The first piece of an unlimited [split] on a single character stops
    at that character's first occurrence. *)
Lemma split_char_first_piece (c : N) (s : pystr) :
  forall (limit : nat) (acc : pystr),
    (length s <= limit)%nat ->
    exists piece tail rest,
      s = piece ++ tail
      /\ ~ In c piece
      /\ (tail = [] \/ exists t, tail = c :: t)
      /\ split_aux [c] limit 0 acc s = (rev acc ++ piece) :: rest.
Proof.
  induction s as [|x t IH]; intros limit acc Hlen.
  - exists [], [], []. simpl. rewrite app_nil_r. auto.
  - simpl in Hlen. destruct limit as [|lim]; [lia|].
    cbn [split_aux startswith].
    destruct (c =? x)%N eqn:E.
    + apply N.eqb_eq in E as <-. simpl.
      exists [], (c :: t). eexists. rewrite app_nil_r.
      split; [done|]. split; [simpl; tauto|]. split; [eauto|reflexivity].
    + apply N.eqb_neq in E. simpl.
      destruct (IH (S lim) (x :: acc)) as (piece & tail & rest & -> & Hno & Htail & ->);
        [lia|].
      exists (x :: piece), tail, rest. split; [done|].
      split; [simpl; intros [?|?]; [congruence|done]|].
      split; [done|]. simpl. rewrite <- app_assoc. reflexivity.
Qed.

(** [parse_subreddit] on a url without "/r/". *)
Lemma parse_subreddit_absent (s : pystr) :
  contains (u "/r/") s = false -> parse_subreddit (JStr s) = Ok (u "N/A").
Proof. intros H. unfold parse_subreddit. cbn [py_in bind]. rewrite H. done. Qed.

(** [parse_subreddit] on a url with "/r/": the characters between the
    first "/r/" and the next "/" (or the end), possibly none. *)
Lemma parse_subreddit_present (s : pystr) :
  contains (u "/r/") s = true ->
  exists before segment tail,
    s = before ++ u "/r/" ++ segment ++ tail
    /\ (forall k, (k < length before)%nat ->
          startswith (u "/r/") (drop k s) = false)
    /\ ~ In 47%N segment
    /\ (tail = [] \/ exists t, tail = 47%N :: t)
    /\ parse_subreddit (JStr s) = Ok segment.
Proof.
  intros Hin. unfold parse_subreddit. cbn [py_in bind]. rewrite Hin.
  cbn [py_split bind]. unfold split. cbn [default from_option id].
  destruct (split_once_first_occurrence (u "/r/") s) with (acc := @nil N)
    as (before & after & Hs & Hfirst & Hcut); [discriminate|exact Hin|].
  rewrite Hcut. cbn [rev app index nth_error bind].
  destruct (split_char_first_piece 47%N after (length after) [])
    as (segment & tail & rest & Hafter & Hno & Htail & Hsplit); [lia|].
  change (u "/") with [47%N]. rewrite Hsplit. cbn [rev app index nth_error].
  exists before, segment, tail. subst after. auto.
Qed.

(** The subreddit of a well-formed post url. *)
Lemma parse_subreddit_present_witness :
  parse_subreddit (JStr (u "https://www.reddit.com/r/india/comments/1"))
  = Ok (u "india")
  /\ exists before segment tail,
       u "https://www.reddit.com/r/india/comments/1"
       = before ++ u "/r/" ++ segment ++ tail
       /\ (forall k, (k < length before)%nat ->
             startswith (u "/r/")
               (drop k (u "https://www.reddit.com/r/india/comments/1")) = false)
       /\ ~ In 47%N segment
       /\ (tail = [] \/ exists t, tail = 47%N :: t)
       /\ parse_subreddit (JStr (u "https://www.reddit.com/r/india/comments/1"))
          = Ok segment.
Proof.
  split; [vm_compute; reflexivity|].
  apply (parse_subreddit_present (u "https://www.reddit.com/r/india/comments/1")).
  vm_compute. reflexivity.
Defined.

(** A model answer that is a JSON list of something else than objects
    makes [analyze_batches] raise [TypeError] at
    [claim_data['batch_id'] = batch_id]. *)
Example non_object_claims_raise (json_dump : json -> option exn) :
  analyze_batches (fun _ => Some (JArr [JInt 1])) json_dump pipeline_fs
  = Raise TypeError.
Proof. vm_compute. reflexivity. Qed.

(** ** The claims about the pipeline *)

Lemma report_file_frame (st st' : fs) :
  st' !! u "analysis_results" = st !! u "analysis_results" ->
  report_file st' = report_file st.
Proof. unfold report_file. intros ->. reflexivity. Qed.

Lemma dir_holds_slot_free (good : json -> bool) (st : fs) (name : pystr) :
  dir_holds good st name = true -> dir_slot_free st name = true.
Proof.
  unfold dir_holds, dir_slot_free. destruct (st !! name) as [[]|]; done.
Qed.

Lemma readable_chunk_in_dir (st : fs) (dir : pystr) (d : gmap pystr file)
  (c : json) :
  st !! dir = Some (Dir d) ->
  In c (readable_chunks st dir) -> chunk_in_dir d c.
Proof.
  intros Hd. unfold readable_chunks. rewrite Hd. intros Hc.
  apply list_elem_of_In, list_elem_of_omap in Hc as (name & Hname & Hc).
  apply list_elem_of_In, sorted_elem, json_names_elem in Hname as [_ Hjson].
  exists name. split; [|exact Hjson].
  destruct (d !! name) as [[|j]|]; try discriminate. congruence.
Qed.

Lemma batches_dump_after_chunker (json_dump : json -> option exn)
  (model_dump : document -> json) (chunked : list document)
  (st : fs) (d : gmap pystr file) :
  st !! u "chunks" = Some (Dir d) ->
  (forall c, chunk_in_dir d c -> In c (List.map model_dump chunked)) ->
  run_dumps json_dump model_dump chunked ->
  batches_dump json_dump st (u "chunks").
Proof.
  intros Hd Hfrom [_ Hlists] b Hb. apply Hlists. intros c Hc.
  apply Hfrom. exact (readable_chunk_in_dir st _ d c Hd (Hb c Hc)).
Qed.

Lemma utf8_run_dumps (model_dump : document -> json)
  (chunked : list document) :
  forallb (fun doc => encodable (model_dump doc)) chunked = true ->
  run_dumps utf8_dump model_dump chunked.
Proof.
  intros Hall. pose proof (proj1 (forallb_forall _ _) Hall) as Hdocs. split.
  - apply List.Forall_forall. intros doc Hdoc. unfold utf8_dump.
    rewrite (Hdocs doc Hdoc). reflexivity.
  - intros b Hb. unfold utf8_dump.
    assert (Hlist : encodable (JArr b) = true).
    { cbn [encodable]. apply forallb_forall. intros c Hc.
      destruct (proj1 (in_map_iff _ _ _) (Hb c Hc)) as (doc & <- & Hdoc).
      exact (Hdocs doc Hdoc). }
    rewrite Hlist. reflexivity.
Qed.

Lemma utf8_split_posts_dump (py_str : json -> pystr)
  (RecursiveCharacterTextSplitter :
     Z -> Z -> list pystr -> result (list document -> list document))
  (model_dump : document -> json)
  (st : fs) (input_file : pystr) (chunk_size chunk_overlap : Z) :
  match split_posts py_str RecursiveCharacterTextSplitter st input_file
          chunk_size chunk_overlap with
  | Ok chunked => forallb (fun doc => encodable (model_dump doc)) chunked
  | Raise _ => true
  end = true ->
  forall chunked,
    split_posts py_str RecursiveCharacterTextSplitter st input_file
      chunk_size chunk_overlap = Ok chunked ->
    run_dumps utf8_dump model_dump chunked.
Proof.
  intros Hall chunked Hsplit. rewrite Hsplit in Hall.
  apply utf8_run_dumps. exact Hall.
Qed.

(** [json.load] of the input file is not guarded: a file that does not
    parse makes the chunking stage, and with it the pipeline, raise. *)
Lemma corrupt_input_raises (py_str : json -> pystr)
  (RecursiveCharacterTextSplitter :
     Z -> Z -> list pystr -> result (list document -> list document))
  (model_dump : document -> json) (call_local_analysis : pystr -> option json)
  (json_dump : json -> option exn)
  (st : fs) (input_file : pystr) :
  plain_name input_file = true ->
  st !! input_file = Some (File Corrupt) ->
  run_full_analysis_pipeline py_str RecursiveCharacterTextSplitter model_dump
    call_local_analysis json_dump st input_file = Raise JSONDecodeError.
Proof.
  intros Hplain Hin.
  unfold run_full_analysis_pipeline, process_and_chunk_reddit_data,
    path_exists, split_posts, load_json.
  plain_paths. rewrite Hin. rewrite bool_decide_eq_true_2 by eauto.
  reflexivity.
Qed.

(** C5 fails on the code: with an input file that exists and is not valid
    JSON, [run_full_analysis_pipeline] raises [JSONDecodeError] to its
    caller, whatever the collaborators do. *)
Theorem malformed_input_file_raises (py_str : json -> pystr)
  (RecursiveCharacterTextSplitter :
     Z -> Z -> list pystr -> result (list document -> list document))
  (model_dump : document -> json) (call_local_analysis : pystr -> option json)
  (json_dump : json -> option exn) :
  run_full_analysis_pipeline py_str RecursiveCharacterTextSplitter model_dump
    call_local_analysis json_dump malformed_input_fs
    (u "reddit_search_output.json")
  = Raise JSONDecodeError.
Proof. apply corrupt_input_raises; vm_compute; reflexivity. Qed.

(** C6 fails on the code: for a post whose url ends at "/r/", the
    metadata's subreddit is the empty string, not "N/A"; the handler of
    [IndexError] is never reached. *)
Theorem url_ending_at_r_gives_empty_subreddit (py_str : json -> pystr) :
  parse_subreddit (JStr (u "https://www.reddit.com/r/")) = Ok []
  /\ exists content,
       post_document py_str trailing_r_post
       = Ok (Document content
               (JObj [ (u "source_url", JStr (u "https://www.reddit.com/r/"));
                       (u "post_title", JStr (u "A post"));
                       (u "subreddit", JStr []);
                       (u "score", JInt 7) ])).
Proof.
  split; [vm_compute; reflexivity|].
  eexists. vm_compute. reflexivity.
Qed.

(** C7: when every call of the model fails, [analyze_batches] returns the
    empty list and leaves the combined report file as it was (it does not
    write it).  So does the whole pipeline, it reports 0 claims, when the
    two stages before the analysis run through: the input file is named
    plainly and is absent or a list of post records, the splitter class
    accepts its arguments, and the chunks and batches of the run can be
    dumped. *)
Theorem failed_analysis_reports_no_claims (py_str : json -> pystr)
  (RecursiveCharacterTextSplitter :
     Z -> Z -> list pystr -> result (list document -> list document))
  (model_dump : document -> json) (call_local_analysis : pystr -> option json)
  (json_dump : json -> option exn)
  (st : fs) (input_file : pystr) :
  (forall content, call_local_analysis content = None) ->
  dir_holds is_batch st (u "batches") = true ->
  dir_slot_free st (u "analysis_results") = true ->
  (exists st',
     analyze_batches call_local_analysis json_dump st = Ok ([], st')
     /\ report_file st' = report_file st)
  /\ ((forall d, is_chunk (model_dump d) = true) ->
      plain_name input_file = true ->
      posts_file_ok st input_file = true ->
      dir_slot_free st (u "chunks") = true ->
      (exists text_splitter,
          RecursiveCharacterTextSplitter 2000%Z 200%Z separators
          = Ok text_splitter) ->
      (forall chunked,
          split_posts py_str RecursiveCharacterTextSplitter st input_file
            2000 200 = Ok chunked ->
          run_dumps json_dump model_dump chunked) ->
      exists st',
        run_full_analysis_pipeline py_str RecursiveCharacterTextSplitter
          model_dump call_local_analysis json_dump st input_file
        = Ok ([], st')
        /\ report_file st' = report_file st).
Proof.
  intros Hfail Hbatches Hanalysis.
  split; [apply analyze_batches_quiet; done|].
  intros Hdump Hplain Hinput Hchunks Hsplitter Hdumps.
  unfold run_full_analysis_pipeline.
  destruct (process_and_chunk_run py_str RecursiveCharacterTextSplitter
              model_dump json_dump Hdump st input_file 2000 200
              Hplain Hinput Hchunks Hsplitter)
    as (n & st1 & -> & Hfr1 & Hn).
  { intros chunked Hsplit. apply (Hdumps chunked Hsplit). }
  cbn [bind].
  assert (Hne1 : u "analysis_results" <> u "chunks") by (vm_compute; discriminate).
  assert (Hne2 : u "batches" <> u "chunks") by (vm_compute; discriminate).
  assert (Hne3 : u "analysis_results" <> u "batches") by (vm_compute; discriminate).
  destruct (n =? 0)%Z eqn:En.
  { exists st1. split; [done|]. apply report_file_frame, Hfr1, Hne1. }
  destruct Hn as [-> | (dc & chunked & Hsplit & Hdc & Hhold & Hfrom)];
    [discriminate|].
  destruct (create_batches_run json_dump st1 (u "chunks") MAX_BATCH_CHARS)
    as (batches & st2 & -> & _ & _ & _ & Hfr2 & Hd2).
  { exact plain_chunks. }
  { congruence. }
  { unfold dir_slot_free. rewrite (Hfr1 _ Hne2).
    apply (dir_holds_slot_free is_batch), Hbatches. }
  { unfold dir_holds. rewrite Hdc. exact Hhold. }
  { exact (batches_dump_after_chunker json_dump model_dump chunked st1 dc
             Hdc Hfrom (Hdumps chunked Hsplit)). }
  cbn [bind].
  assert (Hrep2 : report_file st2 = report_file st).
  { apply report_file_frame. rewrite (Hfr2 _ Hne3). apply Hfr1, Hne1. }
  destruct (Z.of_nat (length batches) =? 0)%Z.
  { exists st2. done. }
  destruct Hd2 as (d2 & Hd2 & Hhold2); [eauto|].
  destruct (analyze_batches_quiet call_local_analysis json_dump Hfail st2)
    as (st3 & -> & Hrep3).
  { unfold dir_holds. rewrite Hd2. exact Hhold2. }
  { unfold dir_slot_free. rewrite (Hfr2 _ Hne3), (Hfr1 _ Hne1). exact Hanalysis. }
  exists st3. split; [done|]. congruence.
Qed.

(** C7 on [pipeline_fs], with a splitter that returns the documents
    whole, the fallback dump, a dump that fails only on surrogates and a
    model that always fails: the report of the earlier run is left as it
    was. *)
Lemma failed_analysis_reports_no_claims_witness :
  (exists st',
     analyze_batches (fun _ => None) utf8_dump pipeline_fs = Ok ([], st')
     /\ report_file st' = report_file pipeline_fs)
  /\ (exists st',
        run_full_analysis_pipeline (fun _ => []) WholeDocumentSplitter
          dict_dump (fun _ => None) utf8_dump pipeline_fs
          (u "reddit_search_output.json") = Ok ([], st')
        /\ report_file st' = report_file pipeline_fs).
Proof.
  destruct (failed_analysis_reports_no_claims (fun _ => [])
              WholeDocumentSplitter dict_dump (fun _ => None) utf8_dump
              pipeline_fs (u "reddit_search_output.json"))
    as [Hanalysis Hpipeline].
  - intros content. reflexivity.
  - vm_compute. reflexivity.
  - vm_compute. reflexivity.
  - split; [exact Hanalysis|]. apply Hpipeline.
    + intros d. reflexivity.
    + vm_compute. reflexivity.
    + vm_compute. reflexivity.
    + vm_compute. reflexivity.
    + eexists. reflexivity.
    + apply utf8_split_posts_dump. vm_compute. reflexivity.
Defined.

(** ** Code fences around the model's answer *)

Example strip_code_fences_samples :
  List.map strip_code_fences
    [ u "```json" ++ [10%N] ++ u "[1]" ++ [10%N] ++ u "```";
      u "```JSON [1]```";
      u "```" ++ [10%N] ++ u "[1]```" ++ [10%N];
      u "``````";
      u "```json```json x";
      u "```js" ++ [10%N] ++ u "1```";
      u "[1]```" ]
  = [ u "[1]" ++ [10%N]; u "[1]"; u "[1]```" ++ [10%N]; [];
      u "```json x"; u "js" ++ [10%N] ++ u "1"; u "[1]```" ].
Proof. vm_compute. reflexivity. Qed.

Lemma lstrip_spaces (ws rest : pystr) :
  Forall (fun c => isspace c = true) ws ->
  match rest with
  | [] => true
  | c :: _ => negb (isspace c)
  end = true ->
  lstrip (ws ++ rest) = rest.
Proof.
  intros Hws Hrest. induction Hws as [|c ws Hc _ IH]; simpl.
  - destruct rest as [|c r]; [done|]. simpl.
    apply negb_true_iff in Hrest. rewrite Hrest. reflexivity.
  - rewrite Hc. exact IH.
Qed.

Lemma endswith_other_last (s suffix : pystr) (last c : N) :
  c <> last -> endswith (s ++ [c]) (suffix ++ [last]) = false.
Proof.
  intros Hne. unfold endswith. rewrite !rev_app_distr. simpl.
  apply andb_false_iff. left. apply N.eqb_neq. congruence.
Qed.

Lemma strip_fenced (rest : pystr) :
  strip_code_fences (u "```" ++ rest)
  = let cleaned :=
      lstrip (if starts_with_json rest then drop 4 rest else rest) in
    if endswith cleaned (u "```")
    then take (length cleaned - 3) cleaned
    else cleaned.
Proof. reflexivity. Qed.

Lemma strip_closed (body : pystr) :
  (if endswith (body ++ u "```") (u "```")
   then take (length (body ++ u "```") - 3) (body ++ u "```")
   else body ++ u "```") = body.
Proof.
  rewrite endswith_app, length_app.
  change (length (u "```")) with 3%nat.
  replace (length body + 3 - 3)%nat with (length body) by lia.
  apply take_app_length.
Qed.

Section Fences.

Variable ws body : pystr.
Hypothesis ws_spaces : Forall (fun c => isspace c = true) ws.
Hypothesis body_starts :
  match body with
  | [] => true
  | c :: _ => negb (isspace c)
  end = true.

Lemma lstrip_to_body (rest : pystr) :
  lstrip (ws ++ body ++ u "```" ++ rest) = body ++ u "```" ++ rest.
Proof.
  apply lstrip_spaces; [exact ws_spaces|].
  destruct body; [reflexivity|exact body_starts].
Qed.

Lemma fenced_json_unwrapped :
  strip_code_fences (u "```json" ++ ws ++ body ++ u "```") = body.
Proof.
  change (u "```json" ++ ws ++ body ++ u "```")
    with (u "```" ++ u "json" ++ ws ++ body ++ u "```" ++ []).
  rewrite strip_fenced.
  change (starts_with_json (u "json" ++ ws ++ body ++ u "```" ++ []))
    with true.
  change (drop 4 (u "json" ++ ws ++ body ++ u "```" ++ []))
    with (ws ++ body ++ u "```" ++ []).
  cbv beta iota zeta. rewrite lstrip_to_body.
  change (body ++ u "```" ++ []) with (body ++ u "```").
  apply strip_closed.
Qed.

Lemma fenced_plain_unwrapped :
  strip_code_fences (u "```" ++ [10%N] ++ ws ++ body ++ u "```") = body.
Proof.
  rewrite strip_fenced.
  assert (Hnot : starts_with_json ([10%N] ++ ws ++ body ++ u "```") = false).
  { simpl. destruct (ws ++ body ++ u "```") as [|? [|? [|? ?]]]; reflexivity. }
  rewrite Hnot. cbv beta iota zeta.
  change ([10%N] ++ ws ++ body ++ u "```")
    with ((10%N :: ws) ++ body ++ u "```").
  rewrite lstrip_spaces.
  - apply strip_closed.
  - constructor; [reflexivity|exact ws_spaces].
  - destruct body; [reflexivity|exact body_starts].
Qed.

Lemma fence_before_last_kept (last : N) :
  last <> 96%N ->
  strip_code_fences (u "```json" ++ ws ++ body ++ u "```" ++ [last])
  = body ++ u "```" ++ [last].
Proof.
  intros Hlast.
  change (u "```json" ++ ws ++ body ++ u "```" ++ [last])
    with (u "```" ++ u "json" ++ ws ++ body ++ u "```" ++ [last]).
  rewrite strip_fenced.
  change (starts_with_json (u "json" ++ ws ++ body ++ u "```" ++ [last]))
    with true.
  change (drop 4 (u "json" ++ ws ++ body ++ u "```" ++ [last]))
    with (ws ++ body ++ u "```" ++ [last]).
  cbv beta iota zeta. rewrite lstrip_to_body.
  replace (endswith (body ++ u "```" ++ [last]) (u "```")) with false;
    [reflexivity|].
  symmetry. rewrite (app_assoc body).
  apply (endswith_other_last (body ++ u "```") [96; 96]%N 96%N last Hlast).
Qed.

End Fences.

(** An answer wrapped in a Markdown fence comes out unwrapped: after
    "```json" and white space, or after "```" and a line break, up to the
    closing "```" at the very end, whatever the body is (it only has to
    start with a character that is not white space, or be empty). *)
Theorem fenced_answer_is_unwrapped (ws body : pystr) :
  Forall (fun c => isspace c = true) ws ->
  match body with
  | [] => true
  | c :: _ => negb (isspace c)
  end = true ->
  strip_code_fences (u "```json" ++ ws ++ body ++ u "```") = body
  /\ strip_code_fences (u "```" ++ [10%N] ++ ws ++ body ++ u "```") = body.
Proof.
  intros Hws Hbody. split.
  - apply fenced_json_unwrapped; done.
  - apply fenced_plain_unwrapped; done.
Qed.

(** A fenced empty claim list, after a line break. *)
Lemma fenced_answer_is_unwrapped_witness :
  strip_code_fences (u "```json" ++ [10%N] ++ u "[{}]" ++ u "```") = u "[{}]"
  /\ strip_code_fences (u "```" ++ [10%N] ++ [10%N] ++ u "[{}]" ++ u "```")
     = u "[{}]".
Proof.
  apply (fenced_answer_is_unwrapped [10%N] (u "[{}]")).
  - repeat constructor.
  - reflexivity.
Defined.

(** The closing fence is removed only where it ends the text: with one
    more character after it (a final line break, say) it stays, and so
    does all that follows the body. *)
Theorem closing_fence_must_end_the_text (ws body : pystr) (last : N) :
  Forall (fun c => isspace c = true) ws ->
  match body with
  | [] => true
  | c :: _ => negb (isspace c)
  end = true ->
  last <> 96%N ->
  strip_code_fences (u "```json" ++ ws ++ body ++ u "```" ++ [last])
  = body ++ u "```" ++ [last].
Proof. intros Hws Hbody Hlast. apply fence_before_last_kept; done. Qed.

(** The same answer with a line break after the closing fence. *)
Lemma closing_fence_must_end_the_text_witness :
  strip_code_fences (u "```json" ++ [10%N] ++ u "[{}]" ++ u "```" ++ [10%N])
  = u "[{}]" ++ u "```" ++ [10%N].
Proof.
  apply (closing_fence_must_end_the_text [10%N] (u "[{}]") 10%N).
  - repeat constructor.
  - reflexivity.
  - discriminate.
Defined.

(** ** [create_batches] as a function of the chunks *)

Lemma store_batches_app (closed : list (list json)) (cur : list json) :
  forall (k : Z) (d : gmap pystr file),
    store_batches k (closed ++ [cur]) d
    = <[batch_filename (k + Z.of_nat (length closed)) := Parsed (JArr cur)]>
        (store_batches k closed d).
Proof.
  induction closed as [|b rest IH]; intros k d; cbn [store_batches app length].
  - rewrite Z.add_0_r. reflexivity.
  - rewrite IH. do 2 f_equal. lia.
Qed.

Section Packing.

Variable chunks_dir_path : pystr.
Variable max_batch_chars : Z.
Variable dc : gmap pystr file.
Variable json_dump : json -> option exn.

Hypothesis chunks_dir_not_batches : chunks_dir_path <> u "batches".
Hypothesis chunks_dir_plain : plain_name chunks_dir_path = true.
Hypothesis chunk_files_hold_chunks :
  forall name j, dc !! name = Some (Parsed j) ->
                 endswith name (u ".json") = true -> is_chunk j = true.
Hypothesis chunk_lists_dump :
  forall b, Forall (chunk_in_dir dc) b -> json_dump (JArr b) = None.

(** The loop over the files does to the file system what [pack_loop]
    does to the chunks. *)
Lemma batching_loop_packs (files : list pystr) :
  Forall (fun f => endswith f (u ".json") = true) files ->
  forall cur size k st d closed cur' size',
    st !! chunks_dir_path = Some (Dir dc) ->
    st !! u "batches" = Some (Dir d) ->
    Forall (chunk_in_dir dc) cur ->
    pack_loop max_batch_chars cur size (flat_map (chunk_of dc) files)
    = (closed, cur', size') ->
    for_each (batch_step json_dump chunks_dir_path (u "batches")
                         max_batch_chars)
             (Batcher cur size k, st) files
    = Ok (Batcher cur' size' (k + Z.of_nat (length closed)),
          <[u "batches" := Dir (store_batches k closed d)]> st)
    /\ Forall (chunk_in_dir dc) cur'.
Proof.
  induction 1 as [|f rest Hf _ IH];
    intros cur size k st d closed cur' size' Hdc Hd Hcur Hpack;
    cbn [for_each flat_map] in *.
  - cbn [pack_loop] in Hpack. injection Hpack as <- <- <-.
    cbn [length store_batches]. rewrite Z.add_0_r, insert_id by done. done.
  - unfold batch_step at 1. unfold load_json_in. plain_paths. rewrite Hdc.
    unfold chunk_of at 1 in Hpack.
    destruct (dc !! f) as [[|c]|] eqn:Hfile; cbn [app bind] in *.
    + apply (IH _ _ _ _ d); done.
    + pose proof (chunk_files_hold_chunks _ _ Hfile Hf) as Hc.
      assert (Hin : chunk_in_dir dc c) by (exists f; done).
      rewrite (estimate_chunk _ Hc). cbn [bind].
      cbn [pack_loop current_batch_content current_batch_size_chars] in *.
      destruct ((size + chunk_chars c >? max_batch_chars)%Z
                && negb (bool_decide (cur = []))).
      * destruct (pack_loop max_batch_chars [c] (chunk_chars c)
                    (flat_map (chunk_of dc) rest))
          as [[closed1 cur1] size1] eqn:Hrest.
        injection Hpack as <- <- <-.
        unfold save_batch, write_json. plain_paths. rewrite Hd.
        cbn [bind batch_count current_batch_content].
        rewrite (chunk_lists_dump cur Hcur).
        cbn [bind batch_count current_batch_content].
        destruct (IH [c] (chunk_chars c) (k + 1)%Z
                    (<[u "batches" :=
                         Dir (<[batch_filename k := Parsed (JArr cur)]> d)]> st)
                    (<[batch_filename k := Parsed (JArr cur)]> d)
                    closed1 cur1 size1) as [-> Hcur1].
        -- rewrite lookup_insert_ne by done. exact Hdc.
        -- apply lookup_insert_eq.
        -- repeat constructor. exact Hin.
        -- exact Hrest.
        -- split; [|exact Hcur1].
           cbn [length store_batches]. rewrite insert_insert_eq.
           do 3 f_equal. lia.
      * apply (IH _ _ _ _ d); try done.
        apply Forall_app. split; [exact Hcur|]. repeat constructor. exact Hin.
    + apply (IH _ _ _ _ d); done.
Qed.

End Packing.

(** [create_batches] writes [pack] of the readable chunks, numbered from
    1, into the batch directory cleared of its [.json] files, and changes
    nothing else. *)
Lemma create_batches_packs (json_dump : json -> option exn) (st : fs)
  (chunks_dir_path : pystr) (max_batch_chars : Z) (dc : gmap pystr file) :
  plain_name chunks_dir_path = true ->
  chunks_dir_path <> u "batches" ->
  dir_slot_free st (u "batches") = true ->
  st !! chunks_dir_path = Some (Dir dc) ->
  json_files_hold is_chunk dc = true ->
  batches_dump json_dump st chunks_dir_path ->
  create_batches json_dump st chunks_dir_path max_batch_chars
  = Ok (Z.of_nat (length (pack max_batch_chars
                            (readable_chunks st chunks_dir_path))),
        <[u "batches" :=
            Dir (store_batches 1
                   (pack max_batch_chars (readable_chunks st chunks_dir_path))
                   (remove_json_files (batches_dir st)))]> st).
Proof.
  intros Hplain Hne Hslot Hdir Hchunks Hdump.
  pose proof (proj1 (json_files_hold_spec _ _) Hchunks) as Hhold.
  assert (Hlists : forall b, Forall (chunk_in_dir dc) b ->
                             json_dump (JArr b) = None).
  { intros b Hb. apply Hdump. intros c Hc.
    apply (chunk_in_dir_readable st chunks_dir_path dc c Hdir).
    exact (proj1 (List.Forall_forall _ _) Hb c Hc). }
  unfold create_batches, listdir, readable_chunks. plain_paths. rewrite Hdir.
  set (files := sorted (json_names (List.map fst (map_to_list dc)))).
  assert (Hfiles : Forall (fun f => endswith f (u ".json") = true) files).
  { apply Forall_forall. intros f Hf. apply list_elem_of_In in Hf.
    apply sorted_elem, json_names_elem in Hf. tauto. }
  rewrite <- chunk_of_omap. fold files.
  assert (Hprep : exists st1,
    makedirs st (u "batches") = Ok st1
    /\ clean_dir st1 (u "batches")
       = Ok (<[u "batches" := Dir (remove_json_files (batches_dir st))]> st)).
  { unfold makedirs, clean_dir, dir_slot_free, batches_dir in *. plain_paths.
    destruct (st !! u "batches") as [[f|d0]|] eqn:Hb; [discriminate| |].
    - exists st. plain_paths. rewrite Hb. done.
    - exists (<[u "batches" := Dir ∅]> st). plain_paths.
      rewrite lookup_insert_eq, insert_insert_eq. done. }
  destruct Hprep as (st1 & -> & Hclean). cbn [bind].
  rewrite Hclean. cbn [bind].
  set (d1 := remove_json_files (batches_dir st)).
  unfold pack.
  destruct (pack_loop max_batch_chars [] 0 (flat_map (chunk_of dc) files))
    as [[closed cur] size] eqn:Hpack.
  destruct (batching_loop_packs chunks_dir_path max_batch_chars dc json_dump
              Hne Hplain Hhold Hlists
              files Hfiles [] 0%Z 1%Z
              (<[u "batches" := Dir d1]> st) d1 closed cur size)
    as [-> Hcur'].
  { rewrite lookup_insert_ne by done. exact Hdir. }
  { apply lookup_insert_eq. }
  { constructor. }
  { exact Hpack. }
  cbn [bind current_batch_content]. rewrite insert_insert_eq.
  case_bool_decide as Hcur.
  - cbn [bind batch_count]. do 2 f_equal. lia.
  - unfold save_batch, write_json. plain_paths. rewrite lookup_insert_eq.
    cbn [bind batch_count current_batch_content].
    rewrite (Hlists cur Hcur'). cbn [bind batch_count].
    rewrite insert_insert_eq.
    rewrite length_app. cbn [length]. f_equal. f_equal; [lia|].
    rewrite store_batches_app. reflexivity.
Qed.

(** ** The batch directory after [create_batches] *)

Lemma store_batches_present (batches : list (list json)) (name : pystr) :
  forall (k : Z) (d : gmap pystr file),
    is_Some (store_batches k batches d !! name) ->
    is_Some (d !! name)
    \/ exists i, (i < length batches)%nat
                 /\ name = batch_filename (k + Z.of_nat i).
Proof.
  induction batches as [|b rest IH]; intros k d Hsome;
    cbn [store_batches length] in *; [auto|].
  apply IH in Hsome as [Hsome | (i & Hi & ->)].
  - destruct (decide (name = batch_filename k)) as [->|Hne].
    + right. exists 0%nat. split; [lia|]. f_equal. lia.
    + rewrite lookup_insert_ne in Hsome by done. auto.
  - right. exists (S i). split; [lia|]. f_equal. lia.
Qed.

Lemma store_batches_other (batches : list (list json)) (name : pystr) :
  forall (k : Z) (d : gmap pystr file),
    (forall i, (i < length batches)%nat ->
       name <> batch_filename (k + Z.of_nat i)) ->
    store_batches k batches d !! name = d !! name.
Proof.
  induction batches as [|b rest IH]; intros k d Hother;
    cbn [store_batches length] in *; [done|].
  rewrite IH.
  - apply lookup_insert_ne. specialize (Hother 0%nat ltac:(lia)).
    rewrite Z.add_0_r in Hother. congruence.
  - intros i Hi. specialize (Hother (S i) ltac:(lia)).
    replace (k + 1 + Z.of_nat i)%Z with (k + Z.of_nat (S i))%Z by lia. done.
Qed.

Lemma store_batches_not_json (batches : list (list json)) (name : pystr)
  (k : Z) (d : gmap pystr file) :
  endswith name (u ".json") = false ->
  store_batches k batches d !! name = d !! name.
Proof.
  intros Hname. apply store_batches_other. intros i _ ->.
  rewrite batch_filename_json in Hname. discriminate.
Qed.

Lemma store_batches_hit (batches : list (list json)) :
  forall (k : Z) (d : gmap pystr file) (i : nat) (b : list json),
    (0 <= k)%Z ->
    batches !! i = Some b ->
    store_batches k batches d !! batch_filename (k + Z.of_nat i)
    = Some (Parsed (JArr b)).
Proof.
  induction batches as [|b0 rest IH]; intros k d i b Hk Hi; [done|].
  cbn [store_batches]. destruct i as [|i].
  - injection Hi as ->. rewrite Z.add_0_r.
    rewrite store_batches_other; [apply lookup_insert_eq|].
    intros j _ E. apply batch_filename_inj in E; lia.
  - replace (k + Z.of_nat (S i))%Z with (k + 1 + Z.of_nat i)%Z by lia.
    apply IH; [lia|exact Hi].
Qed.

Lemma remove_json_files_store (batches : list (list json)) (k : Z)
  (d : gmap pystr file) :
  remove_json_files (store_batches k batches (remove_json_files d))
  = remove_json_files d.
Proof.
  apply map_eq. intros name. rewrite !remove_json_files_lookup.
  destruct (endswith name (u ".json")) eqn:E; [reflexivity|].
  rewrite store_batches_not_json by done.
  rewrite remove_json_files_lookup, E. reflexivity.
Qed.

(** ** What [pack] makes *)

Lemma pack_loop_size (max_batch_chars : Z) (chunks : list json) :
  forall cur size closed cur' size',
    size = batch_chars cur ->
    pack_loop max_batch_chars cur size chunks = (closed, cur', size') ->
    size' = batch_chars cur'.
Proof.
  induction chunks as [|c rest IH]; intros cur size closed cur' size' Hsize;
    cbn [pack_loop].
  - intros [= <- <- <-]. exact Hsize.
  - destruct ((size + chunk_chars c >? max_batch_chars)%Z
              && negb (bool_decide (cur = []))).
    + destruct (pack_loop max_batch_chars [c] (chunk_chars c) rest)
        as [[closed1 cur1] size1] eqn:E.
      intros [= <- <- <-]. eapply IH; [|exact E].
      rewrite batch_chars_single. reflexivity.
    + apply IH. rewrite batch_chars_app, batch_chars_single. lia.
Qed.

(** A batch is closed only when the next chunk would not fit: in the
    sequence of the closed batches followed by the open one, which starts
    with [cur], every batch with the first chunk of the next exceeds the
    budget. *)
Lemma pack_loop_tight (max_batch_chars : Z) (chunks : list json) :
  forall cur size closed cur' size',
    size = batch_chars cur ->
    pack_loop max_batch_chars cur size chunks = (closed, cur', size') ->
    (exists ext, hd [] (closed ++ [cur']) = cur ++ ext)
    /\ (cur <> [] -> cur' <> [] /\ Forall (fun b => b <> []) closed)
    /\ (chunks <> [] -> cur' <> [] /\ Forall (fun b => b <> []) closed)
    /\ forall i b c rest,
         (closed ++ [cur']) !! i = Some b ->
         (closed ++ [cur']) !! S i = Some (c :: rest) ->
         (batch_chars b + chunk_chars c > max_batch_chars)%Z.
Proof.
  induction chunks as [|c rest IH]; intros cur size closed cur' size' Hsize;
    cbn [pack_loop].
  - intros [= <- <- <-]. cbn [app hd]. split; [exists []; symmetry; apply app_nil_r|].
    split; [auto|]. split; [done|]. intros [|i] b c' r Hb Hc; discriminate.
  - destruct ((size + chunk_chars c >? max_batch_chars)%Z
              && negb (bool_decide (cur = []))) eqn:Hcond.
    + apply andb_true_iff in Hcond as [Hover Hne].
      apply negb_true_iff, bool_decide_eq_false in Hne.
      destruct (pack_loop max_batch_chars [c] (chunk_chars c) rest)
        as [[closed1 cur1] size1] eqn:E.
      intros [= <- <- <-].
      destruct (IH [c] (chunk_chars c) closed1 cur1 size1)
        as ((ext & Hhd) & Hfull & _ & Htight);
        [rewrite batch_chars_single; reflexivity|exact E|].
      destruct (Hfull ltac:(discriminate)) as [Hcur1 Hclosed1].
      cbn [app hd]. split; [exists []; symmetry; apply app_nil_r|].
      assert (Hall : cur1 <> [] /\ Forall (fun b => b <> []) (cur :: closed1))
        by (split; [done|constructor; done]).
      split; [auto|]. split; [auto|].
      intros [|i] b c' r Hb Hc.
      * injection Hb as <-. cbn [lookup list_lookup] in Hc.
        destruct (closed1 ++ [cur1]) as [|first more] eqn:El; [discriminate|].
        cbn [hd] in Hhd. simpl in Hc. injection Hc as ->.
        simpl in Hhd. injection Hhd as -> _.
        apply Z.gtb_lt in Hover. lia.
      * exact (Htight i b c' r Hb Hc).
    + intros Hpack.
      destruct (IH (cur ++ [c]) (size + chunk_chars c)%Z closed cur' size')
        as ((ext & Hhd) & Hfull & _ & Htight);
        [rewrite batch_chars_app, batch_chars_single; lia|exact Hpack|].
      split; [exists (c :: ext); rewrite Hhd, <- app_assoc; reflexivity|].
      assert (Hne : cur ++ [c] <> []) by (destruct cur; discriminate).
      split; [intros _; exact (Hfull Hne)|].
      split; [intros _; exact (Hfull Hne)|]. exact Htight.
Qed.

Lemma pack_cases (max_batch_chars : Z) (chunks : list json) :
  (chunks = [] /\ pack max_batch_chars chunks = [])
  \/ exists closed cur size,
       pack_loop max_batch_chars [] 0 chunks = (closed, cur, size)
       /\ cur <> [] /\ pack max_batch_chars chunks = closed ++ [cur].
Proof.
  unfold pack. destruct chunks as [|c rest]; [left; done|]. right.
  destruct (pack_loop max_batch_chars [] 0 (c :: rest))
    as [[closed cur] size] eqn:E.
  destruct (pack_loop_tight max_batch_chars (c :: rest) [] 0%Z closed cur size
              eq_refl E) as (_ & _ & Hfull & _).
  destruct (Hfull ltac:(discriminate)) as [Hcur _].
  exists closed, cur, size. rewrite bool_decide_eq_false_2 by done. done.
Qed.

Lemma pack_tight (max_batch_chars : Z) (chunks : list json)
  (i : nat) (b : list json) (c : json) (rest : list json) :
  pack max_batch_chars chunks !! i = Some b ->
  pack max_batch_chars chunks !! S i = Some (c :: rest) ->
  (batch_chars b + chunk_chars c > max_batch_chars)%Z.
Proof.
  destruct (pack_cases max_batch_chars chunks)
    as [[_ ->] | (closed & cur & size & Hloop & _ & ->)]; [discriminate|].
  apply (pack_loop_tight max_batch_chars chunks [] 0%Z closed cur size
           eq_refl Hloop).
Qed.

Lemma pack_nonempty (max_batch_chars : Z) (chunks : list json) :
  Forall (fun b => b <> []) (pack max_batch_chars chunks).
Proof.
  destruct (pack_cases max_batch_chars chunks)
    as [[_ ->] | (closed & cur & size & Hloop & Hcur & ->)]; [constructor|].
  destruct chunks as [|c rest]; [cbn in Hloop; congruence|].
  destruct (pack_loop_tight max_batch_chars (c :: rest) [] 0%Z closed cur size
              eq_refl Hloop) as (_ & _ & Hfull & _).
  destruct (Hfull ltac:(discriminate)) as [_ Hclosed].
  apply Forall_app. split; [done|]. constructor; [done|constructor].
Qed.

(** ** More about [create_batches] *)

Lemma create_batches_cases (json_dump : json -> option exn)
  (st : fs) (chunks_dir_path : pystr) (max_batch_chars : Z) :
  plain_name chunks_dir_path = true ->
  chunks_dir_path <> u "batches" ->
  dir_slot_free st (u "batches") = true ->
  dir_holds is_chunk st chunks_dir_path = true ->
  batches_dump json_dump st chunks_dir_path ->
  (st !! chunks_dir_path = None
   /\ readable_chunks st chunks_dir_path = []
   /\ create_batches json_dump st chunks_dir_path max_batch_chars = Ok (0%Z, st))
  \/ (is_Some (st !! chunks_dir_path)
      /\ create_batches json_dump st chunks_dir_path max_batch_chars
         = Ok (Z.of_nat (length (pack max_batch_chars
                                   (readable_chunks st chunks_dir_path))),
               <[u "batches" :=
                   Dir (store_batches 1
                          (pack max_batch_chars
                             (readable_chunks st chunks_dir_path))
                          (remove_json_files (batches_dir st)))]> st)).
Proof.
  intros Hplain Hne Hslot Hchunks Hdump. unfold dir_holds in Hchunks.
  destruct (st !! chunks_dir_path) as [[f|dc]|] eqn:Hdir; [discriminate| |].
  - right. split; [eauto|]. apply (create_batches_packs _ _ _ _ dc); done.
  - left. unfold create_batches, listdir, readable_chunks. plain_paths.
    rewrite Hdir. done.
Qed.

Lemma stored_batch_files (st : fs) (batches : list (list json))
  (d : gmap pystr file) :
  batch_files (<[u "batches" := Dir (store_batches 1 batches d)]> st)
              (length batches)
  = List.map (fun b => Some (Parsed (JArr b))) batches.
Proof.
  apply (batch_files_from _ (store_batches 1 batches d));
    [apply lookup_insert_eq|].
  intros i bt Hi.
  replace (Z.of_nat (1 + i)) with (1 + Z.of_nat i)%Z by lia.
  apply store_batches_hit; [lia|exact Hi].
Qed.

(** After [create_batches] on an existing chunk directory, the [.json]
    files of [batches] are exactly batch_01 ... batch_n, each a non-empty
    batch: the batch files of an earlier run are gone. The other files
    of [batches] and everything outside [batches] are as before. *)
Theorem create_batches_replaces_old_batches (json_dump : json -> option exn)
  (st : fs) (chunks_dir_path : pystr) (max_batch_chars : Z) :
  plain_name chunks_dir_path = true ->
  chunks_dir_path <> u "batches" ->
  dir_slot_free st (u "batches") = true ->
  dir_holds is_chunk st chunks_dir_path = true ->
  batches_dump json_dump st chunks_dir_path ->
  path_exists st chunks_dir_path = Ok true ->
  exists (n : nat) st' d',
    create_batches json_dump st chunks_dir_path max_batch_chars = Ok (Z.of_nat n, st')
    /\ st' !! u "batches" = Some (Dir d')
    /\ (forall name, endswith name (u ".json") = true ->
          is_Some (d' !! name) ->
          exists k, (1 <= k <= n)%nat /\ name = batch_filename (Z.of_nat k))
    /\ (forall k, (1 <= k <= n)%nat ->
          exists b, b <> []
                    /\ d' !! batch_filename (Z.of_nat k)
                       = Some (Parsed (JArr b)))
    /\ (forall name, endswith name (u ".json") = false ->
          d' !! name = batches_dir st !! name)
    /\ (forall other, other <> u "batches" -> st' !! other = st !! other).
Proof.
  intros Hplain Hne Hslot Hchunks Hdump Hexists.
  destruct (create_batches_cases json_dump st chunks_dir_path
              max_batch_chars Hplain Hne Hslot Hchunks Hdump) as [(Hnone & _) | (_ & Hrun)].
  { unfold path_exists in Hexists.
    rewrite entry_at_plain in Hexists by exact Hplain.
    cbn [bind] in Hexists. rewrite Hnone in Hexists.
    injection Hexists as Hexists. discriminate. }
  set (bs := pack max_batch_chars (readable_chunks st chunks_dir_path)) in *.
  eexists (length bs), _, _. split; [exact Hrun|].
  split; [apply lookup_insert_eq|]. split; [|split; [|split]].
  - intros name Hjson Hsome.
    apply store_batches_present in Hsome as [[x Hx] | (i & Hi & ->)].
    + rewrite remove_json_files_lookup, Hjson in Hx. discriminate.
    + exists (S i). split; [lia|]. f_equal. lia.
  - intros k Hk. destruct (lookup_lt_is_Some_2 bs (k - 1)) as [b Hb]; [lia|].
    exists b. split.
    + exact (proj1 (List.Forall_forall _ _) (pack_nonempty _ _) b
               (proj1 (list_elem_of_In _ _) (list_elem_of_lookup_2 _ _ _ Hb))).
    + replace (Z.of_nat k) with (1 + Z.of_nat (k - 1))%Z by lia.
      apply store_batches_hit; [lia|exact Hb].
  - intros name Hname. rewrite store_batches_not_json by done.
    rewrite remove_json_files_lookup, Hname. reflexivity.
  - intros other Hother. apply lookup_insert_ne. congruence.
Qed.

(** On [pipeline_fs_chunked], with a budget of 6 characters. *)
Lemma create_batches_replaces_old_batches_witness :
  exists (n : nat) st' d',
    create_batches utf8_dump pipeline_fs_chunked (u "chunks") 6 = Ok (Z.of_nat n, st')
    /\ st' !! u "batches" = Some (Dir d')
    /\ (forall name, endswith name (u ".json") = true ->
          is_Some (d' !! name) ->
          exists k, (1 <= k <= n)%nat /\ name = batch_filename (Z.of_nat k))
    /\ (forall k, (1 <= k <= n)%nat ->
          exists b, b <> []
                    /\ d' !! batch_filename (Z.of_nat k)
                       = Some (Parsed (JArr b)))
    /\ (forall name, endswith name (u ".json") = false ->
          d' !! name = batches_dir pipeline_fs_chunked !! name)
    /\ (forall other, other <> u "batches" ->
          st' !! other = pipeline_fs_chunked !! other).
Proof.
  apply (create_batches_replaces_old_batches utf8_dump pipeline_fs_chunked
           (u "chunks") 6).
  - vm_compute. reflexivity.
  - vm_compute. discriminate.
  - vm_compute. reflexivity.
  - vm_compute. reflexivity.
  - apply utf8_dump_batches. vm_compute. reflexivity.
  - vm_compute. reflexivity.
Defined.

(** Running [create_batches] again on the file system it left gives the
    same count and leaves the file system as it is. *)
Theorem create_batches_twice (json_dump : json -> option exn)
  (st : fs) (chunks_dir_path : pystr) (max_batch_chars : Z) :
  plain_name chunks_dir_path = true ->
  chunks_dir_path <> u "batches" ->
  dir_slot_free st (u "batches") = true ->
  dir_holds is_chunk st chunks_dir_path = true ->
  batches_dump json_dump st chunks_dir_path ->
  exists n st',
    create_batches json_dump st chunks_dir_path max_batch_chars = Ok (n, st')
    /\ create_batches json_dump st' chunks_dir_path max_batch_chars = Ok (n, st').
Proof.
  intros Hplain Hne Hslot Hchunks Hdump.
  destruct (create_batches_cases json_dump st chunks_dir_path
              max_batch_chars Hplain Hne Hslot Hchunks Hdump) as [(_ & _ & Hrun) | (Hsome & Hrun)].
  { exists 0%Z, st. done. }
  eexists _, _. split; [exact Hrun|].
  set (bs := pack max_batch_chars (readable_chunks st chunks_dir_path)) in *.
  set (d1 := store_batches 1 bs (remove_json_files (batches_dir st))) in *.
  set (st' := <[u "batches" := Dir d1]> st).
  assert (Hdir' : st' !! chunks_dir_path = st !! chunks_dir_path)
    by (apply lookup_insert_ne; congruence).
  assert (Hread : readable_chunks st' chunks_dir_path
                  = readable_chunks st chunks_dir_path)
    by (unfold readable_chunks; rewrite Hdir'; reflexivity).
  destruct (create_batches_cases json_dump st' chunks_dir_path
              max_batch_chars)
    as [(Hnone & _) | (_ & Hrun')]; try done.
  { unfold dir_slot_free, st'. rewrite lookup_insert_eq. done. }
  { unfold dir_holds. rewrite Hdir'. exact Hchunks. }
  { intros b Hb. apply Hdump. rewrite <- Hread. exact Hb. }
  { rewrite Hdir' in Hnone. rewrite Hnone in Hsome. destruct Hsome. done. }
  rewrite Hrun'.
  assert (Hold : batches_dir st' = d1)
    by (unfold batches_dir, st'; rewrite lookup_insert_eq; reflexivity).
  rewrite Hread, Hold. fold bs. subst d1.
  rewrite remove_json_files_store. unfold st'.
  rewrite insert_insert_eq. reflexivity.
Qed.

(** On [example_fs], with a budget of 6 characters. *)
Lemma create_batches_twice_witness :
  exists n st',
    create_batches utf8_dump example_fs (u "chunks") 6 = Ok (n, st')
    /\ create_batches utf8_dump st' (u "chunks") 6 = Ok (n, st').
Proof.
  apply (create_batches_twice utf8_dump example_fs (u "chunks") 6).
  - vm_compute. reflexivity.
  - vm_compute. discriminate.
  - vm_compute. reflexivity.
  - vm_compute. reflexivity.
  - apply utf8_dump_batches. vm_compute. reflexivity.
Defined.

(** A batch is closed only when the next chunk would not fit: each batch
    written, taken with the first chunk of the batch after it, exceeds
    the budget, so no chunk could have gone into the batch before. *)
Theorem batch_closed_only_when_full (json_dump : json -> option exn)
  (st : fs) (chunks_dir_path : pystr) (max_batch_chars : Z) :
  plain_name chunks_dir_path = true ->
  chunks_dir_path <> u "batches" ->
  dir_slot_free st (u "batches") = true ->
  dir_holds is_chunk st chunks_dir_path = true ->
  batches_dump json_dump st chunks_dir_path ->
  exists batches st',
    create_batches json_dump st chunks_dir_path max_batch_chars
    = Ok (Z.of_nat (length batches), st')
    /\ batch_files st' (length batches)
       = List.map (fun b => Some (Parsed (JArr b))) batches
    /\ forall i b c rest,
         batches !! i = Some b ->
         batches !! S i = Some (c :: rest) ->
         (batch_chars b + chunk_chars c > max_batch_chars)%Z.
Proof.
  intros Hplain Hne Hslot Hchunks Hdump.
  destruct (create_batches_cases json_dump st chunks_dir_path
              max_batch_chars Hplain Hne Hslot Hchunks Hdump) as [(_ & _ & Hrun) | (_ & Hrun)].
  { exists [], st. split; [exact Hrun|]. split; [done|].
    intros i b c rest Hb. discriminate. }
  eexists _, _. split; [exact Hrun|]. split; [apply stored_batch_files|].
  apply pack_tight.
Qed.

(** On [example_fs], with a budget of 6 characters: the batches are
    [aaaa], [bbbbbbbb] and [cc]. *)
Lemma batch_closed_only_when_full_witness :
  exists batches st',
    create_batches utf8_dump example_fs (u "chunks") 6
    = Ok (Z.of_nat (length batches), st')
    /\ batch_files st' (length batches)
       = List.map (fun b => Some (Parsed (JArr b))) batches
    /\ forall i b c rest,
         batches !! i = Some b ->
         batches !! S i = Some (c :: rest) ->
         (batch_chars b + chunk_chars c > 6)%Z.
Proof.
  apply (batch_closed_only_when_full utf8_dump example_fs (u "chunks") 6).
  - vm_compute. reflexivity.
  - vm_compute. discriminate.
  - vm_compute. reflexivity.
  - vm_compute. reflexivity.
  - apply utf8_dump_batches. vm_compute. reflexivity.
Defined.

Lemma concat_nonempty_length {A} (ls : list (list A)) :
  Forall (fun l => l <> []) ls -> (length ls <= length (concat ls))%nat.
Proof.
  induction 1 as [|l ls Hl _ IH]; simpl; [lia|].
  rewrite length_app. destruct l; [done|]. simpl. lia.
Qed.

(** [create_batches] returns 0 exactly when no chunk file can be read,
    and never more batches than there are readable chunks. *)
Theorem no_batches_iff_no_readable_chunk (json_dump : json -> option exn)
  (st : fs) (chunks_dir_path : pystr) (max_batch_chars : Z) :
  plain_name chunks_dir_path = true ->
  chunks_dir_path <> u "batches" ->
  dir_slot_free st (u "batches") = true ->
  dir_holds is_chunk st chunks_dir_path = true ->
  batches_dump json_dump st chunks_dir_path ->
  exists n st',
    create_batches json_dump st chunks_dir_path max_batch_chars = Ok (n, st')
    /\ (n = 0%Z <-> readable_chunks st chunks_dir_path = [])
    /\ (0 <= n <= Z.of_nat (length (readable_chunks st chunks_dir_path)))%Z.
Proof.
  intros Hplain Hne Hslot Hchunks Hdump.
  destruct (create_batches_run json_dump st chunks_dir_path max_batch_chars
              Hplain Hne Hslot Hchunks Hdump)
    as (batches & st' & Hrun & Hparts & Hgood & _).
  exists (Z.of_nat (length batches)), st'. split; [exact Hrun|].
  assert (Hnonempty : Forall (fun b : list json => b <> []) batches)
    by (eapply Forall_impl; [exact Hgood|]; intros b (H & _); exact H).
  pose proof (concat_nonempty_length batches Hnonempty) as Hlen.
  rewrite Hparts in Hlen. split; [|lia]. split.
  - intros Hzero. destruct batches; [|simpl in Hzero; lia].
    rewrite <- Hparts. reflexivity.
  - intros Hnone. rewrite Hnone in Hlen. simpl in Hlen. lia.
Qed.

(** On [example_fs], with a budget of 6 characters. *)
Lemma no_batches_iff_no_readable_chunk_witness :
  exists n st',
    create_batches utf8_dump example_fs (u "chunks") 6 = Ok (n, st')
    /\ (n = 0%Z <-> readable_chunks example_fs (u "chunks") = [])
    /\ (0 <= n <= Z.of_nat (length (readable_chunks example_fs (u "chunks"))))%Z.
Proof.
  apply (no_batches_iff_no_readable_chunk utf8_dump example_fs (u "chunks") 6).
  - vm_compute. reflexivity.
  - vm_compute. discriminate.
  - vm_compute. reflexivity.
  - vm_compute. reflexivity.
  - apply utf8_dump_batches. vm_compute. reflexivity.
Defined.

(** ** What [analyze_batches] returns and writes *)

Lemma assoc_set_assoc_eq (key : pystr) (v : json) (items : list (pystr * json)) :
  assoc key (set_assoc key v items) = Some v.
Proof.
  induction items as [|[k w] rest IH]; simpl.
  - rewrite bool_decide_eq_true_2 by done. reflexivity.
  - case_bool_decide as E; simpl.
    + rewrite bool_decide_eq_true_2 by done. reflexivity.
    + rewrite bool_decide_eq_false_2 by done. exact IH.
Qed.

Lemma assoc_set_assoc_ne (key other : pystr) (v : json)
  (items : list (pystr * json)) :
  other <> key -> assoc other (set_assoc key v items) = assoc other items.
Proof.
  intros Hne. induction items as [|[k w] rest IH]; simpl.
  - rewrite bool_decide_eq_false_2 by congruence. reflexivity.
  - case_bool_decide as E; simpl.
    + subst k. rewrite !bool_decide_eq_false_2 by congruence. reflexivity.
    + case_bool_decide; [reflexivity|exact IH].
Qed.

Lemma map_result_inv {A B} (f : A -> result B) (items : list A) (ys : list B) :
  map_result f items = Ok ys -> Forall2 (fun x y => f x = Ok y) items ys.
Proof.
  revert ys. induction items as [|x rest IH]; intros ys; simpl.
  - intros [= <-]. constructor.
  - destruct (f x) as [y|] eqn:Hy; [|discriminate]. cbn [bind].
    destruct (map_result f rest) as [ys'|]; [|discriminate]. cbn [bind].
    intros [= <-]. constructor; auto.
Qed.

Section Analysis.

Variable call_local_analysis : pystr -> option json.
Variable json_dump : json -> option exn.

(** One iteration keeps the claims gathered so far and adds stamped
    ones. *)
Lemma analyze_step_stamps (st : fs) (acc acc' : list json) (filename : pystr) :
  endswith filename (u ".json") = true ->
  analyze_step call_local_analysis st (u "batches") acc filename = Ok acc' ->
  Forall (stamped st) acc -> Forall (stamped st) acc'.
Proof.
  intros Hjson. unfold analyze_step.
  destruct (index (split (u ".") None filename) 0) as [batch_id|] eqn:Hid;
    [|discriminate].
  cbn [bind].
  destruct (load_json_in st (u "batches") filename) as [batch_data|] eqn:Hload;
    [|intros [= <-]; done].
  destruct (py_iter batch_data) as [items|]; [|discriminate]. cbn [bind].
  destruct (map_result _ items) as [texts|]; [|discriminate]. cbn [bind].
  destruct (str_join _ texts) as [content|]; [|discriminate]. cbn [bind].
  destruct (call_local_analysis content) as [[| | | | |[|first more]|]|];
    try (intros [= <-]; done).
  destruct (map_result _ (first :: more)) as [stamped_claims|] eqn:Hmap;
    [|discriminate].
  cbn [bind]. intros [= <-] Hacc. apply Forall_app. split; [exact Hacc|].
  apply map_result_inv in Hmap.
  clear Hacc. induction Hmap as [|claim c claims cs Hc _ IH]; constructor;
    [|exact IH].
  destruct claim; try discriminate. cbn [set_item bind] in Hc.
  destruct (py_len batch_data) as [chunk_count|] eqn:Hlen; [|discriminate].
  cbn [bind set_item] in Hc. injection Hc as <-.
  eexists _, filename, batch_data, batch_id, chunk_count.
  split; [reflexivity|]. repeat (split; [done|]). split.
  - rewrite assoc_set_assoc_ne by (vm_compute; discriminate).
    apply assoc_set_assoc_eq.
  - apply assoc_set_assoc_eq.
Qed.

Lemma analyze_loop_stamps (st : fs) (files : list pystr) :
  Forall (fun f => endswith f (u ".json") = true) files ->
  forall acc results,
    for_each (analyze_step call_local_analysis st (u "batches")) acc files
    = Ok results ->
    Forall (stamped st) acc -> Forall (stamped st) results.
Proof.
  induction 1 as [|f rest Hf _ IH]; intros acc results; cbn [for_each].
  - intros [= <-]. done.
  - destruct (analyze_step call_local_analysis st (u "batches") acc f)
      as [acc'|] eqn:Hstep; [|discriminate].
    cbn [bind]. intros Hrest Hacc.
    apply (IH acc' results Hrest).
    exact (analyze_step_stamps st acc acc' f Hf Hstep Hacc).
Qed.

Lemma stamped_frame (st st' : fs) (claim : json) :
  st' !! u "batches" = st !! u "batches" -> stamped st claim -> stamped st' claim.
Proof.
  intros Hsame (items & f & bd & id & n & H1 & H2 & H3 & H4).
  exists items, f, bd, id, n. split; [done|]. split; [done|]. split; [|done].
  unfold load_json_in in *.
  rewrite entry_at_plain in * by exact plain_batches.
  cbn [bind] in *. rewrite Hsame. exact H3.
Qed.

Lemma analyze_batches_result (st st' : fs) (results : list json) :
  analyze_batches call_local_analysis json_dump st = Ok (results, st') ->
  Forall (stamped st') results
  /\ report_file st'
     = (if bool_decide (results = []) then report_file st
        else Some (Parsed (JArr results)))
  /\ (forall other, other <> u "analysis_results" -> st' !! other = st !! other).
Proof.
  unfold analyze_batches, listdir. plain_paths.
  destruct (st !! u "batches") as [[f|d]|] eqn:Hd; [discriminate| |].
  2:{ intros [= <- <-]. done. }
  set (files := sorted (json_names (List.map fst (map_to_list d)))).
  assert (Hfiles : Forall (fun f => endswith f (u ".json") = true) files).
  { apply Forall_forall. intros f Hf. apply list_elem_of_In in Hf.
    apply sorted_elem, json_names_elem in Hf. tauto. }
  destruct (makedirs st (u "analysis_results")) as [st1|] eqn:Hmk;
    [|discriminate].
  cbn [bind].
  assert (Hslot : dir_slot_free st (u "analysis_results") = true).
  { unfold makedirs in Hmk.
    rewrite entry_at_plain in Hmk by exact plain_analysis_results.
    cbn [bind] in Hmk. unfold dir_slot_free.
    destruct (st !! u "analysis_results") as [[]|]; done. }
  destruct (makedirs_free st _ plain_analysis_results Hslot)
    as (st1' & a & Hmk' & Ha & Hfr & Hwas).
  rewrite Hmk in Hmk'. injection Hmk' as <-.
  assert (Hrep1 : report_file st1 = report_file st).
  { unfold report_file. rewrite Ha.
    destruct Hwas as [-> | [-> ->]]; [done|]. apply lookup_empty. }
  destruct (for_each _ [] files) as [all|] eqn:Hloop; [|discriminate].
  cbn [bind].
  pose proof (analyze_loop_stamps st1 files Hfiles [] all Hloop
                ltac:(constructor)) as Hstamped.
  case_bool_decide as Hall.
  - intros [= <- <-]. rewrite bool_decide_eq_true_2 by done. done.
  - unfold write_json. plain_paths. rewrite Ha.
    destruct (json_dump (JArr all)); [discriminate|].
    cbn [bind]. intros [= <- <-].
    rewrite bool_decide_eq_false_2 by done. split; [|split].
    + eapply Forall_impl; [exact Hstamped|]. intros c. apply stamped_frame.
      apply lookup_insert_ne. vm_compute. discriminate.
    + unfold report_file. rewrite lookup_insert_eq. apply lookup_insert_eq.
    + intros other Hother. rewrite lookup_insert_ne by congruence.
      apply Hfr. exact Hother.
Qed.

Hypothesis answers_ok :
  forall content, answer_ok (call_local_analysis content) = true.

Lemma analyze_step_returns (st : fs) (d : gmap pystr file)
  (acc : list json) (filename : pystr) :
  st !! u "batches" = Some (Dir d) ->
  json_files_hold is_batch d = true ->
  endswith filename (u ".json") = true ->
  exists acc',
    analyze_step call_local_analysis st (u "batches") acc filename = Ok acc'.
Proof.
  intros Hd Hhold Hjson. unfold analyze_step.
  destruct (split_first (u ".") None filename) as (batch_id & ->).
  cbn [bind]. unfold load_json_in. plain_paths. rewrite Hd.
  destruct (d !! filename) as [[|batch_data]|] eqn:Hfile; eauto.
  pose proof (proj1 (json_files_hold_spec _ _) Hhold _ _ Hfile Hjson) as Hb.
  unfold is_batch in Hb. destruct batch_data; try discriminate.
  cbn [py_iter bind].
  destruct (chunk_texts _ Hb) as (texts & ->). cbn [bind].
  destruct (str_join_strings
              ([10; 10]%N ++ u "--- NEXT CHUNK ---" ++ [10; 10]%N) texts)
    as (joined & ->).
  cbn [bind]. specialize (answers_ok joined).
  destruct (call_local_analysis joined) as [[| | | | |[|first more]|]|]; eauto.
  cbn [answer_ok] in answers_ok.
  destruct (map_result_ok
              (fun claim_data =>
                 c <- set_item claim_data (u "batch_id") (JStr batch_id) ;;
                 chunk_count <- py_len (JArr items) ;;
                 set_item c (u "chunk_count") (JInt chunk_count))
              (first :: more)) as (stamped_claims & -> & _); [|cbn [bind]; eauto].
  apply Forall_forall. intros claim Hclaim. apply list_elem_of_In in Hclaim.
  pose proof (proj1 (forallb_forall _ _) answers_ok claim Hclaim) as Hobj.
  destruct claim; try discriminate. cbn. eauto.
Qed.

Lemma analyze_loop_returns (st : fs) (d : gmap pystr file)
  (files : list pystr) :
  st !! u "batches" = Some (Dir d) ->
  json_files_hold is_batch d = true ->
  Forall (fun f => endswith f (u ".json") = true) files ->
  forall acc,
    exists results,
      for_each (analyze_step call_local_analysis st (u "batches")) acc files
      = Ok results.
Proof.
  intros Hd Hhold. induction 1 as [|f rest Hf _ IH]; intros acc;
    cbn [for_each]; [eauto|].
  destruct (analyze_step_returns st d acc f Hd Hhold Hf) as (acc' & ->).
  cbn [bind]. apply IH.
Qed.

(** The claims [analyze_batches] gathers, and what becomes of them: they
    are returned and reported when there is none or their dump succeeds,
    and the error of their dump is raised otherwise. *)
Lemma analyze_batches_outcome (st : fs) :
  dir_holds is_batch st (u "batches") = true ->
  dir_slot_free st (u "analysis_results") = true ->
  exists results,
    Forall (stamped st) results
    /\ (results = [] \/ json_dump (JArr results) = None ->
        exists st',
          analyze_batches call_local_analysis json_dump st
          = Ok (results, st')
          /\ Forall (stamped st') results
          /\ report_file st'
             = (if bool_decide (results = []) then report_file st
                else Some (Parsed (JArr results)))
          /\ (forall other, other <> u "analysis_results" ->
                            st' !! other = st !! other))
    /\ (forall e,
          results <> [] -> json_dump (JArr results) = Some e ->
          analyze_batches call_local_analysis json_dump st = Raise e).
Proof.
  intros Hbatches Hslot. unfold dir_holds in Hbatches.
  destruct (st !! u "batches") as [[f|d]|] eqn:Hd; [discriminate| |].
  2:{ assert (Hrun : analyze_batches call_local_analysis json_dump st
                     = Ok ([], st)).
      { unfold analyze_batches, listdir. plain_paths. rewrite Hd. done. }
      exists []. split; [constructor|]. split; [|intros e He; done].
      intros _. exists st. split; [exact Hrun|].
      exact (analyze_batches_result st st [] Hrun). }
  destruct (makedirs_free st _ plain_analysis_results Hslot)
    as (st1 & a & Hmk & Ha & Hfr & _).
  assert (Hd1 : st1 !! u "batches" = Some (Dir d)).
  { rewrite Hfr by (vm_compute; discriminate). exact Hd. }
  assert (Hfiles : Forall (fun f => endswith f (u ".json") = true)
                          (sorted (json_names (List.map fst (map_to_list d))))).
  { apply Forall_forall. intros f Hf. apply list_elem_of_In in Hf.
    apply sorted_elem, json_names_elem in Hf. tauto. }
  destruct (analyze_loop_returns st1 d _ Hd1 Hbatches Hfiles [])
    as (all & Hloop).
  pose proof (analyze_loop_stamps st1 _ Hfiles [] all Hloop
                ltac:(constructor)) as Hstamped.
  assert (Hrun : analyze_batches call_local_analysis json_dump st
                 = if bool_decide (all = []) then Ok (all, st1)
                   else match json_dump (JArr all) with
                        | Some e => Raise e
                        | None =>
                          Ok (all,
                              <[u "analysis_results" :=
                                  Dir (<[u "combined_analysis_report.json" :=
                                           Parsed (JArr all)]> a)]> st1)
                        end).
  { unfold analyze_batches, listdir. plain_paths. rewrite Hd, Hmk.
    cbn [bind]. rewrite Hloop. cbn [bind].
    case_bool_decide; [reflexivity|].
    unfold write_json. plain_paths. rewrite Ha.
    destruct (json_dump (JArr all)); reflexivity. }
  exists all. split; [|split].
  - eapply Forall_impl; [exact Hstamped|]. intros c. apply stamped_frame.
    symmetry. apply Hfr. vm_compute. discriminate.
  - intros Hcase.
    assert (Hok : exists st',
      analyze_batches call_local_analysis json_dump st = Ok (all, st')).
    { rewrite Hrun. case_bool_decide as Hall; [eauto|].
      destruct Hcase as [Hcase | Hcase]; [contradiction|].
      rewrite Hcase. eauto. }
    destruct Hok as [st' Hok]. exists st'. split; [exact Hok|].
    exact (analyze_batches_result st st' all Hok).
  - intros e Hne He. rewrite Hrun, He.
    rewrite bool_decide_eq_false_2 by exact Hne. reflexivity.
Qed.

End Analysis.

(** [analyze_batches] on well-formed batch files and a model whose lists
    hold dictionaries only.  Every claim it gathers carries the name of a
    readable batch file and that batch's length.  When there is no claim,
    or the dump of the claims succeeds, it returns them, the report file
    holds exactly the returned list when there is a claim and is left as
    it was when there is none, and nothing outside [analysis_results]
    changes.  When the dump of the claims fails, its error is raised to
    the caller. *)
Theorem analyze_batches_stamps_and_reports
  (call_local_analysis : pystr -> option json)
  (json_dump : json -> option exn) (st : fs) :
  (forall content, answer_ok (call_local_analysis content) = true) ->
  dir_holds is_batch st (u "batches") = true ->
  dir_slot_free st (u "analysis_results") = true ->
  exists results,
    Forall (stamped st) results
    /\ (results = [] \/ json_dump (JArr results) = None ->
        exists st',
          analyze_batches call_local_analysis json_dump st
          = Ok (results, st')
          /\ Forall (stamped st') results
          /\ report_file st'
             = (if bool_decide (results = []) then report_file st
                else Some (Parsed (JArr results)))
          /\ (forall other, other <> u "analysis_results" ->
                            st' !! other = st !! other))
    /\ (forall e,
          results <> [] -> json_dump (JArr results) = Some e ->
          analyze_batches call_local_analysis json_dump st = Raise e).
Proof.
  intros Hanswers Hbatches Hslot.
  exact (analyze_batches_outcome call_local_analysis json_dump Hanswers st
           Hbatches Hslot).
Qed.

(** On [pipeline_fs], with a model that returns one claim per batch and a
    dump that fails only on surrogates. *)
Lemma analyze_batches_stamps_and_reports_witness :
  exists results,
    Forall (stamped pipeline_fs) results
    /\ (results = [] \/ utf8_dump (JArr results) = None ->
        exists st',
          analyze_batches example_model utf8_dump pipeline_fs
          = Ok (results, st')
          /\ Forall (stamped st') results
          /\ report_file st'
             = (if bool_decide (results = []) then report_file pipeline_fs
                else Some (Parsed (JArr results)))
          /\ (forall other, other <> u "analysis_results" ->
                            st' !! other = pipeline_fs !! other))
    /\ (forall e,
          results <> [] -> utf8_dump (JArr results) = Some e ->
          analyze_batches example_model utf8_dump pipeline_fs = Raise e).
Proof.
  apply (analyze_batches_stamps_and_reports example_model utf8_dump
           pipeline_fs).
  - intros content. reflexivity.
  - vm_compute. reflexivity.
  - vm_compute. reflexivity.
Defined.

Section NonObjects.

Variable call_local_analysis : pystr -> option json.
Hypothesis answers_hold_a_non_object :
  forall content, exists first more,
    call_local_analysis content = Some (JArr (first :: more))
    /\ is_object first = false.

Variable st : fs.
Variable d : gmap pystr file.
Hypothesis batches_is_d : st !! u "batches" = Some (Dir d).
Hypothesis batch_files_hold_batches : json_files_hold is_batch d = true.

Lemma analyze_step_non_object (acc : list json) (filename : pystr) :
  endswith filename (u ".json") = true ->
  analyze_step call_local_analysis st (u "batches") acc filename
  = match d !! filename with
    | Some (Parsed _) => Raise TypeError
    | _ => Ok acc
    end.
Proof.
  intros Hjson. unfold analyze_step.
  destruct (split_first (u ".") None filename) as (batch_id & ->).
  cbn [bind]. unfold load_json_in. plain_paths. rewrite batches_is_d.
  destruct (d !! filename) as [[|batch_data]|] eqn:Hfile; try reflexivity.
  pose proof (proj1 (json_files_hold_spec _ _) batch_files_hold_batches
                _ _ Hfile Hjson) as Hb.
  unfold is_batch in Hb. destruct batch_data; try discriminate.
  cbn [py_iter bind].
  destruct (chunk_texts _ Hb) as (texts & ->). cbn [bind].
  destruct (str_join_strings
              ([10; 10]%N ++ u "--- NEXT CHUNK ---" ++ [10; 10]%N) texts)
    as (joined & ->).
  cbn [bind].
  destruct (answers_hold_a_non_object joined) as (first & more & -> & Hfirst).
  cbn [map_result]. destruct first; try discriminate; reflexivity.
Qed.

Lemma analyze_loop_non_object (name : pystr) (batch : json) :
  d !! name = Some (Parsed batch) ->
  forall files acc,
    Forall (fun f => endswith f (u ".json") = true) files ->
    In name files ->
    for_each (analyze_step call_local_analysis st (u "batches")) acc files
    = Raise TypeError.
Proof.
  intros Hname files. induction files as [|f rest IH]; intros acc Hfiles Hin.
  - destruct Hin.
  - apply Forall_cons in Hfiles as [Hf Hrest]. cbn [for_each].
    rewrite (analyze_step_non_object acc f Hf).
    destruct (d !! f) as [[|j]|] eqn:Hfile; try reflexivity; cbn [bind];
      (apply IH; [exact Hrest|]);
      (destruct Hin as [-> | Hin]; [congruence|exact Hin]).
Qed.

End NonObjects.

(** A model that answers with lists whose first item is not a dictionary
    (numbers, strings, lists) makes [analyze_batches] raise [TypeError] at
    [claim_data['batch_id'] = batch_id], as soon as one batch file is
    readable: the exception reaches the caller and no report is
    written. *)
Theorem non_object_answer_raises (call_local_analysis : pystr -> option json)
  (json_dump : json -> option exn) (st : fs) (d : gmap pystr file) (name : pystr) (batch : json) :
  (forall content, exists first more,
      call_local_analysis content = Some (JArr (first :: more))
      /\ is_object first = false) ->
  dir_slot_free st (u "analysis_results") = true ->
  st !! u "batches" = Some (Dir d) ->
  json_files_hold is_batch d = true ->
  d !! name = Some (Parsed batch) ->
  endswith name (u ".json") = true ->
  analyze_batches call_local_analysis json_dump st = Raise TypeError.
Proof.
  intros Hanswers Hslot Hd Hhold Hname Hjson.
  unfold analyze_batches, listdir. plain_paths. rewrite Hd.
  destruct (makedirs_free st _ plain_analysis_results Hslot) as (st1 & a & -> & Ha & Hfr & _).
  cbn [bind].
  assert (Hd1 : st1 !! u "batches" = Some (Dir d)).
  { rewrite Hfr by (vm_compute; discriminate). exact Hd. }
  rewrite (analyze_loop_non_object call_local_analysis Hanswers st1 d Hd1 Hhold
             name batch Hname); [reflexivity| |].
  - apply Forall_forall. intros f Hf. apply list_elem_of_In in Hf.
    apply sorted_elem, json_names_elem in Hf. tauto.
  - apply sorted_elem, json_names_elem. split; [|exact Hjson].
    apply in_map_iff. exists (name, Parsed batch). split; [reflexivity|].
    apply list_elem_of_In, elem_of_map_to_list. exact Hname.
Qed.

(** On [pipeline_fs], with a model that returns a list of numbers. *)
Lemma non_object_answer_raises_witness :
  analyze_batches numbers_model utf8_dump pipeline_fs = Raise TypeError.
Proof.
  apply (non_object_answer_raises numbers_model utf8_dump pipeline_fs
           {[ u "batch_07.json" := Parsed (JArr [example_chunk "old"]) ]}
           (u "batch_07.json") (JArr [example_chunk "old"])).
  - intros content. exists (JInt 1), [JInt 2; JInt 3]. split; reflexivity.
  - vm_compute. reflexivity.
  - vm_compute. reflexivity.
  - vm_compute. reflexivity.
  - vm_compute. reflexivity.
  - vm_compute. reflexivity.
Defined.

(** ** The chunk files the chunker writes *)

Lemma chunk_filename_inj (a b : Z) :
  (0 <= a)%Z -> (0 <= b)%Z -> chunk_filename a = chunk_filename b -> a = b.
Proof.
  unfold chunk_filename. intros Ha Hb E.
  apply app_inv_head, app_inv_tail in E.
  apply format_d_inj in E; lia.
Qed.

Lemma chunk_filename_json (i : Z) :
  endswith (chunk_filename i) (u ".json") = true.
Proof. unfold chunk_filename. rewrite app_assoc. apply endswith_app. Qed.

Section ChunkFiles.

Variable model_dump : document -> json.
Variable json_dump : json -> option exn.

Lemma write_chunks_files (docs : list document) :
  Forall (fun doc => json_dump (model_dump doc) = None) docs ->
  forall (i : Z) (st : fs) (d : gmap pystr file),
    (0 <= i)%Z ->
    st !! u "chunks" = Some (Dir d) ->
    exists d',
      write_chunks model_dump json_dump st (u "chunks") i docs
      = Ok (<[u "chunks" := Dir d']> st)
      /\ (forall (j : nat) doc,
             docs !! j = Some doc ->
             d' !! chunk_filename (i + Z.of_nat j)
             = Some (Parsed (model_dump doc)))
      /\ (forall name,
             (exists j : nat, (j < length docs)%nat
                              /\ name = chunk_filename (i + Z.of_nat j))
             \/ d' !! name = d !! name).
Proof.
  induction 1 as [|doc rest Hdoc _ IH]; intros i st d Hi Hd;
    cbn [write_chunks].
  - exists d. split; [|split].
    + rewrite insert_id by exact Hd. reflexivity.
    + intros j doc Hj. discriminate.
    + right. reflexivity.
  - unfold write_json. plain_paths. rewrite Hd, Hdoc. cbn [bind].
    set (d1 := <[chunk_filename i := Parsed (model_dump doc)]> d).
    destruct (IH (i + 1)%Z (<[u "chunks" := Dir d1]> st) d1)
      as (d' & Hrun & Hnew & Hold); [lia|apply lookup_insert_eq|].
    exists d'. split; [|split].
    + rewrite Hrun, insert_insert_eq. reflexivity.
    + intros [|j] doc' Hj.
      * injection Hj as <-. rewrite Z.add_0_r.
        destruct (Hold (chunk_filename i)) as [(j & _ & E) | ->].
        -- apply chunk_filename_inj in E; lia.
        -- subst d1. apply lookup_insert_eq.
      * replace (i + Z.of_nat (S j))%Z with (i + 1 + Z.of_nat j)%Z by lia.
        apply Hnew. exact Hj.
    + intros name. destruct (Hold name) as [(j & Hj & ->) | Hsame].
      * left. exists (S j). split; [simpl; lia|]. f_equal. lia.
      * destruct (decide (name = chunk_filename i)) as [->|Hne].
        -- left. exists 0%nat. split; [simpl; lia|]. f_equal. lia.
        -- right. rewrite Hsame. subst d1. apply lookup_insert_ne. congruence.
Qed.

End ChunkFiles.

Lemma process_and_chunk_files (py_str : json -> pystr)
  (RecursiveCharacterTextSplitter :
     Z -> Z -> list pystr -> result (list document -> list document))
  (model_dump : document -> json) (json_dump : json -> option exn)
  (st : fs) (input_file_path : pystr) (chunk_size chunk_overlap : Z)
  (text_splitter : list document -> list document) :
  path_exists st input_file_path = Ok true ->
  posts_file_ok st input_file_path = true ->
  dir_slot_free st (u "chunks") = true ->
  RecursiveCharacterTextSplitter chunk_size chunk_overlap separators
  = Ok text_splitter ->
  (forall chunked,
      split_posts py_str RecursiveCharacterTextSplitter st input_file_path
        chunk_size chunk_overlap = Ok chunked ->
      Forall (fun doc => json_dump (model_dump doc) = None) chunked) ->
  exists posts documents st' d',
    st !! input_file_path = Some (File (Parsed (JArr posts)))
    /\ map_result (post_document py_str) posts = Ok documents
    /\ length documents = length posts
    /\ process_and_chunk_reddit_data py_str RecursiveCharacterTextSplitter
         model_dump json_dump st input_file_path chunk_size chunk_overlap
       = Ok (Z.of_nat
               (length (text_splitter documents)),
             st')
    /\ st' !! u "chunks" = Some (Dir d')
    /\ (forall (i : nat) chunk,
           text_splitter documents !! i
           = Some chunk ->
           d' !! chunk_filename (Z.of_nat i)
           = Some (Parsed (model_dump chunk)))
    /\ (forall name,
           endswith name (u ".json") = true ->
           is_Some (d' !! name) ->
           exists i : nat,
             (i < length (text_splitter documents))%nat
             /\ name = chunk_filename (Z.of_nat i))
    /\ (forall name,
           endswith name (u ".json") = false ->
           d' !! name = chunks_dir st !! name)
    /\ (forall other, other <> u "chunks" -> st' !! other = st !! other).
Proof.
  intros Hexists Hinput Hslot Hsplitter Hdumps.
  unfold process_and_chunk_reddit_data. rewrite Hexists. cbn [bind negb].
  assert (Hplain : plain_name input_file_path = true).
  { unfold path_exists, entry_at in Hexists.
    destruct (plain_name input_file_path); [reflexivity|discriminate]. }
  unfold path_exists in Hexists.
  rewrite entry_at_plain in Hexists by exact Hplain.
  cbn [bind] in Hexists. injection Hexists as Hexists.
  apply bool_decide_eq_true_1 in Hexists.
  unfold posts_file_ok in Hinput.
  destruct (st !! input_file_path) as [[[|[]]|]|] eqn:Hin; try discriminate.
  2:{ destruct Hexists; discriminate. }
  destruct (split_posts_ok py_str RecursiveCharacterTextSplitter st
              input_file_path chunk_size chunk_overlap items text_splitter
              Hplain Hin Hinput Hsplitter)
    as (documents & Hdocs & Hlen & Hsplit).
  rewrite Hsplit. cbn [bind].
  destruct (makedirs_free st _ plain_chunks Hslot)
    as (st1 & d0 & -> & Hd0 & Hfr1 & Hwas).
  cbn [bind]. unfold clean_dir. plain_paths. rewrite Hd0. cbn [bind].
  set (chunked := text_splitter documents) in *.
  destruct (write_chunks_files model_dump json_dump chunked
              (Hdumps _ Hsplit) 0
              (<[u "chunks" := Dir (remove_json_files d0)]> st1)
              (remove_json_files d0))
    as (d' & -> & Hnew & Hold); [lia|apply lookup_insert_eq|].
  cbn [bind]. rewrite insert_insert_eq.
  assert (Hd0' : d0 = chunks_dir st).
  { unfold chunks_dir. destruct Hwas as [-> | [-> ->]]; reflexivity. }
  exists items, documents, (<[u "chunks" := Dir d']> st1), d'.
  split; [reflexivity|]. split; [exact Hdocs|]. split; [exact Hlen|].
  split; [reflexivity|]. split; [apply lookup_insert_eq|].
  split; [|split; [|split]].
  - intros i chunk Hi. exact (Hnew i chunk Hi).
  - intros name Hjson Hsome.
    destruct (Hold name) as [(j & Hj & E) | Hsame].
    + exists j. split; [exact Hj|exact E].
    + rewrite Hsame, remove_json_files_lookup, Hjson in Hsome.
      destruct Hsome; discriminate.
  - intros name Hjson.
    destruct (Hold name) as [(j & _ & E) | ->].
    + subst name. rewrite chunk_filename_json in Hjson. discriminate.
    + rewrite remove_json_files_lookup, Hjson, Hd0'. reflexivity.
  - intros other Hother. rewrite lookup_insert_ne by congruence.
    apply Hfr1. exact Hother.
Qed.

(** The chunker on an input file of post records: it makes one document
    per post, hands them to the splitter, and leaves in [chunks] exactly
    the files [chunk_0001.json], [chunk_0002.json], ... of the chunks the
    splitter returned, in that order, each holding the dump of its chunk;
    no other [.json] file remains there, the other files of [chunks] and
    everything outside [chunks] are as before, and the count returned is
    the number of chunks. *)
Theorem chunker_writes_numbered_chunk_files (py_str : json -> pystr)
  (RecursiveCharacterTextSplitter :
     Z -> Z -> list pystr -> result (list document -> list document))
  (model_dump : document -> json) (json_dump : json -> option exn)
  (st : fs) (input_file_path : pystr) (chunk_size chunk_overlap : Z)
  (text_splitter : list document -> list document) :
  path_exists st input_file_path = Ok true ->
  posts_file_ok st input_file_path = true ->
  dir_slot_free st (u "chunks") = true ->
  RecursiveCharacterTextSplitter chunk_size chunk_overlap separators
  = Ok text_splitter ->
  (forall chunked,
      split_posts py_str RecursiveCharacterTextSplitter st input_file_path
        chunk_size chunk_overlap = Ok chunked ->
      Forall (fun doc => json_dump (model_dump doc) = None) chunked) ->
  exists posts documents st',
    st !! input_file_path = Some (File (Parsed (JArr posts)))
    /\ map_result (post_document py_str) posts = Ok documents
    /\ length documents = length posts
    /\ process_and_chunk_reddit_data py_str RecursiveCharacterTextSplitter
         model_dump json_dump st input_file_path chunk_size chunk_overlap
       = Ok (Z.of_nat
               (length (text_splitter documents)),
             st')
    /\ (forall (i : nat) chunk,
           text_splitter documents !! i
           = Some chunk ->
           chunks_dir st' !! chunk_filename (Z.of_nat i)
           = Some (Parsed (model_dump chunk)))
    /\ (forall name,
           endswith name (u ".json") = true ->
           is_Some (chunks_dir st' !! name) ->
           exists i : nat,
             (i < length (text_splitter documents))%nat
             /\ name = chunk_filename (Z.of_nat i))
    /\ (forall name,
           endswith name (u ".json") = false ->
           chunks_dir st' !! name = chunks_dir st !! name)
    /\ (forall other, other <> u "chunks" -> st' !! other = st !! other).
Proof.
  intros Hexists Hinput Hslot Hsplitter Hdumps.
  destruct (process_and_chunk_files py_str RecursiveCharacterTextSplitter
              model_dump json_dump st input_file_path chunk_size
              chunk_overlap text_splitter Hexists Hinput Hslot Hsplitter
              Hdumps)
    as (posts & documents & st' & d' & Hin & Hdocs & Hlen & Hrun & Hd'
        & Hnew & Honly & Hkept & Hframe).
  exists posts, documents, st'.
  assert (Hdir : chunks_dir st' = d')
    by (unfold chunks_dir; rewrite Hd'; reflexivity).
  rewrite Hdir. auto 10.
Qed.

(** The chunker on [pipeline_fs], with a splitter that returns the
    documents whole, the fallback dump and a dump that fails only on
    surrogates. *)
Lemma chunker_writes_numbered_chunk_files_witness :
  exists posts documents st',
    pipeline_fs !! u "reddit_search_output.json"
    = Some (File (Parsed (JArr posts)))
    /\ map_result (post_document (fun _ => [])) posts = Ok documents
    /\ length documents = length posts
    /\ process_and_chunk_reddit_data (fun _ => []) WholeDocumentSplitter
         dict_dump utf8_dump pipeline_fs (u "reddit_search_output.json")
         2000 200
       = Ok (Z.of_nat (length documents), st')
    /\ (forall (i : nat) chunk,
           documents !! i = Some chunk ->
           chunks_dir st' !! chunk_filename (Z.of_nat i)
           = Some (Parsed (dict_dump chunk)))
    /\ (forall name,
           endswith name (u ".json") = true ->
           is_Some (chunks_dir st' !! name) ->
           exists i : nat,
             (i < length documents)%nat /\ name = chunk_filename (Z.of_nat i))
    /\ (forall name,
           endswith name (u ".json") = false ->
           chunks_dir st' !! name = chunks_dir pipeline_fs !! name)
    /\ (forall other, other <> u "chunks" ->
                      st' !! other = pipeline_fs !! other).
Proof.
  apply (chunker_writes_numbered_chunk_files (fun _ => [])
           WholeDocumentSplitter dict_dump utf8_dump pipeline_fs
           (u "reddit_search_output.json") 2000 200 (fun docs => docs)).
  - vm_compute. reflexivity.
  - vm_compute. reflexivity.
  - vm_compute. reflexivity.
  - reflexivity.
  - intros chunked Hsplit.
    apply (utf8_split_posts_dump (fun _ => []) WholeDocumentSplitter
             dict_dump pipeline_fs (u "reddit_search_output.json") 2000 200
             ltac:(vm_compute; reflexivity) chunked Hsplit).
Defined.

(** ** Input that parses and is not a list of post records *)

Lemma load_json_ok (st : fs) (path : pystr) (j : json) :
  load_json st path = Ok j ->
  plain_name path = true /\ st !! path = Some (File (Parsed j)).
Proof.
  unfold load_json, entry_at.
  destruct (plain_name path); [|discriminate]. cbn [bind].
  destruct (st !! path) as [[[|j']|]|]; try discriminate.
  intros [= ->]. done.
Qed.

Lemma wrong_shape_chunker (py_str : json -> pystr)
  (RecursiveCharacterTextSplitter :
     Z -> Z -> list pystr -> result (list document -> list document))
  (model_dump : document -> json) (json_dump : json -> option exn)
  (st : fs) (input_file_path : pystr) (chunk_size chunk_overlap : Z)
  (all_posts_data : json) :
  load_json st input_file_path = Ok all_posts_data ->
  (forall e, py_iter all_posts_data = Raise e ->
             process_and_chunk_reddit_data py_str
               RecursiveCharacterTextSplitter model_dump json_dump
               st input_file_path chunk_size chunk_overlap = Raise e)
  /\ (forall first rest,
         py_iter all_posts_data = Ok (first :: rest) ->
         is_object first = false ->
         process_and_chunk_reddit_data py_str
           RecursiveCharacterTextSplitter model_dump json_dump
           st input_file_path chunk_size chunk_overlap = Raise AttributeError).
Proof.
  intros Hload. destruct (load_json_ok _ _ _ Hload) as [Hplain Hin].
  unfold process_and_chunk_reddit_data, path_exists, split_posts.
  rewrite Hload. plain_paths.
  rewrite Hin. rewrite bool_decide_eq_true_2 by eauto. cbn [negb bind].
  split.
  - intros e ->. reflexivity.
  - intros first rest -> Hfirst. cbn [bind map_result].
    destruct first; try discriminate; reflexivity.
Qed.

(** An input file that parses but is not a list of dictionaries makes the
    pipeline raise: [TypeError] when the value cannot be iterated (a
    number, a boolean, null), [AttributeError] at [post.get] when the
    first item the loop visits is not a dictionary, which is the case of a
    dictionary with a key (the loop visits its keys), of a non-empty
    string and of a list that starts with something else than a
    dictionary. *)
Theorem wrong_shape_input_raises (py_str : json -> pystr)
  (RecursiveCharacterTextSplitter :
     Z -> Z -> list pystr -> result (list document -> list document))
  (model_dump : document -> json) (call_local_analysis : pystr -> option json)
  (json_dump : json -> option exn)
  (st : fs) (input_file : pystr) (all_posts_data : json) :
  load_json st input_file = Ok all_posts_data ->
  (forall e, py_iter all_posts_data = Raise e ->
             e = TypeError
             /\ run_full_analysis_pipeline py_str
                  RecursiveCharacterTextSplitter model_dump
                  call_local_analysis json_dump st input_file = Raise e)
  /\ (forall first rest,
         py_iter all_posts_data = Ok (first :: rest) ->
         is_object first = false ->
         run_full_analysis_pipeline py_str RecursiveCharacterTextSplitter
           model_dump call_local_analysis json_dump st input_file
         = Raise AttributeError).
Proof.
  intros Hin.
  destruct (wrong_shape_chunker py_str RecursiveCharacterTextSplitter
              model_dump json_dump st input_file 2000 200 all_posts_data Hin)
    as [Hiter Hfirst].
  unfold run_full_analysis_pipeline. split.
  - intros e He. split.
    + destruct all_posts_data; cbn in He; congruence.
    + rewrite (Hiter e He). reflexivity.
  - intros first rest Hitems Hobj. rewrite (Hfirst first rest Hitems Hobj).
    reflexivity.
Qed.

(** The pipeline on an input file that wraps the list of posts in a
    dictionary: the loop visits the key. *)
Lemma wrong_shape_input_raises_witness :
  run_full_analysis_pipeline (fun _ => []) WholeDocumentSplitter dict_dump
    (fun _ => None) utf8_dump wrapped_input_fs
    (u "reddit_search_output.json")
  = Raise AttributeError.
Proof.
  apply (proj2 (wrong_shape_input_raises (fun _ => []) WholeDocumentSplitter
                  dict_dump (fun _ => None) utf8_dump wrapped_input_fs
                  (u "reddit_search_output.json")
                  (JObj [ (u "data", JArr [trailing_r_post]) ])
                  ltac:(vm_compute; reflexivity))
           (JStr (u "data")) []).
  - reflexivity.
  - reflexivity.
Defined.

(** ** A chunk file that parses but is not a chunk *)

Lemma estimate_raises (chunk_data : json) (e : exn) :
  estimate_char_length chunk_data = Raise e ->
  e = AttributeError \/ e = TypeError.
Proof.
  unfold estimate_char_length.
  destruct chunk_data; cbn [dict_get bind]; try (intros [= <-]; auto).
  destruct (default (JStr []) (assoc (u "page_content") items));
    cbn [py_len]; intros [= <-]; auto.
Qed.

Section UnusableChunk.

Variable chunks_dir_path : pystr.
Variable max_batch_chars : Z.
Variable dc : gmap pystr file.
Variable name : pystr.
Variable chunk_data : json.
Variable e0 : exn.
Variable json_dump : json -> option exn.

Hypothesis chunks_dir_not_batches : chunks_dir_path <> u "batches".
Hypothesis chunks_dir_plain : plain_name chunks_dir_path = true.
Hypothesis name_holds_chunk_data : dc !! name = Some (Parsed chunk_data).
Hypothesis estimate_fails : estimate_char_length chunk_data = Raise e0.

Lemma batch_step_unusable (b : batcher) (st : fs) (f : pystr) :
  st !! chunks_dir_path = Some (Dir dc) ->
  (exists db, st !! u "batches" = Some (Dir db)) ->
  (exists e,
      batch_step json_dump chunks_dir_path (u "batches") max_batch_chars
                 (b, st) f
      = Raise e
      /\ (e = AttributeError \/ e = TypeError
          \/ exists j, json_dump j = Some e))
  \/ (exists b' st',
         batch_step json_dump chunks_dir_path (u "batches") max_batch_chars
                    (b, st) f
         = Ok (b', st')
         /\ st' !! chunks_dir_path = Some (Dir dc)
         /\ (exists db, st' !! u "batches" = Some (Dir db))
         /\ f <> name).
Proof.
  intros Hdc [db Hdb]. unfold batch_step, load_json_in. plain_paths.
  rewrite Hdc.
  destruct (dc !! f) as [[|j]|] eqn:Hf.
  - right. exists b, st. repeat split; eauto. congruence.
  - destruct (estimate_char_length j) as [n|e] eqn:Hest.
    + cbn [bind].
      assert (Hne : f <> name) by congruence.
      destruct ((current_batch_size_chars b + n >? max_batch_chars)%Z
                && negb (bool_decide (current_batch_content b = []))).
      * unfold save_batch, write_json. plain_paths. rewrite Hdb.
        destruct (json_dump (JArr (current_batch_content b))) as [e|] eqn:He.
        -- left. exists e. split; [reflexivity|]. eauto.
        -- right. cbn [bind].
           eexists _, _. split; [reflexivity|]. split; [|split; [|exact Hne]].
           ++ rewrite lookup_insert_ne by congruence. exact Hdc.
           ++ eexists. apply lookup_insert_eq.
      * right. eexists _, _. split; [reflexivity|]. eauto.
    + left. exists e. split; [reflexivity|].
      destruct (estimate_raises j e Hest); auto.
  - right. exists b, st. repeat split; eauto. congruence.
Qed.

Lemma batch_loop_unusable (files : list pystr) :
  forall (b : batcher) (st : fs),
    st !! chunks_dir_path = Some (Dir dc) ->
    (exists db, st !! u "batches" = Some (Dir db)) ->
    In name files ->
    exists e,
      for_each (batch_step json_dump chunks_dir_path (u "batches")
                           max_batch_chars)
               (b, st) files = Raise e
      /\ (e = AttributeError \/ e = TypeError
          \/ exists j, json_dump j = Some e).
Proof.
  induction files as [|f rest IH]; intros b st Hdc Hdb Hin; [destruct Hin|].
  cbn [for_each].
  destruct (batch_step_unusable b st f Hdc Hdb)
    as [(e & -> & He) | (b' & st' & -> & Hdc' & Hdb' & Hne)].
  - exists e. split; [reflexivity|exact He].
  - cbn [bind]. apply IH; [exact Hdc'|exact Hdb'|].
    destruct Hin as [-> | Hin]; [congruence|exact Hin].
Qed.

End UnusableChunk.

(** Only a chunk file that does not parse is skipped.  A [.json] file of
    the chunk directory that parses to something [estimate_char_length]
    cannot measure (a list, a number, a dictionary whose [page_content] is
    a number) makes [create_batches] raise to its caller:
    [AttributeError] or [TypeError] from the estimate, unless the dump of
    an earlier batch has failed before, with its own error. *)
Theorem unusable_chunk_file_raises (json_dump : json -> option exn)
  (st : fs) (chunks_dir_path : pystr)
  (max_batch_chars : Z) (dc : gmap pystr file) (name : pystr)
  (chunk_data : json) (e0 : exn) :
  plain_name chunks_dir_path = true ->
  chunks_dir_path <> u "batches" ->
  dir_slot_free st (u "batches") = true ->
  st !! chunks_dir_path = Some (Dir dc) ->
  dc !! name = Some (Parsed chunk_data) ->
  endswith name (u ".json") = true ->
  estimate_char_length chunk_data = Raise e0 ->
  exists e,
    create_batches json_dump st chunks_dir_path max_batch_chars = Raise e
    /\ (e = AttributeError \/ e = TypeError
        \/ exists j, json_dump j = Some e).
Proof.
  intros Hplain Hne Hslot Hdc Hname Hjson Hest.
  unfold create_batches, listdir. plain_paths. rewrite Hdc.
  destruct (makedirs_free st _ plain_batches Hslot)
    as (st1 & d0 & -> & Hd0 & Hfr & _).
  cbn [bind]. unfold clean_dir. plain_paths. rewrite Hd0. cbn [bind].
  destruct (batch_loop_unusable chunks_dir_path max_batch_chars dc name
              chunk_data e0 json_dump Hne Hplain Hname Hest
              (sorted (json_names (List.map fst (map_to_list dc))))
              (Batcher [] 0 1)
              (<[u "batches" := Dir (remove_json_files d0)]> st1))
    as (e & -> & He).
  - rewrite lookup_insert_ne by congruence. rewrite Hfr by exact Hne.
    exact Hdc.
  - eexists. apply lookup_insert_eq.
  - apply sorted_elem, json_names_elem. split; [|exact Hjson].
    apply in_map_iff. exists (name, Parsed chunk_data). split; [reflexivity|].
    apply list_elem_of_In, elem_of_map_to_list. exact Hname.
  - exists e. split; [reflexivity|exact He].
Qed.

(** [create_batches] on a chunk directory whose second file holds a
    list, with a dump that fails only on surrogates. *)
Lemma unusable_chunk_file_raises_witness :
  exists e,
    create_batches utf8_dump list_chunk_fs (u "chunks") MAX_BATCH_CHARS
    = Raise e
    /\ (e = AttributeError \/ e = TypeError
        \/ exists j, utf8_dump j = Some e).
Proof.
  apply (unusable_chunk_file_raises utf8_dump list_chunk_fs (u "chunks")
           MAX_BATCH_CHARS
           (list_to_map
              [ (u "chunk_0001.json", Parsed (example_chunk "aaaa"));
                (u "chunk_0002.json", Parsed (JArr [example_chunk "bb"])) ])
           (u "chunk_0002.json") (JArr [example_chunk "bb"]) AttributeError).
  - vm_compute. reflexivity.
  - vm_compute. discriminate.
  - vm_compute. reflexivity.
  - vm_compute. reflexivity.
  - vm_compute. reflexivity.
  - vm_compute. reflexivity.
  - vm_compute. reflexivity.
Defined.

(** ** The order in which the batcher reads the chunker's files *)

Lemma str_leb_trans (a b c : pystr) :
  str_leb a b = true -> str_leb b c = true -> str_leb a c = true.
Proof.
  revert b c. induction a as [|x a IH]; intros [|y b] [|z c]; simpl; try done.
  rewrite !orb_true_iff, !andb_true_iff, !N.ltb_lt, !N.eqb_eq.
  intros [Hxy | [-> Hab]] [Hyz | [-> Hbc]]; try (left; lia).
  right. split; [reflexivity|]. exact (IH b c Hab Hbc).
Qed.

Lemma str_leb_antisym (a b : pystr) :
  str_leb a b = true -> str_leb b a = true -> a = b.
Proof.
  revert b. induction a as [|x a IH]; intros [|y b]; simpl; try done.
  rewrite !orb_true_iff, !andb_true_iff, !N.ltb_lt, !N.eqb_eq.
  intros [Hxy | [-> Hab]] [Hyx | [Heq Hba]]; try lia.
  f_equal. exact (IH b Hab Hba).
Qed.

Lemma sorted_unique (names target : list pystr) :
  Sorted (fun a b => Is_true (str_leb a b)) target ->
  names ≡ₚ target ->
  sorted names = target.
Proof.
  intros Htarget Hperm.
  assert (Htrans : Transitive (fun a b => Is_true (str_leb a b))).
  { intros a b c Hab Hbc. apply Is_true_true.
    apply Is_true_true in Hab, Hbc. exact (str_leb_trans a b c Hab Hbc). }
  assert (Hanti : AntiSymm (=) (fun a b => Is_true (str_leb a b))).
  { intros a b Hab Hba. apply Is_true_true in Hab, Hba.
    exact (str_leb_antisym a b Hab Hba). }
  apply (Sorted_unique (fun a b => Is_true (str_leb a b))).
  - apply sorted_ascending.
  - exact Htarget.
  - etransitivity; [apply sorted_ascending|exact Hperm].
Qed.

Lemma sorted_map_seq {A} (R : A -> A -> Prop) (f : nat -> A) (n : nat) :
  forall k,
    (forall i, (k <= i)%nat -> (S i < k + n)%nat -> R (f i) (f (S i))) ->
    Sorted R (List.map f (seq k n)).
Proof.
  induction n as [|n IH]; intros k Hadj; simpl; constructor.
  - apply IH. intros i Hi Hlt. apply Hadj; lia.
  - destruct n; simpl; constructor. apply Hadj; lia.
Qed.

(** Up to chunk_9999.json the names ascend with the index. *)
Lemma chunk_filenames_ascend (i : nat) :
  (Z.of_nat i + 2 <= 9999)%Z ->
  str_leb (chunk_filename (Z.of_nat i)) (chunk_filename (Z.of_nat (S i))) = true.
Proof.
  intros Hi.
  assert (Hall : forallb
            (fun i => str_leb (chunk_filename (Z.of_nat i))
                              (chunk_filename (Z.of_nat (S i))))
            (seq 0 (Z.to_nat 9998)) = true) by (vm_compute; reflexivity).
  apply (proj1 (forallb_forall _ _) Hall i). apply in_seq. lia.
Qed.

(** From chunk_10000.json on they do not: that name sorts before
    chunk_1001.json. *)
Example chunk_filenames_past_9999 :
  chunk_filename 9999 = u "chunk_10000.json"
  /\ str_leb (chunk_filename 9999) (chunk_filename 1000) = true
  /\ str_leb (chunk_filename 1000) (chunk_filename 9999) = false.
Proof. vm_compute. auto. Qed.

Lemma omap_chunk_files (model_dump : document -> json) (d : gmap pystr file)
  (chunks : list document) :
  forall k : nat,
    (forall (j : nat) chunk,
        chunks !! j = Some chunk ->
        d !! chunk_filename (Z.of_nat (k + j))
        = Some (Parsed (model_dump chunk))) ->
    omap (fun name => match d !! name with
                      | Some (Parsed j) => Some j
                      | _ => None
                      end)
         (List.map (fun i => chunk_filename (Z.of_nat i))
                   (seq k (length chunks)))
    = List.map model_dump chunks.
Proof.
  induction chunks as [|chunk rest IH]; intros k Hfiles; [reflexivity|].
  cbn [length seq List.map omap list_omap].
  pose proof (Hfiles 0%nat chunk eq_refl) as Hk. rewrite Nat.add_0_r in Hk.
  rewrite Hk. f_equal. apply IH. intros j c Hj.
  replace (S k + j)%nat with (k + S j)%nat by lia. apply Hfiles. exact Hj.
Qed.

Lemma chunk_names_listed (d : gmap pystr file) (n : nat) :
  (forall i : nat, (i < n)%nat ->
                   is_Some (d !! chunk_filename (Z.of_nat i))) ->
  (forall name,
      endswith name (u ".json") = true ->
      is_Some (d !! name) ->
      exists i : nat, (i < n)%nat /\ name = chunk_filename (Z.of_nat i)) ->
  json_names (List.map fst (map_to_list d))
  ≡ₚ List.map (fun i => chunk_filename (Z.of_nat i)) (seq 0 n).
Proof.
  intros Hnew Honly. apply NoDup_Permutation.
  - unfold json_names. apply NoDup_ListNoDup, List.NoDup_filter.
    apply NoDup_ListNoDup, NoDup_fst_map_to_list.
  - apply NoDup_ListNoDup.
    apply Finite.Injective_map_NoDup; [|apply List.seq_NoDup].
    intros i j E. apply chunk_filename_inj in E; lia.
  - intros name. rewrite !list_elem_of_In, json_names_elem. split.
    + intros [Hin Hjson]. apply in_map_iff in Hin as [[nm f] [E Hin]].
      simpl in E. subst nm.
      apply list_elem_of_In, elem_of_map_to_list in Hin.
      destruct (Honly name Hjson ltac:(eauto)) as (i & Hi & ->).
      apply in_map_iff. exists i. split; [reflexivity|]. apply in_seq. lia.
    + intros Hin. apply in_map_iff in Hin as (i & <- & Hi).
      apply in_seq in Hi. split; [|apply chunk_filename_json].
      destruct (Hnew i ltac:(lia)) as [f Hf].
      apply in_map_iff. exists (chunk_filename (Z.of_nat i), f).
      split; [reflexivity|].
      apply list_elem_of_In, elem_of_map_to_list. exact Hf.
Qed.

(** The chunker followed by the batcher. With at most 9999 chunks, the
    batcher reads the chunk files in the splitter's order, so the batch
    files, concatenated, hold the dumps of the splitter's chunks in that
    order: nothing is lost, duplicated or reordered between the two
    stages. (With more chunks the file names no longer sort in numeric
    order.) *)
Theorem chunks_are_batched_in_splitter_order (py_str : json -> pystr)
  (RecursiveCharacterTextSplitter :
     Z -> Z -> list pystr -> result (list document -> list document))
  (model_dump : document -> json) (json_dump : json -> option exn)
  (st : fs) (input_file_path : pystr) (chunk_size chunk_overlap : Z)
  (max_batch_chars : Z) (text_splitter : list document -> list document) :
  (forall d, is_chunk (model_dump d) = true) ->
  path_exists st input_file_path = Ok true ->
  posts_file_ok st input_file_path = true ->
  dir_slot_free st (u "chunks") = true ->
  dir_slot_free st (u "batches") = true ->
  RecursiveCharacterTextSplitter chunk_size chunk_overlap separators
  = Ok text_splitter ->
  (forall chunked,
      split_posts py_str RecursiveCharacterTextSplitter st input_file_path
        chunk_size chunk_overlap = Ok chunked ->
      run_dumps json_dump model_dump chunked) ->
  exists posts documents st1,
    st !! input_file_path = Some (File (Parsed (JArr posts)))
    /\ map_result (post_document py_str) posts = Ok documents
    /\ process_and_chunk_reddit_data py_str RecursiveCharacterTextSplitter
         model_dump json_dump st input_file_path chunk_size chunk_overlap
       = Ok (Z.of_nat
               (length (text_splitter documents)),
             st1)
    /\ ((Z.of_nat (length (text_splitter documents))
         <= 9999)%Z ->
        readable_chunks st1 (u "chunks")
        = List.map model_dump
            (text_splitter documents)
        /\ exists batches st2,
             create_batches json_dump st1 (u "chunks") max_batch_chars
             = Ok (Z.of_nat (length batches), st2)
             /\ batch_files st2 (length batches)
                = List.map (fun b => Some (Parsed (JArr b))) batches
             /\ concat batches
                = List.map model_dump
                    (text_splitter documents)).
Proof.
  intros Hdump Hexists Hinput Hchunks Hbatches Hsplitter Hdumps.
  assert (Hplain : plain_name input_file_path = true).
  { unfold path_exists, entry_at in Hexists.
    destruct (plain_name input_file_path); [reflexivity|discriminate]. }
  destruct (process_and_chunk_files py_str RecursiveCharacterTextSplitter
              model_dump json_dump st input_file_path chunk_size
              chunk_overlap text_splitter Hexists Hinput Hchunks Hsplitter)
    as (posts & documents & st1 & d' & Hin & Hdocs & _ & Hrun & Hd'
        & Hnew & Honly & _ & Hframe).
  { intros chunked Hsplit. apply (Hdumps chunked Hsplit). }
  assert (Hsplit : split_posts py_str RecursiveCharacterTextSplitter st
                     input_file_path chunk_size chunk_overlap
                   = Ok (text_splitter documents)).
  { unfold split_posts, load_json. plain_paths. rewrite Hin.
    cbn [bind py_iter]. rewrite Hdocs. cbn [bind]. rewrite Hsplitter.
    reflexivity. }
  set (chunked := text_splitter documents) in *.
  exists posts, documents, st1.
  split; [exact Hin|]. split; [exact Hdocs|]. split; [exact Hrun|].
  intros Hfew. fold chunked in Hfew.
  assert (Hread : readable_chunks st1 (u "chunks")
                  = List.map model_dump chunked).
  { unfold readable_chunks. rewrite Hd'.
    rewrite (sorted_unique _
               (List.map (fun i => chunk_filename (Z.of_nat i))
                         (seq 0 (length chunked)))).
    - apply omap_chunk_files. exact Hnew.
    - apply sorted_map_seq. intros i _ Hi. apply Is_true_true.
      apply chunk_filenames_ascend. lia.
    - apply chunk_names_listed; [|exact Honly].
      intros i Hi. destruct (lookup_lt_is_Some_2 chunked i Hi) as [c Hc].
      rewrite (Hnew i c Hc). eauto. }
  split; [exact Hread|].
  destruct (create_batches_run json_dump st1 (u "chunks") max_batch_chars)
    as (batches & st2 & Hrun2 & Hparts & _ & Hfiles & _).
  { exact plain_chunks. }
  { vm_compute. discriminate. }
  { unfold dir_slot_free. rewrite Hframe by (vm_compute; discriminate).
    exact Hbatches. }
  { unfold dir_holds. rewrite Hd'. apply json_files_hold_spec.
    intros name j Hname Hjson.
    destruct (Honly name Hjson ltac:(eauto)) as (i & Hi & ->).
    destruct (lookup_lt_is_Some_2 chunked i Hi) as [c Hc].
    rewrite (Hnew i c Hc) in Hname. injection Hname as <-. apply Hdump. }
  { intros b Hb. apply (proj2 (Hdumps chunked Hsplit)). intros c Hc.
    rewrite <- Hread. exact (Hb c Hc). }
  exists batches, st2. split; [exact Hrun2|]. split; [exact Hfiles|].
  rewrite Hparts. exact Hread.
Qed.

(** The two stages on [pipeline_fs], with a splitter that returns the
    documents whole, the fallback dump, a dump that fails only on
    surrogates and a budget of 60 characters. *)
Lemma chunks_are_batched_in_splitter_order_witness :
  exists posts documents st1,
    pipeline_fs !! u "reddit_search_output.json"
    = Some (File (Parsed (JArr posts)))
    /\ map_result (post_document (fun _ => [])) posts = Ok documents
    /\ process_and_chunk_reddit_data (fun _ => []) WholeDocumentSplitter
         dict_dump utf8_dump pipeline_fs (u "reddit_search_output.json")
         2000 200
       = Ok (Z.of_nat (length documents), st1)
    /\ ((Z.of_nat (length documents) <= 9999)%Z ->
        readable_chunks st1 (u "chunks") = List.map dict_dump documents
        /\ exists batches st2,
             create_batches utf8_dump st1 (u "chunks") 60
             = Ok (Z.of_nat (length batches), st2)
             /\ batch_files st2 (length batches)
                = List.map (fun b => Some (Parsed (JArr b))) batches
             /\ concat batches = List.map dict_dump documents).
Proof.
  apply (chunks_are_batched_in_splitter_order (fun _ => [])
           WholeDocumentSplitter dict_dump utf8_dump pipeline_fs
           (u "reddit_search_output.json") 2000 200 60 (fun docs => docs)).
  - intros d. reflexivity.
  - vm_compute. reflexivity.
  - vm_compute. reflexivity.
  - vm_compute. reflexivity.
  - vm_compute. reflexivity.
  - reflexivity.
  - apply utf8_split_posts_dump. vm_compute. reflexivity.
Defined.

(** ** Without langchain *)

(** With the splitter class defined when langchain cannot be imported,
    the chunker raises [TypeError] on every input file that holds a list
    of post records, empty or not, and so does the pipeline: the call
    passes [separators], which the class does not take. *)
Theorem fallback_splitter_raises (py_str : json -> pystr)
  (model_dump : document -> json) (call_local_analysis : pystr -> option json)
  (json_dump : json -> option exn)
  (st : fs) (input_file : pystr) (chunk_size chunk_overlap : Z)
  (posts : list json) :
  load_json st input_file = Ok (JArr posts) ->
  forallb is_post posts = true ->
  process_and_chunk_reddit_data py_str FallbackTextSplitter model_dump
    json_dump st input_file chunk_size chunk_overlap = Raise TypeError
  /\ run_full_analysis_pipeline py_str FallbackTextSplitter model_dump
       call_local_analysis json_dump st input_file = Raise TypeError.
Proof.
  intros Hload Hposts.
  destruct (load_json_ok _ _ _ Hload) as [Hplain Hin].
  assert (Hchunker : forall cs co,
    process_and_chunk_reddit_data py_str FallbackTextSplitter model_dump
      json_dump st input_file cs co = Raise TypeError).
  { intros cs co.
    unfold process_and_chunk_reddit_data, path_exists, split_posts.
    rewrite Hload. plain_paths. rewrite Hin.
    rewrite bool_decide_eq_true_2 by eauto. cbn [negb bind py_iter].
    destruct (map_result_ok (post_document py_str) posts)
      as (documents & -> & _); [|reflexivity].
    apply Forall_forall. intros post Hpost. apply post_document_ok.
    apply list_elem_of_In in Hpost.
    exact (proj1 (forallb_forall _ _) Hposts post Hpost). }
  split; [apply Hchunker|].
  unfold run_full_analysis_pipeline. rewrite Hchunker. reflexivity.
Qed.

(** On [pipeline_fs], with the fallback dump. *)
Lemma fallback_splitter_raises_witness :
  process_and_chunk_reddit_data (fun _ => []) FallbackTextSplitter dict_dump
    utf8_dump pipeline_fs (u "reddit_search_output.json") 2000 200
  = Raise TypeError
  /\ run_full_analysis_pipeline (fun _ => []) FallbackTextSplitter dict_dump
       (fun _ => None) utf8_dump pipeline_fs (u "reddit_search_output.json")
     = Raise TypeError.
Proof.
  apply (fallback_splitter_raises (fun _ => []) dict_dump (fun _ => None)
           utf8_dump pipeline_fs (u "reddit_search_output.json") 2000 200
           [ trailing_r_post;
             JObj [ (u "title", JStr (u "Other"));
                    (u "url",
                     JStr (u "https://www.reddit.com/r/india/comments/1"));
                    (u "selftext", JStr (u "Text")) ] ]).
  - vm_compute. reflexivity.
  - vm_compute. reflexivity.
Defined.

(** ** A chunk that cannot be dumped *)

Section DumpFails.

Variable model_dump : document -> json.
Variable json_dump : json -> option exn.

Lemma write_chunks_fails (docs : list document) :
  Exists (fun doc => json_dump (model_dump doc) <> None) docs ->
  forall (i : Z) (st : fs) (d : gmap pystr file),
    st !! u "chunks" = Some (Dir d) ->
    exists e doc,
      In doc docs
      /\ json_dump (model_dump doc) = Some e
      /\ write_chunks model_dump json_dump st (u "chunks") i docs = Raise e.
Proof.
  induction docs as [|doc rest IH]; intros Hbad i st d Hd.
  - inversion Hbad.
  - cbn [write_chunks]. unfold write_json. plain_paths. rewrite Hd.
    destruct (json_dump (model_dump doc)) as [e|] eqn:Hdoc.
    + exists e, doc. split; [left; reflexivity|]. done.
    + cbn [bind].
      destruct (IH ltac:(inversion Hbad; [congruence|assumption]) (i + 1)%Z
                  (<[u "chunks" :=
                       Dir (<[chunk_filename i := Parsed (model_dump doc)]> d)]>
                     st)
                  (<[chunk_filename i := Parsed (model_dump doc)]> d))
        as (e & doc' & Hin & He & Hrun); [apply lookup_insert_eq|].
      exists e, doc'. split; [right; exact Hin|]. done.
Qed.

End DumpFails.

(** The writes are not guarded.  When [json.dump] fails on one of the
    chunks the splitter returned (a text with a lone surrogate, say), the
    pipeline raises that error to its caller. *)
Theorem chunk_dump_failure_raises (py_str : json -> pystr)
  (RecursiveCharacterTextSplitter :
     Z -> Z -> list pystr -> result (list document -> list document))
  (model_dump : document -> json) (call_local_analysis : pystr -> option json)
  (json_dump : json -> option exn)
  (st : fs) (input_file : pystr) (chunked : list document) :
  split_posts py_str RecursiveCharacterTextSplitter st input_file 2000 200
  = Ok chunked ->
  dir_slot_free st (u "chunks") = true ->
  Exists (fun doc => json_dump (model_dump doc) <> None) chunked ->
  exists e doc,
    In doc chunked
    /\ json_dump (model_dump doc) = Some e
    /\ run_full_analysis_pipeline py_str RecursiveCharacterTextSplitter
         model_dump call_local_analysis json_dump st input_file = Raise e.
Proof.
  intros Hsplit Hslot Hbad.
  assert (Hload : exists j, load_json st input_file = Ok j).
  { unfold split_posts in Hsplit.
    destruct (load_json st input_file) as [j|]; [eauto|discriminate]. }
  destruct Hload as [j Hload].
  destruct (load_json_ok _ _ _ Hload) as [Hplain Hin].
  unfold run_full_analysis_pipeline, process_and_chunk_reddit_data,
    path_exists.
  plain_paths. rewrite Hin. rewrite bool_decide_eq_true_2 by eauto.
  cbn [negb]. rewrite Hsplit. cbn [bind].
  destruct (makedirs_free st _ plain_chunks Hslot)
    as (st1 & d0 & -> & Hd0 & _ & _).
  cbn [bind]. unfold clean_dir. plain_paths. rewrite Hd0. cbn [bind].
  destruct (write_chunks_fails model_dump json_dump chunked Hbad 0
              (<[u "chunks" := Dir (remove_json_files d0)]> st1)
              (remove_json_files d0))
    as (e & doc & Hdoc & He & ->); [apply lookup_insert_eq|].
  exists e, doc. done.
Qed.

(** On a post whose title is a lone surrogate, with the fallback dump and
    a dump that fails only on surrogates: [UnicodeEncodeError]. *)
Lemma chunk_dump_failure_raises_witness :
  exists e doc,
    In doc
       [ Document
           (u "Title: " ++ [0xD83D%N; 10%N]
            ++ u "URL: https://www.reddit.com/r/india/" ++ [10%N]
            ++ u "Post Body:" ++ [10%N] ++ u "Text")
           (JObj [ (u "source_url",
                    JStr (u "https://www.reddit.com/r/india/"));
                   (u "post_title", JStr [0xD83D%N]);
                   (u "subreddit", JStr (u "india"));
                   (u "score", JNull) ]) ]
    /\ utf8_dump (dict_dump doc) = Some e
    /\ run_full_analysis_pipeline (fun _ => []) WholeDocumentSplitter
         dict_dump (fun _ => None) utf8_dump surrogate_title_fs
         (u "reddit_search_output.json") = Raise e.
Proof.
  apply (chunk_dump_failure_raises (fun _ => []) WholeDocumentSplitter
           dict_dump (fun _ => None) utf8_dump surrogate_title_fs
           (u "reddit_search_output.json")).
  - vm_compute. reflexivity.
  - vm_compute. reflexivity.
  - left. vm_compute. discriminate.
Defined.

(** The error of that run. *)
Example surrogate_title_raises :
  run_full_analysis_pipeline (fun _ => []) WholeDocumentSplitter dict_dump
    (fun _ => None) utf8_dump surrogate_title_fs
    (u "reddit_search_output.json")
  = Raise UnicodeEncodeError.
Proof. vm_compute. reflexivity. Qed.

(** ** The pipeline as a whole *)

(** The pipeline on an input file, named plainly, that is absent or a
    list of post records, with a splitter class that accepts its
    arguments, a dump of documents that yields chunks, chunks and batches
    that can be dumped, and a model whose lists hold dictionaries only,
    whatever the three directories held before.  When there is no claim,
    or the dump of the claims succeeds, it returns the claims; every
    claim carries the name of a batch file of this run and that batch's
    length; the report file holds exactly the returned list when there is
    a claim and is left as it was when there is none; the input file and
    whatever else lies outside the three directories are untouched.  When
    the dump of the claims fails, its error is raised to the caller. *)
Theorem pipeline_returns_stamped_claims (py_str : json -> pystr)
  (RecursiveCharacterTextSplitter :
     Z -> Z -> list pystr -> result (list document -> list document))
  (model_dump : document -> json) (call_local_analysis : pystr -> option json)
  (json_dump : json -> option exn)
  (st : fs) (input_file : pystr) :
  (forall content, answer_ok (call_local_analysis content) = true) ->
  (forall d, is_chunk (model_dump d) = true) ->
  plain_name input_file = true ->
  posts_file_ok st input_file = true ->
  dir_slot_free st (u "chunks") = true ->
  dir_slot_free st (u "batches") = true ->
  dir_slot_free st (u "analysis_results") = true ->
  (exists text_splitter,
      RecursiveCharacterTextSplitter 2000%Z 200%Z separators
      = Ok text_splitter) ->
  (forall chunked,
      split_posts py_str RecursiveCharacterTextSplitter st input_file
        2000 200 = Ok chunked ->
      run_dumps json_dump model_dump chunked) ->
  exists results,
    (results = [] \/ json_dump (JArr results) = None ->
     exists st',
       run_full_analysis_pipeline py_str RecursiveCharacterTextSplitter
         model_dump call_local_analysis json_dump st input_file
       = Ok (results, st')
       /\ Forall (stamped st') results
       /\ report_file st'
          = (if bool_decide (results = []) then report_file st
             else Some (Parsed (JArr results)))
       /\ (forall other,
              other <> u "chunks" -> other <> u "batches" ->
              other <> u "analysis_results" -> st' !! other = st !! other))
    /\ (forall e,
          results <> [] -> json_dump (JArr results) = Some e ->
          run_full_analysis_pipeline py_str RecursiveCharacterTextSplitter
            model_dump call_local_analysis json_dump st input_file
          = Raise e).
Proof.
  intros Hanswers Hdump Hplain Hinput Hchunks Hbatches Hanalysis Hsplitter
         Hdumps.
  unfold run_full_analysis_pipeline.
  destruct (process_and_chunk_run py_str RecursiveCharacterTextSplitter
              model_dump json_dump Hdump st input_file 2000 200
              Hplain Hinput Hchunks Hsplitter)
    as (n & st1 & -> & Hfr1 & Hn).
  { intros chunked Hsplit. apply (Hdumps chunked Hsplit). }
  cbn [bind].
  assert (Hne1 : u "analysis_results" <> u "chunks") by (vm_compute; discriminate).
  assert (Hne2 : u "batches" <> u "chunks") by (vm_compute; discriminate).
  assert (Hne3 : u "analysis_results" <> u "batches") by (vm_compute; discriminate).
  destruct (n =? 0)%Z eqn:En.
  { exists []. split; [|intros e He; done]. intros _.
    exists st1. split; [reflexivity|]. split; [constructor|]. split.
    - apply report_file_frame, Hfr1, Hne1.
    - intros other Ho _ _. apply Hfr1, Ho. }
  destruct Hn as [-> | (dc & chunked & Hsplit & Hdc & Hhold & Hfrom)];
    [discriminate|].
  destruct (create_batches_run json_dump st1 (u "chunks") MAX_BATCH_CHARS)
    as (batches & st2 & -> & _ & _ & _ & Hfr2 & Hd2).
  { exact plain_chunks. }
  { congruence. }
  { unfold dir_slot_free. rewrite (Hfr1 _ Hne2). exact Hbatches. }
  { unfold dir_holds. rewrite Hdc. exact Hhold. }
  { exact (batches_dump_after_chunker json_dump model_dump chunked st1 dc
             Hdc Hfrom (Hdumps chunked Hsplit)). }
  cbn [bind].
  assert (Hrep2 : report_file st2 = report_file st).
  { apply report_file_frame. rewrite (Hfr2 _ Hne3). apply Hfr1, Hne1. }
  destruct (Z.of_nat (length batches) =? 0)%Z.
  { exists []. split; [|intros e He; done]. intros _.
    exists st2. split; [reflexivity|]. split; [constructor|].
    split; [exact Hrep2|].
    intros other Ho1 Ho2 _. rewrite (Hfr2 _ Ho2). apply Hfr1, Ho1. }
  destruct Hd2 as (d2 & Hd2 & Hhold2); [eauto|].
  destruct (analyze_batches_outcome call_local_analysis json_dump Hanswers
              st2)
    as (results & _ & Hreturns & Hraises).
  { unfold dir_holds. rewrite Hd2. exact Hhold2. }
  { unfold dir_slot_free. rewrite (Hfr2 _ Hne3), (Hfr1 _ Hne1). exact Hanalysis. }
  exists results. split; [|exact Hraises].
  intros Hcase.
  destruct (Hreturns Hcase) as (st3 & Hrun & Hstamped & Hreport & Hfr3).
  exists st3. split; [exact Hrun|]. split; [exact Hstamped|]. split.
  - rewrite Hreport, Hrep2. reflexivity.
  - intros other Ho1 Ho2 Ho3.
    rewrite (Hfr3 _ Ho3), (Hfr2 _ Ho2). apply Hfr1, Ho1.
Qed.

(** The pipeline on [pipeline_fs], with a splitter that returns the
    documents whole, the fallback dump, a model that returns one claim
    per batch and a dump that fails only on surrogates. *)
Lemma pipeline_returns_stamped_claims_witness :
  exists results,
    (results = [] \/ utf8_dump (JArr results) = None ->
     exists st',
       run_full_analysis_pipeline (fun _ => []) WholeDocumentSplitter
         dict_dump example_model utf8_dump pipeline_fs
         (u "reddit_search_output.json")
       = Ok (results, st')
       /\ Forall (stamped st') results
       /\ report_file st'
          = (if bool_decide (results = []) then report_file pipeline_fs
             else Some (Parsed (JArr results)))
       /\ (forall other,
              other <> u "chunks" -> other <> u "batches" ->
              other <> u "analysis_results" ->
              st' !! other = pipeline_fs !! other))
    /\ (forall e,
          results <> [] -> utf8_dump (JArr results) = Some e ->
          run_full_analysis_pipeline (fun _ => []) WholeDocumentSplitter
            dict_dump example_model utf8_dump pipeline_fs
            (u "reddit_search_output.json")
          = Raise e).
Proof.
  apply (pipeline_returns_stamped_claims (fun _ => []) WholeDocumentSplitter
           dict_dump example_model utf8_dump pipeline_fs
           (u "reddit_search_output.json")).
  - intros content. reflexivity.
  - intros d. reflexivity.
  - vm_compute. reflexivity.
  - vm_compute. reflexivity.
  - vm_compute. reflexivity.
  - vm_compute. reflexivity.
  - vm_compute. reflexivity.
  - eexists. reflexivity.
  - apply utf8_split_posts_dump. vm_compute. reflexivity.
Defined.

(** On [pipeline_fs] that run returns one claim, stamped with the one
    batch of the run and its two chunks; the stamp replaces the
    [batch_id] the model gave. *)
Example pipeline_run :
  exists st',
    run_full_analysis_pipeline (fun _ => []) WholeDocumentSplitter dict_dump
      example_model utf8_dump pipeline_fs (u "reddit_search_output.json")
    = Ok ([ JObj [ (u "claim", JStr (u "A claim"));
                   (u "batch_id", JStr (u "batch_01"));
                   (u "chunk_count", JInt 2) ] ], st').
Proof. eexists. vm_compute. reflexivity. Qed.

End FinalProps.
